(** * OneHive backend: service-request lifecycle, live tracking and
      proximity matching

    A shallow embedding of the Express/Mongoose route handlers of the
    OneHive backend (routes/service, routes/tracking, routes/worker and
    utils/helpers) together with the properties the specification states
    about them.

    Conventions of the embedding.
    - A Mongo collection is the list of its documents in insertion order;
      [findById] and [findOne] return the first match, [save] replaces the
      document carrying the same [_id], [create] appends a document with a
      fresh [_id].
    - An ObjectId is a natural number; [a.toString() === b.toString()] is
      [Nat.eqb].
    - [new Date()] and [Date.now()] are the handler's argument [now].
    - A JavaScript [Number] that the code computes distances with is a real
      number (the IEEE rounding of doubles is not modelled); ratings, costs
      and counters are integers.
    - A handler is a function from the store to a response and a store.
      A thrown exception reaches the error middleware of server.js, which
      answers 500. *)

From Stdlib Require Import List Arith Bool ZArith String Lia.
From Stdlib Require Import Reals Lra.
Import ListNotations.

Local Open Scope string_scope.
Local Open Scope nat_scope.

(** ** utils/helpers: great-circle distance *)

Module Helpers.

Local Open Scope R_scope.

(** [Math.atan2 y x] on real arguments. *)
Definition atan2 (y x : R) : R :=
  if Rlt_dec 0 x then atan (y / x)
  else if Rlt_dec x 0 then
         if Rle_dec 0 y then atan (y / x) + PI else atan (y / x) - PI
  else if Rlt_dec 0 y then PI / 2
  else if Rlt_dec y 0 then - (PI / 2)
  else 0.

Definition toRadians (degrees : R) : R := degrees * (PI / 180).

(** [exports.calculateDistance = (lat1, lon1, lat2, lon2) => ...] *)
Definition calculateDistance (lat1 lon1 lat2 lon2 : R) : R :=
  let R := 6371 in
  let dLat := toRadians (lat2 - lat1) in
  let dLon := toRadians (lon2 - lon1) in
  let a :=
    sin (dLat / 2) * sin (dLat / 2) +
    cos (toRadians lat1) * cos (toRadians lat2) *
    sin (dLon / 2) * sin (dLon / 2) in
  let c := 2 * atan2 (sqrt a) (sqrt (1 - a)) in
  R * c.

(** The haversine term [a] of the source, named for the proofs. *)
Definition haversine_a (lat1 lon1 lat2 lon2 : R) : R :=
  sin (toRadians (lat2 - lat1) / 2) * sin (toRadians (lat2 - lat1) / 2) +
  cos (toRadians lat1) * cos (toRadians lat2) *
  sin (toRadians (lon2 - lon1) / 2) * sin (toRadians (lon2 - lon1) / 2).

End Helpers.

(** ** Documents (models/ServiceRequest, models/Worker, models/Tracking,
       models/Review, models/User) *)

Definition ObjectId := nat.
Definition Time := nat.

(** GeoJSON position [[longitude, latitude]].  Every collection below
    carries a 2dsphere index on its location, so a stored position always
    has exactly these two numbers. *)
Definition Coordinates := (R * R)%type.

Definition lng (c : Coordinates) : R := fst c.
Definition lat (c : Coordinates) : R := snd c.

(** The schema default [[0, 0]]. *)
Definition origin : Coordinates := (0%R, 0%R).

(** [User.role] *)
Inductive Role := role_customer | role_worker | role_shop | role_admin.

(** The authenticated caller that the [protect] middleware puts in
    [req.user]. *)
Record User := mkUser { u_id : ObjectId; u_role : Role }.

(** The [enum] shared by [Worker.profession] and
    [ServiceRequest.serviceType]. *)
Inductive Profession :=
| plumber | electrician | carpenter | painter | cleaner
| driver | mechanic | appliance | pest_control | other.

(** [ServiceRequest.status] *)
Inductive Status :=
| pending | accepted | rejected | in_progress | completed | cancelled.

(** [Tracking.status] *)
Inductive TrackingStatus := en_route | arrived | working | t_completed.

(** A service request.  The payload fields that no handler reads after
    creation (title, description, address, schedule, images) are left
    out. *)
Record ServiceRequest := mkServiceRequest {
  sr_id : ObjectId;
  sr_customer : ObjectId;
  sr_worker : option ObjectId;
  sr_serviceType : Profession;
  sr_location : Coordinates;
  sr_estimatedCost : Z;
  sr_status : Status;
  sr_acceptedAt : option Time;
  sr_startedAt : option Time;
  sr_completedAt : option Time;
  sr_cancelledAt : option Time;
  sr_cancellationReason : option string;
  sr_customerRating : option Z;
  sr_customerReview : option string;
  sr_workerRating : option Z;
  sr_workerReview : option string;
  sr_createdAt : Time;
  sr_updatedAt : Time
}.

Record WorkerLocation := mkWorkerLocation {
  wl_coordinates : Coordinates;
  wl_address : string
}.

Record Worker := mkWorker {
  w_id : ObjectId;
  w_user : ObjectId;
  w_profession : Profession;
  w_isVerified : bool;
  w_location : WorkerLocation;
  w_serviceArea : R;
  w_ratingAverage : R;
  w_ratingCount : nat;
  w_completedJobs : Z;
  w_isAvailable : bool;
  w_updatedAt : Time
}.

Record HistoryEntry := mkHistoryEntry {
  h_coordinates : Coordinates;
  h_address : string;
  h_timestamp : Time
}.

Record CurrentLocation := mkCurrentLocation {
  cl_coordinates : Coordinates;
  cl_address : string;
  cl_timestamp : Time
}.

Record Tracking := mkTracking {
  t_id : ObjectId;
  t_serviceRequest : ObjectId;
  t_worker : ObjectId;
  t_customer : ObjectId;
  t_currentLocation : CurrentLocation;
  t_destination : Coordinates;
  t_status : TrackingStatus;
  t_isLive : bool;
  t_locationHistory : list HistoryEntry;
  t_startedAt : Time;
  t_endedAt : option Time;
  t_updatedAt : Time
}.

Record Review := mkReview {
  rv_id : ObjectId;
  rv_serviceRequest : ObjectId;
  rv_reviewer : ObjectId;
  rv_reviewee : ObjectId;
  rv_worker : option ObjectId;
  rv_rating : Z;
  rv_review : string;
  rv_reviewType : string;
  rv_isActive : bool
}.

(** The four collections the handlers touch. *)
Record Store := mkStore {
  requests : list ServiceRequest;
  workers : list Worker;
  trackings : list Tracking;
  reviews : list Review
}.

(** The JSON envelope with its HTTP status: [res.status(c).json({success,
    message})].  The [data] member is returned separately by the listing
    handlers and left out elsewhere. *)
Record Response := mkResponse {
  res_status : nat;
  res_success : bool;
  res_message : string
}.

(** ** Field assignment

    [set_sr_status v d] is the document [d] after [d.status = v]; likewise
    for the other fields the handlers assign. *)

Definition set_sr_worker (v : option ObjectId) (d : ServiceRequest) : ServiceRequest :=
  mkServiceRequest (sr_id d) (sr_customer d) v (sr_serviceType d)
    (sr_location d) (sr_estimatedCost d) (sr_status d) (sr_acceptedAt d)
    (sr_startedAt d) (sr_completedAt d) (sr_cancelledAt d)
    (sr_cancellationReason d) (sr_customerRating d) (sr_customerReview d)
    (sr_workerRating d) (sr_workerReview d) (sr_createdAt d)
    (sr_updatedAt d).

Definition set_sr_status (v : Status) (d : ServiceRequest) : ServiceRequest :=
  mkServiceRequest (sr_id d) (sr_customer d) (sr_worker d)
    (sr_serviceType d) (sr_location d) (sr_estimatedCost d) v
    (sr_acceptedAt d) (sr_startedAt d) (sr_completedAt d) (sr_cancelledAt d)
    (sr_cancellationReason d) (sr_customerRating d) (sr_customerReview d)
    (sr_workerRating d) (sr_workerReview d) (sr_createdAt d)
    (sr_updatedAt d).

Definition set_sr_acceptedAt (v : option Time) (d : ServiceRequest) : ServiceRequest :=
  mkServiceRequest (sr_id d) (sr_customer d) (sr_worker d)
    (sr_serviceType d) (sr_location d) (sr_estimatedCost d) (sr_status d) v
    (sr_startedAt d) (sr_completedAt d) (sr_cancelledAt d)
    (sr_cancellationReason d) (sr_customerRating d) (sr_customerReview d)
    (sr_workerRating d) (sr_workerReview d) (sr_createdAt d)
    (sr_updatedAt d).

Definition set_sr_startedAt (v : option Time) (d : ServiceRequest) : ServiceRequest :=
  mkServiceRequest (sr_id d) (sr_customer d) (sr_worker d)
    (sr_serviceType d) (sr_location d) (sr_estimatedCost d) (sr_status d)
    (sr_acceptedAt d) v (sr_completedAt d) (sr_cancelledAt d)
    (sr_cancellationReason d) (sr_customerRating d) (sr_customerReview d)
    (sr_workerRating d) (sr_workerReview d) (sr_createdAt d)
    (sr_updatedAt d).

Definition set_sr_completedAt (v : option Time) (d : ServiceRequest) : ServiceRequest :=
  mkServiceRequest (sr_id d) (sr_customer d) (sr_worker d)
    (sr_serviceType d) (sr_location d) (sr_estimatedCost d) (sr_status d)
    (sr_acceptedAt d) (sr_startedAt d) v (sr_cancelledAt d)
    (sr_cancellationReason d) (sr_customerRating d) (sr_customerReview d)
    (sr_workerRating d) (sr_workerReview d) (sr_createdAt d)
    (sr_updatedAt d).

Definition set_sr_cancelledAt (v : option Time) (d : ServiceRequest) : ServiceRequest :=
  mkServiceRequest (sr_id d) (sr_customer d) (sr_worker d)
    (sr_serviceType d) (sr_location d) (sr_estimatedCost d) (sr_status d)
    (sr_acceptedAt d) (sr_startedAt d) (sr_completedAt d) v
    (sr_cancellationReason d) (sr_customerRating d) (sr_customerReview d)
    (sr_workerRating d) (sr_workerReview d) (sr_createdAt d)
    (sr_updatedAt d).

Definition set_sr_cancellationReason (v : option string) (d : ServiceRequest) : ServiceRequest :=
  mkServiceRequest (sr_id d) (sr_customer d) (sr_worker d)
    (sr_serviceType d) (sr_location d) (sr_estimatedCost d) (sr_status d)
    (sr_acceptedAt d) (sr_startedAt d) (sr_completedAt d) (sr_cancelledAt d)
    v (sr_customerRating d) (sr_customerReview d) (sr_workerRating d)
    (sr_workerReview d) (sr_createdAt d) (sr_updatedAt d).

Definition set_sr_estimatedCost (v : Z) (d : ServiceRequest) : ServiceRequest :=
  mkServiceRequest (sr_id d) (sr_customer d) (sr_worker d)
    (sr_serviceType d) (sr_location d) v (sr_status d) (sr_acceptedAt d)
    (sr_startedAt d) (sr_completedAt d) (sr_cancelledAt d)
    (sr_cancellationReason d) (sr_customerRating d) (sr_customerReview d)
    (sr_workerRating d) (sr_workerReview d) (sr_createdAt d)
    (sr_updatedAt d).

Definition set_sr_customerRating (v : option Z) (d : ServiceRequest) : ServiceRequest :=
  mkServiceRequest (sr_id d) (sr_customer d) (sr_worker d)
    (sr_serviceType d) (sr_location d) (sr_estimatedCost d) (sr_status d)
    (sr_acceptedAt d) (sr_startedAt d) (sr_completedAt d) (sr_cancelledAt d)
    (sr_cancellationReason d) v (sr_customerReview d) (sr_workerRating d)
    (sr_workerReview d) (sr_createdAt d) (sr_updatedAt d).

Definition set_sr_customerReview (v : option string) (d : ServiceRequest) : ServiceRequest :=
  mkServiceRequest (sr_id d) (sr_customer d) (sr_worker d)
    (sr_serviceType d) (sr_location d) (sr_estimatedCost d) (sr_status d)
    (sr_acceptedAt d) (sr_startedAt d) (sr_completedAt d) (sr_cancelledAt d)
    (sr_cancellationReason d) (sr_customerRating d) v (sr_workerRating d)
    (sr_workerReview d) (sr_createdAt d) (sr_updatedAt d).

Definition set_sr_updatedAt (v : Time) (d : ServiceRequest) : ServiceRequest :=
  mkServiceRequest (sr_id d) (sr_customer d) (sr_worker d)
    (sr_serviceType d) (sr_location d) (sr_estimatedCost d) (sr_status d)
    (sr_acceptedAt d) (sr_startedAt d) (sr_completedAt d) (sr_cancelledAt d)
    (sr_cancellationReason d) (sr_customerRating d) (sr_customerReview d)
    (sr_workerRating d) (sr_workerReview d) (sr_createdAt d) v.

Definition set_w_location (v : WorkerLocation) (d : Worker) : Worker :=
  mkWorker (w_id d) (w_user d) (w_profession d) (w_isVerified d) v
    (w_serviceArea d) (w_ratingAverage d) (w_ratingCount d)
    (w_completedJobs d) (w_isAvailable d) (w_updatedAt d).

Definition set_w_ratingAverage (v : R) (d : Worker) : Worker :=
  mkWorker (w_id d) (w_user d) (w_profession d) (w_isVerified d)
    (w_location d) (w_serviceArea d) v (w_ratingCount d) (w_completedJobs d)
    (w_isAvailable d) (w_updatedAt d).

Definition set_w_ratingCount (v : nat) (d : Worker) : Worker :=
  mkWorker (w_id d) (w_user d) (w_profession d) (w_isVerified d)
    (w_location d) (w_serviceArea d) (w_ratingAverage d) v
    (w_completedJobs d) (w_isAvailable d) (w_updatedAt d).

Definition set_w_completedJobs (v : Z) (d : Worker) : Worker :=
  mkWorker (w_id d) (w_user d) (w_profession d) (w_isVerified d)
    (w_location d) (w_serviceArea d) (w_ratingAverage d) (w_ratingCount d) v
    (w_isAvailable d) (w_updatedAt d).

Definition set_w_updatedAt (v : Time) (d : Worker) : Worker :=
  mkWorker (w_id d) (w_user d) (w_profession d) (w_isVerified d)
    (w_location d) (w_serviceArea d) (w_ratingAverage d) (w_ratingCount d)
    (w_completedJobs d) (w_isAvailable d) v.

Definition set_t_currentLocation (v : CurrentLocation) (d : Tracking) : Tracking :=
  mkTracking (t_id d) (t_serviceRequest d) (t_worker d) (t_customer d) v
    (t_destination d) (t_status d) (t_isLive d) (t_locationHistory d)
    (t_startedAt d) (t_endedAt d) (t_updatedAt d).

Definition set_t_status (v : TrackingStatus) (d : Tracking) : Tracking :=
  mkTracking (t_id d) (t_serviceRequest d) (t_worker d) (t_customer d)
    (t_currentLocation d) (t_destination d) v (t_isLive d)
    (t_locationHistory d) (t_startedAt d) (t_endedAt d) (t_updatedAt d).

Definition set_t_isLive (v : bool) (d : Tracking) : Tracking :=
  mkTracking (t_id d) (t_serviceRequest d) (t_worker d) (t_customer d)
    (t_currentLocation d) (t_destination d) (t_status d) v
    (t_locationHistory d) (t_startedAt d) (t_endedAt d) (t_updatedAt d).

Definition set_t_locationHistory (v : list HistoryEntry) (d : Tracking) : Tracking :=
  mkTracking (t_id d) (t_serviceRequest d) (t_worker d) (t_customer d)
    (t_currentLocation d) (t_destination d) (t_status d) (t_isLive d) v
    (t_startedAt d) (t_endedAt d) (t_updatedAt d).

Definition set_t_endedAt (v : option Time) (d : Tracking) : Tracking :=
  mkTracking (t_id d) (t_serviceRequest d) (t_worker d) (t_customer d)
    (t_currentLocation d) (t_destination d) (t_status d) (t_isLive d)
    (t_locationHistory d) (t_startedAt d) v (t_updatedAt d).

Definition set_t_updatedAt (v : Time) (d : Tracking) : Tracking :=
  mkTracking (t_id d) (t_serviceRequest d) (t_worker d) (t_customer d)
    (t_currentLocation d) (t_destination d) (t_status d) (t_isLive d)
    (t_locationHistory d) (t_startedAt d) (t_endedAt d) v.

Definition set_requests (v : list ServiceRequest) (st : Store) : Store :=
  mkStore v (workers st) (trackings st) (reviews st).

Definition set_workers (v : list Worker) (st : Store) : Store :=
  mkStore (requests st) v (trackings st) (reviews st).

Definition set_trackings (v : list Tracking) (st : Store) : Store :=
  mkStore (requests st) (workers st) v (reviews st).

Definition set_reviews (v : list Review) (st : Store) : Store :=
  mkStore (requests st) (workers st) (trackings st) v.

(** ** Equality tests on the enumerations *)

Definition Status_eqb (a b : Status) : bool :=
  match a, b with
  | pending, pending | accepted, accepted | rejected, rejected
  | in_progress, in_progress | completed, completed
  | cancelled, cancelled => true
  | _, _ => false
  end.

Definition Role_eqb (a b : Role) : bool :=
  match a, b with
  | role_customer, role_customer | role_worker, role_worker
  | role_shop, role_shop | role_admin, role_admin => true
  | _, _ => false
  end.

Definition Profession_index (p : Profession) : nat :=
  match p with
  | plumber => 0 | electrician => 1 | carpenter => 2 | painter => 3
  | cleaner => 4 | driver => 5 | mechanic => 6 | appliance => 7
  | pest_control => 8 | other => 9
  end.

Definition Profession_eqb (a b : Profession) : bool :=
  Profession_index a =? Profession_index b.

(** ** Collections *)

Section Collection.

Context {A : Type} (id_of : A -> ObjectId).

(** [Model.findOne(query)]: the first document that matches. *)
Definition findOne (p : A -> bool) (c : list A) : option A := find p c.

(** [Model.findById(id)] *)
Definition findById (id : ObjectId) (c : list A) : option A :=
  find (fun d => id_of d =? id) c.

(** The write of [doc.save()]: the stored document with the same [_id] is
    replaced. *)
Definition replaceById (d : A) (c : list A) : list A :=
  map (fun x => if id_of x =? id_of d then d else x) c.

(** [Model.findOneAndUpdate(query, update)]: the first match is updated,
    without running the save hooks. *)
Fixpoint updateFirst (p : A -> bool) (f : A -> A) (c : list A) : list A :=
  match c with
  | [] => []
  | x :: c' => if p x then f x :: c' else x :: updateFirst p f c'
  end.

(** [.sort({key: -1})]: descending by [key], ties in collection order. *)
Fixpoint insert_desc (key : A -> Time) (x : A) (l : list A) : list A :=
  match l with
  | [] => [x]
  | y :: l' => if key y <=? key x then x :: l else y :: insert_desc key x l'
  end.

Definition sort_desc (key : A -> Time) (l : list A) : list A :=
  fold_right (insert_desc key) [] l.

(** The [_id] that [Model.create] gives a new document: one that no
    document of the collection carries. *)
Definition freshId (c : list A) : ObjectId :=
  S (fold_right Nat.max 0 (map id_of c)).

End Collection.

(** ** The [pre('save')] hooks: every schema refreshes [updatedAt] *)

Definition save_request (now : Time) (d : ServiceRequest) (st : Store) : Store :=
  set_requests (replaceById sr_id (set_sr_updatedAt now d) (requests st)) st.

Definition save_worker (now : Time) (d : Worker) (st : Store) : Store :=
  set_workers (replaceById w_id (set_w_updatedAt now d) (workers st)) st.

Definition save_tracking (now : Time) (d : Tracking) (st : Store) : Store :=
  set_trackings (replaceById t_id (set_t_updatedAt now d) (trackings st)) st.

(** ** Comparisons of numbers: [x === y] and [x <= y] *)

Definition Reqb (x y : R) : bool := if Req_dec_T x y then true else false.
Definition Rleb (x y : R) : bool := if Rle_dec x y then true else false.

(** ** JavaScript truthiness of the request-body members the handlers test *)

(** [s || dflt] for a string member that may be absent: the empty string
    is falsy. *)
Definition string_or (s : option string) (dflt : string) : string :=
  match s with
  | Some v => if String.eqb v "" then dflt else v
  | None => dflt
  end.

(** [if (n)] for a numeric member that may be absent: zero is falsy. *)
Definition truthy_number (n : option Z) : bool :=
  match n with
  | Some v => negb (Z.eqb v 0)
  | None => false
  end.

(** [c || dflt] for an array member that may be absent: every array is
    truthy. *)
Definition coordinates_or (c : option Coordinates) (dflt : Coordinates) : Coordinates :=
  match c with
  | Some v => v
  | None => dflt
  end.

(** ** Responses *)

Definition ok (msg : string) : Response := mkResponse 200 true msg.
Definition created (msg : string) : Response := mkResponse 201 true msg.
Definition bad_request (msg : string) : Response := mkResponse 400 false msg.
Definition forbidden (msg : string) : Response := mkResponse 403 false msg.
Definition not_found (msg : string) : Response := mkResponse 404 false msg.

(** The error middleware of server.js, reached through [next(error)]. *)
Definition internal_error : Response :=
  mkResponse 500 false "Internal server error".

(** Modelled from the spec: middleware/auth is not among the sources.  The
    identity collaborator supplies the caller and the caller's role;
    [authorize(role)] lets the handler run only for that role and answers
    403 otherwise. *)
Definition authorize (r : Role) (user : User) : bool := Role_eqb (u_role user) r.

Definition not_authorized : Response :=
  forbidden "User role is not authorized to access this route".

(** The error classes of the specification, read off the HTTP status. *)
Definition InvalidState (r : Response) : Prop := res_status r = 400.
Definition Forbidden (r : Response) : Prop := res_status r = 403.
Definition NotFound (r : Response) : Prop := res_status r = 404.

(** ** routes/service *)

Module Service.

(** The members of [req.body] that [POST /api/services] stores. *)
Record CreateBody := mkCreateBody {
  cb_serviceType : Profession;
  cb_coordinates : option Coordinates;
  cb_estimatedCost : option Z
}.

(** [router.post('/', protect, ...)] *)
Definition create (now : Time) (user : User) (body : CreateBody) (st : Store)
  : Response * Store :=
  let serviceRequest :=
    mkServiceRequest (freshId sr_id (requests st)) (u_id user) None
      (cb_serviceType body)
      (coordinates_or (cb_coordinates body) origin)
      (match cb_estimatedCost body with Some c => c | None => 0%Z end)
      pending None None None None None None None None None now now in
  (created "Service request created successfully",
   set_requests (requests st ++ [serviceRequest]) st).

(** [router.put('/:id/accept', protect, authorize('worker'), ...)] *)
Definition accept (now : Time) (user : User) (id : ObjectId) (st : Store)
  : Response * Store :=
  if negb (authorize role_worker user) then (not_authorized, st) else
  match findById sr_id id (requests st) with
  | None => (not_found "Service request not found", st)
  | Some serviceRequest =>
    if negb (Status_eqb (sr_status serviceRequest) pending) then
      (bad_request "This service request is no longer available", st)
    else
    match findOne (fun w => w_user w =? u_id user) (workers st) with
    | None => (not_found "Worker profile not found", st)
    | Some worker =>
      let serviceRequest :=
        set_sr_acceptedAt (Some now)
          (set_sr_status accepted
            (set_sr_worker (Some (w_id worker)) serviceRequest)) in
      let st := save_request now serviceRequest st in
      let worker := set_w_completedJobs (w_completedJobs worker + 1)%Z worker in
      let st := save_worker now worker st in
      (ok "Service request accepted", st)
    end
  end.

(** [router.put('/:id/reject', protect, ...)] *)
Definition reject (now : Time) (user : User) (id : ObjectId)
  (cancellationReason : option string) (st : Store) : Response * Store :=
  match findById sr_id id (requests st) with
  | None => (not_found "Service request not found", st)
  | Some serviceRequest =>
    let isWorker :=
      match sr_worker serviceRequest with
      | Some w => w =? u_id user
      | None => false
      end in
    let isCustomer := sr_customer serviceRequest =? u_id user in
    if negb isWorker && negb isCustomer && negb (Role_eqb (u_role user) role_admin)
    then (forbidden "Not authorized to reject this service request", st)
    else
      let serviceRequest :=
        if isWorker then
          set_sr_cancellationReason
            (Some (string_or cancellationReason "Rejected by worker"))
            (set_sr_status rejected serviceRequest)
        else if isCustomer then
          set_sr_cancellationReason
            (Some (string_or cancellationReason "Cancelled by customer"))
            (set_sr_status cancelled serviceRequest)
        else serviceRequest in
      let serviceRequest := set_sr_cancelledAt (Some now) serviceRequest in
      let st := save_request now serviceRequest st in
      (ok (if isWorker then "Service request rejected"
           else "Service request cancelled"), st)
  end.

(** The document that [Tracking.create] builds in the start handler: no
    [isLive] and no [locationHistory] are passed, so the schema defaults
    ([true] and the empty array) apply. *)
Definition started_tracking (now : Time) (id : ObjectId)
  (serviceRequest : ServiceRequest) (worker : Worker) : Tracking :=
  mkTracking id (sr_id serviceRequest) (w_id worker) (sr_customer serviceRequest)
    (mkCurrentLocation (wl_coordinates (w_location worker))
                       (wl_address (w_location worker)) now)
    (sr_location serviceRequest) en_route true [] now None now.

(** [router.put('/:id/start', protect, authorize('worker'), ...)] *)
Definition start (now : Time) (user : User) (id : ObjectId) (st : Store)
  : Response * Store :=
  if negb (authorize role_worker user) then (not_authorized, st) else
  match findById sr_id id (requests st) with
  | None => (not_found "Service request not found", st)
  | Some serviceRequest =>
    match findOne (fun w => w_user w =? u_id user) (workers st) with
    | None => (forbidden "Not authorized to start this service", st)
    | Some worker =>
      match sr_worker serviceRequest with
      | None => (internal_error, st)
      | Some assigned =>
        if negb (assigned =? w_id worker) then
          (forbidden "Not authorized to start this service", st)
        else if negb (Status_eqb (sr_status serviceRequest) accepted) then
          (bad_request "Service must be accepted before starting", st)
        else
          let serviceRequest :=
            set_sr_startedAt (Some now)
              (set_sr_status in_progress serviceRequest) in
          let st := save_request now serviceRequest st in
          let tracking :=
            started_tracking now (freshId t_id (trackings st))
              serviceRequest worker in
          let st := set_trackings (trackings st ++ [tracking]) st in
          (ok "Service started", st)
      end
    end
  end.

(** [router.put('/:id/complete', protect, authorize('worker'), ...)] *)
Definition complete (now : Time) (user : User) (id : ObjectId)
  (actualCost : option Z) (st : Store) : Response * Store :=
  if negb (authorize role_worker user) then (not_authorized, st) else
  match findById sr_id id (requests st) with
  | None => (not_found "Service request not found", st)
  | Some serviceRequest =>
    match findOne (fun w => w_user w =? u_id user) (workers st) with
    | None => (forbidden "Not authorized to complete this service", st)
    | Some worker =>
      match sr_worker serviceRequest with
      | None => (internal_error, st)
      | Some assigned =>
        if negb (assigned =? w_id worker) then
          (forbidden "Not authorized to complete this service", st)
        else if negb (Status_eqb (sr_status serviceRequest) in_progress) then
          (bad_request "Service must be in progress to complete", st)
        else
          let serviceRequest :=
            set_sr_completedAt (Some now)
              (set_sr_status completed serviceRequest) in
          let serviceRequest :=
            match actualCost with
            | Some c => if truthy_number actualCost
                        then set_sr_estimatedCost c serviceRequest
                        else serviceRequest
            | None => serviceRequest
            end in
          let st := save_request now serviceRequest st in
          let st :=
            set_trackings
              (updateFirst
                 (fun t => t_serviceRequest t =? sr_id serviceRequest)
                 (fun t => set_t_endedAt (Some now)
                             (set_t_status t_completed (set_t_isLive false t)))
                 (trackings st)) st in
          (ok "Service completed successfully", st)
      end
    end
  end.

(** [Review.updateRating(targetId, 'worker')] of models/Review: the mean
    of the active reviews of the worker, rounded to one decimal by
    [Math.round(avg * 10) / 10], and their number. *)
Definition updateRating_worker (targetId : ObjectId) (st : Store) : Store :=
  let result :=
    filter (fun r => match rv_worker r with
                     | Some w => (w =? targetId) && rv_isActive r
                     | None => false
                     end) (reviews st) in
  match result with
  | [] => st
  | _ :: _ =>
    let count := List.length result in
    let sum := fold_right Z.add 0%Z (map rv_rating result) in
    let tenths := ((20 * sum + Z.of_nat count) / (2 * Z.of_nat count))%Z in
    set_workers
      (updateFirst (fun w => w_id w =? targetId)
         (fun w => set_w_ratingCount count
                     (set_w_ratingAverage (IZR tenths / 10)%R w))
         (workers st)) st
  end.

(** The [min: 1, max: 5, required] validators of [Review.rating]. *)
Definition valid_rating (rating : option Z) : option Z :=
  match rating with
  | Some r => if ((1 <=? r) && (r <=? 5))%Z then Some r else None
  | None => None
  end.

(** [router.put('/:id/rate', protect, ...)] *)
Definition rate (now : Time) (user : User) (id : ObjectId)
  (rating : option Z) (review : option string) (reviewType : string)
  (st : Store) : Response * Store :=
  match findById sr_id id (requests st) with
  | None => (not_found "Service request not found", st)
  | Some serviceRequest =>
    if negb (Status_eqb (sr_status serviceRequest) completed) then
      (bad_request "Can only rate completed services", st)
    else if truthy_number (sr_customerRating serviceRequest) then
      (bad_request "Service already rated", st)
    else
      let isCustomer := sr_customer serviceRequest =? u_id user in
      if isCustomer && String.eqb reviewType "customer_to_worker" then
        let serviceRequest :=
          set_sr_customerReview (Some (string_or review ""))
            (set_sr_customerRating rating serviceRequest) in
        match match sr_worker serviceRequest with
              | Some w => findById w_id w (workers st)
              | None => None
              end with
        | None => (internal_error, st)
        | Some worker =>
          match valid_rating rating with
          | None => (internal_error, st)
          | Some r =>
            let st :=
              set_reviews
                (reviews st ++
                 [mkReview (freshId rv_id (reviews st)) (sr_id serviceRequest)
                    (u_id user) (w_user worker) (Some (w_id worker)) r
                    (string_or review "") "customer_to_worker" true]) st in
            let st := updateRating_worker (w_id worker) st in
            let st := save_request now serviceRequest st in
            (ok "Rating submitted successfully", st)
          end
        end
      else
        let st := save_request now serviceRequest st in
        (ok "Rating submitted successfully", st)
  end.

(** The members of [req.query] of the proximity listings, already parsed
    by [parseFloat]; [None] is an absent member. *)
Record NearbyQuery := mkNearbyQuery {
  q_latitude : option R;
  q_longitude : option R;
  q_radius : option R
}.

Section Near.

(** The distance in metres that the store's 2dsphere index measures
    between two positions; it is the store's, not the repository's. *)
Variable geoDistance : Coordinates -> Coordinates -> R.

(** [location: { $near: { $geometry: center, $maxDistance: m } }] *)
Definition near (center : Coordinates) (maxDistance : R) (c : Coordinates) : bool :=
  Rleb (geoDistance center c) maxDistance.

(** [router.get('/nearby/requests', protect, authorize('worker'), ...)];
    the second component is [data.requests]. *)
Definition nearby_requests (user : User) (query : NearbyQuery) (st : Store)
  : Response * list ServiceRequest :=
  if negb (authorize role_worker user) then (not_authorized, []) else
  match q_latitude query, q_longitude query with
  | Some latitude, Some longitude =>
    let radius := match q_radius query with Some r => r | None => 10%R end in
    match findOne (fun w => w_user w =? u_id user) (workers st) with
    | None => (not_found "Worker profile not found", [])
    | Some worker =>
      (ok "",
       sort_desc sr_createdAt
         (filter
            (fun r =>
               Profession_eqb (sr_serviceType r) (w_profession worker)
               && Status_eqb (sr_status r) pending
               && near (longitude, latitude) (radius * 1000)%R (sr_location r))
            (requests st)))
    end
  | _, _ => (bad_request "Latitude and longitude are required", [])
  end.

End Near.

End Service.

(** ** routes/tracking *)

Module TrackingRoute.

(** [['en_route', 'arrived', 'working', 'completed'].includes(status)] *)
Definition parse_status (status : string) : option TrackingStatus :=
  if String.eqb status "en_route" then Some en_route
  else if String.eqb status "arrived" then Some arrived
  else if String.eqb status "working" then Some working
  else if String.eqb status "completed" then Some t_completed
  else None.

(** [router.post('/', protect, authorize('worker'), ...)] *)
Definition create (now : Time) (user : User) (serviceRequestId : ObjectId)
  (coordinates : option Coordinates) (address : option string) (st : Store)
  : Response * Store :=
  if negb (authorize role_worker user) then (not_authorized, st) else
  match findById sr_id serviceRequestId (requests st) with
  | None => (not_found "Service request not found", st)
  | Some serviceRequest =>
    match findOne (fun w => w_user w =? u_id user) (workers st) with
    | None => (not_found "Worker profile not found", st)
    | Some worker =>
      match findOne (fun t => (t_serviceRequest t =? serviceRequestId)
                              && t_isLive t) (trackings st) with
      | Some existingTracking =>
        (bad_request "Tracking already active for this service", st)
      | None =>
        let tracking :=
          mkTracking (freshId t_id (trackings st)) serviceRequestId
            (w_id worker) (sr_customer serviceRequest)
            (mkCurrentLocation (coordinates_or coordinates origin)
                               (string_or address "") now)
            (sr_location serviceRequest) en_route true
            [mkHistoryEntry (coordinates_or coordinates origin)
                            (string_or address "") now]
            now None now in
        (created "Tracking started",
         set_trackings (trackings st ++ [tracking]) st)
      end
    end
  end.

(** [router.put('/:id/location', protect, authorize('worker'), ...)] *)
Definition update_location (now : Time) (user : User) (id : ObjectId)
  (coordinates : option Coordinates) (address : option string) (st : Store)
  : Response * Store :=
  if negb (authorize role_worker user) then (not_authorized, st) else
  match findById t_id id (trackings st) with
  | None => (not_found "Tracking not found", st)
  | Some tracking =>
    match findOne (fun w => w_user w =? u_id user) (workers st) with
    | None => (forbidden "Not authorized to update this tracking", st)
    | Some worker =>
      if negb (t_worker tracking =? w_id worker) then
        (forbidden "Not authorized to update this tracking", st)
      else
        let tracking :=
          set_t_currentLocation
            (mkCurrentLocation
               (coordinates_or coordinates
                  (cl_coordinates (t_currentLocation tracking)))
               (string_or address (cl_address (t_currentLocation tracking)))
               now) tracking in
        let tracking :=
          set_t_locationHistory
            (t_locationHistory tracking ++
             [mkHistoryEntry
                (coordinates_or coordinates
                   (cl_coordinates (t_currentLocation tracking)))
                (string_or address (cl_address (t_currentLocation tracking)))
                now]) tracking in
        let worker :=
          set_w_location
            (mkWorkerLocation
               (coordinates_or coordinates (wl_coordinates (w_location worker)))
               (string_or address (wl_address (w_location worker))))
            worker in
        let st := save_worker now worker st in
        let st := save_tracking now tracking st in
        (ok "Location updated", st)
    end
  end.

(** [router.put('/:id/status', protect, authorize('worker'), ...)] *)
Definition update_status (now : Time) (user : User) (id : ObjectId)
  (status : string) (st : Store) : Response * Store :=
  if negb (authorize role_worker user) then (not_authorized, st) else
  match findById t_id id (trackings st) with
  | None => (not_found "Tracking not found", st)
  | Some tracking =>
    match findOne (fun w => w_user w =? u_id user) (workers st) with
    | None => (forbidden "Not authorized to update this tracking", st)
    | Some worker =>
      if negb (t_worker tracking =? w_id worker) then
        (forbidden "Not authorized to update this tracking", st)
      else
        match parse_status status with
        | None => (bad_request "Invalid status", st)
        | Some status =>
          let tracking := set_t_status status tracking in
          let tracking :=
            match status with
            | t_completed => set_t_endedAt (Some now) (set_t_isLive false tracking)
            | _ => tracking
            end in
          let st := save_tracking now tracking st in
          let st :=
            match status with
            | arrived =>
              set_requests
                (updateFirst (fun r => sr_id r =? t_serviceRequest tracking)
                   (set_sr_status in_progress) (requests st)) st
            | _ => st
            end in
          (ok "Status updated", st)
        end
    end
  end.

(** [router.put('/:id/end', protect, authorize('worker'), ...)] *)
Definition end_tracking (now : Time) (user : User) (id : ObjectId) (st : Store)
  : Response * Store :=
  if negb (authorize role_worker user) then (not_authorized, st) else
  match findById t_id id (trackings st) with
  | None => (not_found "Tracking not found", st)
  | Some tracking =>
    match findOne (fun w => w_user w =? u_id user) (workers st) with
    | None => (forbidden "Not authorized to end this tracking", st)
    | Some worker =>
      if negb (t_worker tracking =? w_id worker) then
        (forbidden "Not authorized to end this tracking", st)
      else
        let tracking :=
          set_t_endedAt (Some now)
            (set_t_status t_completed (set_t_isLive false tracking)) in
        (ok "Tracking ended", save_tracking now tracking st)
    end
  end.

End TrackingRoute.

(** ** routes/worker *)

Module WorkerRoute.

(** The distance test of the available-requests filter:
    [req.location.coordinates[0] === 0 && req.location.coordinates[1] === 0]
    lets the request through, otherwise [distance <= worker.serviceArea]. *)
Definition in_service_area (worker : Worker) (req : ServiceRequest) : bool :=
  if Reqb (lng (sr_location req)) 0 && Reqb (lat (sr_location req)) 0 then true
  else
    let distance :=
      Helpers.calculateDistance
        (lat (wl_coordinates (w_location worker)))
        (lng (wl_coordinates (w_location worker)))
        (lat (sr_location req)) (lng (sr_location req)) in
    Rleb distance (w_serviceArea worker).

(** [router.get('/available/requests', protect, authorize('worker'), ...)];
    the second component is [data.requests]. *)
Definition available_requests (user : User) (st : Store)
  : Response * list ServiceRequest :=
  if negb (authorize role_worker user) then (not_authorized, []) else
  match findOne (fun w => w_user w =? u_id user) (workers st) with
  | None => (not_found "Worker profile not found", [])
  | Some worker =>
    let requests :=
      sort_desc sr_createdAt
        (filter (fun r => Profession_eqb (sr_serviceType r) (w_profession worker)
                          && Status_eqb (sr_status r) pending)
                (requests st)) in
    (ok "", filter (in_service_area worker) requests)
  end.

Section Near.

Variable geoDistance : Coordinates -> Coordinates -> R.

(** The handler of [router.get('/nearby', optionalAuth, ...)]; the second
    component is the list of workers that [data.workers] is mapped from.
    The optional [profession] filter is the argument [profession].  (The
    router registers ['/:id'] before ['/nearby']; which handler a path
    reaches is not part of this model.) *)
Definition nearby (query : Service.NearbyQuery) (profession : option Profession)
  (st : Store) : Response * list Worker :=
  match Service.q_latitude query, Service.q_longitude query with
  | Some latitude, Some longitude =>
    let radius :=
      match Service.q_radius query with Some r => r | None => 10%R end in
    (ok "",
     filter
       (fun w =>
          w_isVerified w && w_isAvailable w
          && Service.near geoDistance (longitude, latitude) (radius * 1000)%R
               (wl_coordinates (w_location w))
          && match profession with
             | Some p => Profession_eqb (w_profession w) p
             | None => true
             end)
       (workers st))
  | _, _ => (bad_request "Latitude and longitude are required", [])
  end.

End Near.

End WorkerRoute.

(** ** The operations as a transition system *)

(** One API call that changes the store, with the caller and the
    arguments it carries. *)
Inductive Op :=
| OpCreate (user : User) (body : Service.CreateBody)
| OpAccept (user : User) (id : ObjectId)
| OpReject (user : User) (id : ObjectId) (cancellationReason : option string)
| OpStart (user : User) (id : ObjectId)
| OpComplete (user : User) (id : ObjectId) (actualCost : option Z)
| OpRate (user : User) (id : ObjectId) (rating : option Z)
    (review : option string) (reviewType : string)
| OpCreateTracking (user : User) (serviceRequestId : ObjectId)
    (coordinates : option Coordinates) (address : option string)
| OpUpdateLocation (user : User) (id : ObjectId)
    (coordinates : option Coordinates) (address : option string)
| OpUpdateStatus (user : User) (id : ObjectId) (status : string)
| OpEndTracking (user : User) (id : ObjectId).

Definition step (now : Time) (op : Op) (st : Store) : Response * Store :=
  match op with
  | OpCreate user body => Service.create now user body st
  | OpAccept user id => Service.accept now user id st
  | OpReject user id reason => Service.reject now user id reason st
  | OpStart user id => Service.start now user id st
  | OpComplete user id actualCost => Service.complete now user id actualCost st
  | OpRate user id rating review reviewType =>
      Service.rate now user id rating review reviewType st
  | OpCreateTracking user id coordinates address =>
      TrackingRoute.create now user id coordinates address st
  | OpUpdateLocation user id coordinates address =>
      TrackingRoute.update_location now user id coordinates address st
  | OpUpdateStatus user id status => TrackingRoute.update_status now user id status st
  | OpEndTracking user id => TrackingRoute.end_tracking now user id st
  end.

(** The calls of a trace are served one after the other, each at its own
    time; the responses are collected in order. *)
Fixpoint run (trace : list (Time * Op)) (st : Store) : list Response * Store :=
  match trace with
  | [] => ([], st)
  | (now, op) :: trace' =>
    let '(res, st1) := step now op st in
    let '(rs, st2) := run trace' st1 in
    (res :: rs, st2)
  end.

(** A store is reachable when a trace of calls leads to it from a store
    that holds worker profiles only. *)
Definition reachable (st : Store) : Prop :=
  exists ws trace, snd (run trace (mkStore [] ws [] [])) = st.

(** The live tracking records of a service request. *)
Definition live_trackings (serviceRequest : ObjectId) (st : Store) : list Tracking :=
  filter (fun t => (t_serviceRequest t =? serviceRequest) && t_isLive t)
         (trackings st).

(** The edges of the lifecycle of section 4.1 of the specification. *)
Definition lifecycle_edge (a b : Status) : bool :=
  match a, b with
  | pending, accepted | pending, cancelled
  | accepted, in_progress | accepted, rejected | accepted, cancelled
  | in_progress, completed => true
  | _, _ => false
  end.

(** Whether a call is a successful location update of the tracking record
    [id]. *)
Definition location_updates (id : ObjectId) (op : Op) (res : Response) : nat :=
  match op with
  | OpUpdateLocation _ id' _ _ =>
      if (id' =? id) && res_success res then 1 else 0
  | _ => 0
  end.

(** The number of successful location updates of the record [id] along a
    trace. *)
Fixpoint count_location_updates (id : ObjectId) (trace : list (Time * Op))
  (st : Store) : nat :=
  match trace with
  | [] => 0
  | (now, op) :: trace' =>
      location_updates id op (fst (step now op st))
      + count_location_updates id trace' (snd (step now op st))
  end.

(** The calls whose handlers test the status before they change it: all
    but the reject route and the tracking-status route. *)
Definition guarded (op : Op) : bool :=
  match op with
  | OpReject _ _ _ | OpUpdateStatus _ _ _ => false
  | _ => true
  end.

(** ** Callers and stores of the scenarios *)

Definition alice : User := mkUser 1 role_customer.
Definition bob : User := mkUser 2 role_worker.
Definition carol : User := mkUser 3 role_admin.

(** Bob's worker profile: a plumber, never located (the schema default
    position), with the default service area of 10 km. *)
Definition bob_profile : Worker :=
  mkWorker 10 2 plumber true (mkWorkerLocation origin "") 10%R 0%R 0 0%Z true 0.

(** The store before any request: Bob is registered as a worker. *)
Definition registered : Store := mkStore [] [bob_profile] [] [].

(** Alice asks for a plumber and gives no position. *)
Definition plumbing : Service.CreateBody := Service.mkCreateBody plumber None None.

(** A whole job, after which Alice calls the reject route. *)
Definition cancel_after_completion : list (Time * Op) :=
  [(1, OpCreate alice plumbing); (2, OpAccept bob 1); (3, OpStart bob 1);
   (4, OpComplete bob 1 None); (5, OpReject alice 1 None)].

(** Bob opens a tracking session on a request nobody accepted and reports
    his arrival. *)
Definition arrival_before_accept : list (Time * Op) :=
  [(1, OpCreate alice plumbing); (2, OpCreateTracking bob 1 None None);
   (3, OpUpdateStatus bob 1 "arrived")].

(** Bob opens a tracking session on the request he accepted and then
    starts the service. *)
Definition tracking_then_start : list (Time * Op) :=
  [(1, OpCreate alice plumbing); (2, OpAccept bob 1);
   (3, OpCreateTracking bob 1 None None); (4, OpStart bob 1)].

(** Bob starts the service and reports his position twice. *)
Definition start_then_move : list (Time * Op) :=
  [(1, OpCreate alice plumbing); (2, OpAccept bob 1); (3, OpStart bob 1);
   (4, OpUpdateLocation bob 1 (Some (77.6, 12.98)%R) None);
   (5, OpUpdateLocation bob 1 (Some (77.59, 12.97)%R) None)].

(** The same with the tracking session opened by the create-tracking
    route. *)
Definition track_then_move : list (Time * Op) :=
  [(1, OpCreate alice plumbing); (2, OpAccept bob 1);
   (3, OpCreateTracking bob 1 None None);
   (4, OpUpdateLocation bob 1 (Some (77.6, 12.98)%R) None);
   (5, OpUpdateLocation bob 1 (Some (77.59, 12.97)%R) None)].

(** A whole job, rated by Alice and then by Bob. *)
Definition rated_both_ways : list (Time * Op) :=
  [(1, OpCreate alice plumbing); (2, OpAccept bob 1); (3, OpStart bob 1);
   (4, OpComplete bob 1 None);
   (5, OpRate alice 1 (Some 5%Z) None "customer_to_worker");
   (6, OpRate bob 1 (Some 4%Z) None "worker_to_customer")].

(** The store after Bob completed Alice's request. *)
Definition job_done : Store :=
  snd (run [(1, OpCreate alice plumbing); (2, OpAccept bob 1);
            (3, OpStart bob 1); (4, OpComplete bob 1 None)] registered).

(** Alice's request and Bob's profile as [job_done] holds them. *)
Definition job_done_request : ServiceRequest :=
  mkServiceRequest 1 1 (Some 10) plumber origin 0 completed (Some 2) (Some 3)
    (Some 4) None None None None None None 1 4.

Definition job_done_worker : Worker :=
  mkWorker 10 2 plumber true (mkWorkerLocation origin "") 10%R 0%R 0 1%Z true 2.

(** Modelled from the spec: the [$near] operator belongs to the store, not
    to the repository.  Section 4.2 has FindNearby measure by the Haversine
    formula; this is that distance, in metres as [$maxDistance] is, and it
    stands for the store's measure in the scenarios of the proximity
    listings. *)
Definition haversine_metres (a b : Coordinates) : R :=
  (Helpers.calculateDistance (lat a) (lng a) (lat b) (lng b) * 1000)%R.

(** Alice asks for a plumber on the equator, at longitude 180. *)
Definition plumbing_far : Service.CreateBody :=
  Service.mkCreateBody plumber (Some (180, 0)%R) None.

(** The store after Alice's request without a position, and the request
    as it is stored. *)
Definition asked : Store := snd (Service.create 1 alice plumbing registered).

Definition asked_request : ServiceRequest :=
  mkServiceRequest 1 1 None plumber origin 0 pending None None None None
    None None None None None 1 1.

(** The store after Alice's request at longitude 180. *)
Definition asked_far : Store := snd (Service.create 1 alice plumbing_far registered).

Definition asked_far_request : ServiceRequest :=
  mkServiceRequest 1 1 None plumber (180, 0)%R 0 pending None None None None
    None None None None None 1 1.

(** ** What a call can do to a stored document *)

(** The ways in which one call, served at time [now], changes a stored
    service request [r]: the assignments of the handlers of routes/service
    and of the status handler of routes/tracking, each followed by the
    save hook where the handler saves. *)
Inductive request_change (now : Time) (r : ServiceRequest) : ServiceRequest -> Prop :=
| rc_same : request_change now r r
| rc_accept (w : ObjectId) :
    sr_status r = pending ->
    request_change now r
      (set_sr_updatedAt now
         (set_sr_acceptedAt (Some now)
            (set_sr_status accepted (set_sr_worker (Some w) r))))
| rc_reject_worker (reason : string) :
    request_change now r
      (set_sr_updatedAt now
         (set_sr_cancelledAt (Some now)
            (set_sr_cancellationReason (Some reason)
               (set_sr_status rejected r))))
| rc_reject_customer (reason : string) :
    request_change now r
      (set_sr_updatedAt now
         (set_sr_cancelledAt (Some now)
            (set_sr_cancellationReason (Some reason)
               (set_sr_status cancelled r))))
| rc_reject_admin :
    request_change now r
      (set_sr_updatedAt now (set_sr_cancelledAt (Some now) r))
| rc_start :
    sr_status r = accepted ->
    request_change now r
      (set_sr_updatedAt now
         (set_sr_startedAt (Some now) (set_sr_status in_progress r)))
| rc_complete :
    sr_status r = in_progress ->
    request_change now r
      (set_sr_updatedAt now
         (set_sr_completedAt (Some now) (set_sr_status completed r)))
| rc_complete_cost (actualCost : Z) :
    sr_status r = in_progress ->
    actualCost <> 0%Z ->
    request_change now r
      (set_sr_updatedAt now
         (set_sr_estimatedCost actualCost
            (set_sr_completedAt (Some now) (set_sr_status completed r))))
| rc_rate (rating : Z) (review : string) :
    sr_status r = completed ->
    truthy_number (sr_customerRating r) = false ->
    (1 <= rating <= 5)%Z ->
    request_change now r
      (set_sr_updatedAt now
         (set_sr_customerReview (Some review)
            (set_sr_customerRating (Some rating) r)))
| rc_rate_nothing :
    sr_status r = completed ->
    truthy_number (sr_customerRating r) = false ->
    request_change now r (set_sr_updatedAt now r)
| rc_arrived :
    request_change now r (set_sr_status in_progress r).

(** The ways in which one call, served at time [now], changes a stored
    tracking record [t]: a location update, a status update, the end of
    the session (by the end route or by the status 'completed'), and the
    update that the complete route of routes/service issues without a
    save. *)
Inductive tracking_change (now : Time) (t : Tracking) : Tracking -> Prop :=
| tc_same : tracking_change now t t
| tc_location (coordinates : Coordinates) (address : string) :
    tracking_change now t
      (set_t_updatedAt now
         (set_t_locationHistory
            (t_locationHistory t ++ [mkHistoryEntry coordinates address now])
            (set_t_currentLocation
               (mkCurrentLocation coordinates address now) t)))
| tc_status (s : TrackingStatus) :
    s <> t_completed ->
    tracking_change now t (set_t_updatedAt now (set_t_status s t))
| tc_ended :
    tracking_change now t
      (set_t_updatedAt now
         (set_t_endedAt (Some now)
            (set_t_status t_completed (set_t_isLive false t))))
| tc_service_completed :
    tracking_change now t
      (set_t_endedAt (Some now)
         (set_t_status t_completed (set_t_isLive false t))).

(** The ways in which one call, served at time [now], changes a stored
    worker profile [w]: the job counter of the accept route, the position
    mirrored by the location route of routes/tracking, and the rating that
    [Review.updateRating] recomputes. *)
Inductive worker_change (now : Time) (w : Worker) : Worker -> Prop :=
| wc_same : worker_change now w w
| wc_accepted :
    worker_change now w
      (set_w_updatedAt now (set_w_completedJobs (w_completedJobs w + 1)%Z w))
| wc_located (coordinates : Coordinates) (address : string) :
    worker_change now w
      (set_w_updatedAt now
         (set_w_location (mkWorkerLocation coordinates address) w))
| wc_rated (average : R) (count : nat) :
    worker_change now w
      (set_w_ratingCount count (set_w_ratingAverage average w)).

(** The [_id] index of the store: within a collection no two documents
    carry the same [_id]. *)
Definition distinct_ids (st : Store) : Prop :=
  NoDup (map sr_id (requests st)) /\
  NoDup (map w_id (workers st)) /\
  NoDup (map t_id (trackings st)) /\
  NoDup (map rv_id (reviews st)).

(** The ratings a store holds are in range: every review carries a rating
    from 1 to 5, and every worker's average is the initial 0 or lies
    between 1 and 5. *)
Definition ratings_in_range (st : Store) : Prop :=
  (forall rv, In rv (reviews st) -> (1 <= rv_rating rv <= 5)%Z) /\
  (forall w, In w (workers st) ->
     w_ratingAverage w = 0%R \/ (1 <= w_ratingAverage w <= 5)%R).

(** A list in the order of [.sort({key: -1})]: no element is followed by
    one with a greater key. *)
Fixpoint descending {A : Type} (key : A -> Time) (l : list A) : Prop :=
  match l with
  | [] => True
  | x :: l' => (forall y, In y l' -> key y <= key x) /\ descending key l'
  end.

(** ** Paged listings *)

(** The strings of the [enum] of [ServiceRequest.status]. *)
Definition Status_name (s : Status) : string :=
  match s with
  | pending => "pending"
  | accepted => "accepted"
  | rejected => "rejected"
  | in_progress => "in_progress"
  | completed => "completed"
  | cancelled => "cancelled"
  end.

(** [if (status) query.status = status]: an absent or empty [status] does
    not filter; another string selects the documents whose status is that
    string. *)
Definition status_matches (status : option string) (r : ServiceRequest) : bool :=
  match status with
  | Some s => if String.eqb s "" then true else String.eqb (Status_name (sr_status r)) s
  | None => true
  end.

(** [.limit(limit * 1).skip((page - 1) * limit)] on the sorted matches,
    for [page] and [limit] that are natural numbers.  Page 0 with a
    positive limit asks the store for a negative skip, which it refuses
    ([None]); a limit of 0 is the store's "no limit". *)
Definition window {A : Type} (page limit : nat) (sorted : list A) : option (list A) :=
  if (page =? 0) && negb (limit =? 0) then None
  else
    let skipped := skipn ((page - 1) * limit) sorted in
    Some (if limit =? 0 then skipped else firstn limit skipped).

(** [Math.ceil(count / limit)]; dividing by a limit of 0 gives no number
    ([None], serialised as null). *)
Definition total_pages (count limit : nat) : option nat :=
  if limit =? 0 then None else Some ((count + limit - 1) / limit).

(** The [data] of a paged listing. *)
Record Page (A : Type) := mkPage {
  pg_items : list A;
  pg_totalPages : option nat;
  pg_currentPage : nat;
  pg_total : nat
}.

Arguments mkPage {A}.
Arguments pg_items {A}.
Arguments pg_totalPages {A}.
Arguments pg_currentPage {A}.
Arguments pg_total {A}.

(** The members [page] and [limit] of [req.query] with their defaults:
    [const { page = 1, limit = 10 } = req.query]. *)
Definition page_or (page : option nat) : nat :=
  match page with Some p => p | None => 1 end.

Definition limit_or (limit : option nat) : nat :=
  match limit with Some l => l | None => 10 end.

(** The tail common to the paged handlers: the window of the sorted
    matches with the page counts, or the answer of the error middleware
    when the store refuses the query. *)
Definition paged {A : Type} (page limit : option nat) (sorted : list A)
  : Response * option (Page A) :=
  match window (page_or page) (limit_or limit) sorted with
  | None => (internal_error, None)
  | Some items =>
    (ok "",
     Some (mkPage items (total_pages (List.length sorted) (limit_or limit))
             (page_or page) (List.length sorted)))
  end.

Module ServiceRead.

(** [router.get('/', protect, ...)] of routes/service: the caller's own
    requests. *)
Definition own_requests (user : User) (status : option string) (page limit : option nat)
  (st : Store) : Response * option (Page ServiceRequest) :=
  paged page limit
    (sort_desc sr_createdAt
       (filter (fun r => (sr_customer r =? u_id user) && status_matches status r)
          (requests st))).

End ServiceRead.

Module WorkerRead.

(** [router.get('/my/requests', protect, authorize('worker'), ...)] of
    routes/worker: the requests assigned to the caller's profile. *)
Definition my_requests (user : User) (status : option string)
  (page limit : option nat) (st : Store)
  : Response * option (Page ServiceRequest) :=
  if negb (authorize role_worker user) then (not_authorized, None) else
  match findOne (fun w => w_user w =? u_id user) (workers st) with
  | None => (not_found "Worker profile not found", None)
  | Some worker =>
    paged page limit
      (sort_desc sr_createdAt
         (filter (fun r => match sr_worker r with
                           | Some w => w =? w_id worker
                           | None => false
                           end && status_matches status r)
            (requests st)))
  end.

End WorkerRead.

Module TrackingRead.

(** [router.get('/service/:serviceRequestId', protect, ...)]; the second
    component is [data.tracking]. *)
Definition for_service (user : User) (serviceRequestId : ObjectId) (st : Store)
  : Response * option Tracking :=
  match findById sr_id serviceRequestId (requests st) with
  | None => (not_found "Service request not found", None)
  | Some serviceRequest =>
    let isCustomer := sr_customer serviceRequest =? u_id user in
    let isWorker :=
      match findOne (fun w => w_user w =? u_id user) (workers st),
            sr_worker serviceRequest with
      | Some worker, Some assigned => assigned =? w_id worker
      | _, _ => false
      end in
    if negb isCustomer && negb isWorker && negb (Role_eqb (u_role user) role_admin)
    then (forbidden "Not authorized to view this tracking", None)
    else
      match findOne (fun t => t_serviceRequest t =? serviceRequestId)
                    (trackings st) with
      | None => (not_found "Tracking not found", None)
      | Some tracking => (ok "", Some tracking)
      end
  end.

(** [router.get('/history', protect, authorize('worker'), ...)] *)
Definition history (user : User) (page limit : option nat) (st : Store)
  : Response * option (Page Tracking) :=
  if negb (authorize role_worker user) then (not_authorized, None) else
  match findOne (fun w => w_user w =? u_id user) (workers st) with
  | None => (not_found "Worker profile not found", None)
  | Some worker =>
    paged page limit
      (sort_desc t_startedAt
         (filter (fun t => t_worker t =? w_id worker) (trackings st)))
  end.

End TrackingRead.

(** The items of the page a paged handler answered with; none when it
    answered with an error. *)
Definition page_items {A : Type} (answer : Response * option (Page A)) : list A :=
  match snd answer with
  | Some pg => pg_items pg
  | None => []
  end.

(** The callers the tracking of a request may be shown to: its customer,
    the user of the worker profile it references, and administrators. *)
Definition may_view_tracking (user : User) (serviceRequest : ServiceRequest)
  (st : Store) : Prop :=
  sr_customer serviceRequest = u_id user \/
  (exists worker,
      findOne (fun w => w_user w =? u_id user) (workers st) = Some worker /\
      sr_worker serviceRequest = Some (w_id worker)) \/
  u_role user = role_admin.

(** ** routes/review *)

Definition set_rv_rating (v : Z) (d : Review) : Review :=
  mkReview (rv_id d) (rv_serviceRequest d) (rv_reviewer d) (rv_reviewee d)
    (rv_worker d) v (rv_review d) (rv_reviewType d) (rv_isActive d).

Definition set_rv_review (v : string) (d : Review) : Review :=
  mkReview (rv_id d) (rv_serviceRequest d) (rv_reviewer d) (rv_reviewee d)
    (rv_worker d) (rv_rating d) v (rv_reviewType d) (rv_isActive d).

Definition set_rv_isActive (v : bool) (d : Review) : Review :=
  mkReview (rv_id d) (rv_serviceRequest d) (rv_reviewer d) (rv_reviewee d)
    (rv_worker d) (rv_rating d) (rv_review d) (rv_reviewType d) v.

Module ReviewRoute.

(** [router.post('/', protect, ...)].  The review documents of this model
    carry no timestamps, so the save hook of the review schema has nothing
    to refresh. *)
Definition create (now : Time) (user : User) (serviceRequestId : ObjectId)
  (rating : option Z) (review : option string) (reviewType : string)
  (st : Store) : Response * Store :=
  match findById sr_id serviceRequestId (requests st) with
  | None => (not_found "Service request not found", st)
  | Some serviceRequest =>
    if negb (Status_eqb (sr_status serviceRequest) completed) then
      (bad_request "Can only review completed services", st)
    else if String.eqb reviewType "customer_to_worker" then
      match sr_worker serviceRequest with
      | None => (bad_request "No worker assigned to this service", st)
      | Some assigned =>
        match findById w_id assigned (workers st) with
        | None => (internal_error, st)
        | Some worker =>
          match findOne (fun r => (rv_serviceRequest r =? serviceRequestId)
                                  && (rv_reviewer r =? u_id user))
                        (reviews st) with
          | Some existingReview =>
            (bad_request "You have already reviewed this service", st)
          | None =>
            match Service.valid_rating rating with
            | None => (internal_error, st)
            | Some r =>
              let st :=
                set_reviews
                  (reviews st ++
                   [mkReview (freshId rv_id (reviews st)) serviceRequestId
                      (u_id user) (w_user worker) (Some (w_id worker)) r
                      (string_or review "") reviewType true]) st in
              let st := Service.updateRating_worker (w_id worker) st in
              let serviceRequest :=
                set_sr_customerReview (Some (string_or review ""))
                  (set_sr_customerRating rating serviceRequest) in
              let st := save_request now serviceRequest st in
              (created "Review submitted successfully", st)
            end
          end
        end
      end
    else if String.eqb reviewType "customer_to_shop" then
      (bad_request "Shop reviews not implemented", st)
    else (bad_request "Invalid review type", st)
  end.

(** [router.put('/:id', protect, ...)].  The save validates a rating that
    was assigned against [min: 1, max: 5] and throws outside them.  No
    review of this model has a shop, so only the worker branch of the
    rating update is reached. *)
Definition update (now : Time) (user : User) (id : ObjectId)
  (rating : option Z) (review : option string) (st : Store) : Response * Store :=
  match findById rv_id id (reviews st) with
  | None => (not_found "Review not found", st)
  | Some existingReview =>
    if negb (rv_reviewer existingReview =? u_id user)
       && negb (Role_eqb (u_role user) role_admin)
    then (forbidden "Not authorized to update this review", st)
    else
      let existingReview :=
        match rating with
        | Some r => if truthy_number rating
                    then set_rv_rating r existingReview else existingReview
        | None => existingReview
        end in
      let existingReview :=
        match review with
        | Some text => set_rv_review text existingReview
        | None => existingReview
        end in
      if truthy_number rating
         && negb ((1 <=? rv_rating existingReview)
                  && (rv_rating existingReview <=? 5))%Z
      then (internal_error, st)
      else
        let st :=
          set_reviews (replaceById rv_id existingReview (reviews st)) st in
        let st :=
          match rv_worker existingReview with
          | Some w => Service.updateRating_worker w st
          | None => st
          end in
        (ok "Review updated successfully", st)
  end.

(** [router.delete('/:id', protect, authorize('admin'), ...)]: a soft
    delete. *)
Definition delete (now : Time) (user : User) (id : ObjectId) (st : Store)
  : Response * Store :=
  if negb (authorize role_admin user) then (not_authorized, st) else
  match findById rv_id id (reviews st) with
  | None => (not_found "Review not found", st)
  | Some review =>
    let review := set_rv_isActive false review in
    let st := set_reviews (replaceById rv_id review (reviews st)) st in
    let st :=
      match rv_worker review with
      | Some w => Service.updateRating_worker w st
      | None => st
      end in
    (ok "Review deleted successfully", st)
  end.

End ReviewRoute.

(** ** utils/helpers: one-time passwords *)

Module Otp.

(** [exports.generateOTP]: [Math.floor(100000 + Math.random() * 900000)],
    as the integer whose decimal numeral the function returns; [random] is
    the value of [Math.random()]. *)
Definition generateOTP (random : R) : Z :=
  Zfloor (100000 + random * 900000)%R.

End Otp.

(** * Properties *)

(** ** Great-circle distance *)

Section Distance.

Import Helpers.
Local Open Scope R_scope.

Lemma atan2_0_1 : atan2 0 1 = 0.
Proof.
  unfold atan2. destruct (Rlt_dec 0 1) as [_|H]; [|exfalso; lra].
  replace (0 / 1) with 0 by field. apply atan_0.
Qed.

Lemma atan2_1_0 : atan2 1 0 = PI / 2.
Proof.
  unfold atan2.
  destruct (Rlt_dec 0 0) as [H|_]; [exfalso; lra|].
  destruct (Rlt_dec 0 1) as [_|H]; [reflexivity|exfalso; lra].
Qed.

Lemma toRadians_0 : toRadians 0 = 0.
Proof. unfold toRadians. ring. Qed.

Lemma toRadians_opp x y : toRadians (x - y) = - toRadians (y - x).
Proof. unfold toRadians. ring. Qed.

Lemma sin_half_sq_opp x : sin (- x / 2) * sin (- x / 2) = sin (x / 2) * sin (x / 2).
Proof.
  replace (- x / 2) with (- (x / 2)) by field.
  rewrite sin_neg. ring.
Qed.

Lemma calculateDistance_unfold lat1 lon1 lat2 lon2 :
  calculateDistance lat1 lon1 lat2 lon2 =
  6371 * (2 * atan2 (sqrt (haversine_a lat1 lon1 lat2 lon2))
                    (sqrt (1 - haversine_a lat1 lon1 lat2 lon2))).
Proof. reflexivity. Qed.

Lemma haversine_a_sym lat1 lon1 lat2 lon2 :
  haversine_a lat1 lon1 lat2 lon2 = haversine_a lat2 lon2 lat1 lon1.
Proof.
  unfold haversine_a.
  rewrite (toRadians_opp lat2 lat1), (toRadians_opp lon2 lon1).
  rewrite !sin_half_sq_opp.
  rewrite !Rmult_assoc, !sin_half_sq_opp. ring.
Qed.

Lemma haversine_a_refl lat lon : haversine_a lat lon lat lon = 0.
Proof.
  unfold haversine_a.
  replace (lat - lat) with 0 by ring. replace (lon - lon) with 0 by ring.
  rewrite toRadians_0. replace (0 / 2) with 0 by field.
  rewrite sin_0. ring.
Qed.

(** Half the equator: the points (0,0) and (lat 0, lon 180) are antipodal on
    the meridian circle, so their distance is [PI] times the radius. *)
Lemma haversine_a_antipodal : haversine_a 0 180 0 0 = 1.
Proof.
  unfold haversine_a.
  replace (0 - 0) with 0 by ring. rewrite toRadians_0.
  replace (0 / 2) with 0 by field. rewrite sin_0, cos_0.
  replace (toRadians (0 - 180) / 2) with (- (PI / 2)) by (unfold toRadians; field).
  rewrite sin_neg, sin_PI2. ring.
Qed.

Lemma calculateDistance_antipodal : calculateDistance 0 180 0 0 = 6371 * PI.
Proof.
  rewrite calculateDistance_unfold, haversine_a_antipodal.
  replace (1 - 1) with 0 by ring.
  rewrite sqrt_1, sqrt_0, atan2_1_0. field.
Qed.

Lemma calculateDistance_zero_symmetric_radius_aux lat1 lon1 lat2 lon2 :
  calculateDistance lat1 lon1 lat2 lon2 = calculateDistance lat2 lon2 lat1 lon1 /\
  calculateDistance lat1 lon1 lat1 lon1 = 0.
Proof.
  split.
  - rewrite !calculateDistance_unfold.
    now rewrite (haversine_a_sym lat1 lon1 lat2 lon2).
  - rewrite calculateDistance_unfold, haversine_a_refl.
    replace (1 - 0) with 1 by ring.
    rewrite sqrt_0, sqrt_1, atan2_0_1. ring.
Qed.

(** C9.  The Haversine distance of a point to itself is zero, the distance
    is symmetric in its two points, and it is the central angle
    [2 * atan2 (sqrt a) (sqrt (1 - a))] scaled by the radius 6371 km: two
    antipodal points of the equator are half a great circle, [6371 * PI],
    apart. *)
Theorem calculateDistance_zero_symmetric_radius :
  forall lat1 lon1 lat2 lon2 : R,
    calculateDistance lat1 lon1 lat1 lon1 = 0 /\
    calculateDistance lat1 lon1 lat2 lon2 = calculateDistance lat2 lon2 lat1 lon1 /\
    calculateDistance lat1 lon1 lat2 lon2 =
      6371 * (2 * atan2 (sqrt (haversine_a lat1 lon1 lat2 lon2))
                        (sqrt (1 - haversine_a lat1 lon1 lat2 lon2))) /\
    calculateDistance 0 180 0 0 = 6371 * PI.
Proof.
  intros lat1 lon1 lat2 lon2. repeat split.
  - rewrite calculateDistance_unfold, haversine_a_refl.
    replace (1 - 0) with 1 by ring.
    rewrite sqrt_0, sqrt_1, atan2_0_1. ring.
  - rewrite !calculateDistance_unfold.
    now rewrite (haversine_a_sym lat1 lon1 lat2 lon2).
  - apply calculateDistance_antipodal.
Qed.

End Distance.

(** ** Collections *)

Section CollectionFacts.

Context {A : Type} (id_of : A -> ObjectId).

Lemma findById_Some (id : ObjectId) (c : list A) (d : A) :
  findById id_of id c = Some d -> id_of d = id /\ In d c.
Proof.
  unfold findById. intros H. apply find_some in H.
  destruct H as [Hin Heq]. apply Nat.eqb_eq in Heq. now split.
Qed.

Lemma findById_In (d : A) (c : list A) :
  In d c -> exists x, findById id_of (id_of d) c = Some x.
Proof.
  unfold findById. intros Hin.
  destruct (find (fun x => id_of x =? id_of d) c) as [x|] eqn:E; [now exists x|].
  apply (find_none _ _ E) in Hin. now rewrite Nat.eqb_refl in Hin.
Qed.

Lemma findOne_In (p : A -> bool) (d : A) (c : list A) :
  findOne p c = Some d -> In d c /\ p d = true.
Proof. unfold findOne. apply find_some. Qed.

Lemma findById_replaceById (d x : A) (c : list A) :
  findById id_of (id_of d) c = Some x ->
  findById id_of (id_of d) (replaceById id_of d c) = Some d.
Proof.
  unfold findById, replaceById.
  induction c as [|y c IH]; simpl; [discriminate|].
  destruct (id_of y =? id_of d) eqn:E.
  - intros _. simpl. now rewrite Nat.eqb_refl.
  - intros H. simpl. rewrite E. now apply IH.
Qed.

Lemma findById_replaceById_any (id : ObjectId) (d t : A) (c : list A) :
  findById id_of id c = Some t ->
  findById id_of id (replaceById id_of d c)
  = Some (if id_of d =? id then d else t).
Proof.
  unfold findById, replaceById. induction c as [|y c IH]; simpl; [discriminate|].
  destruct (id_of y =? id) eqn:Ey.
  - intros [= <-]. destruct (id_of y =? id_of d) eqn:Ed; simpl.
    + apply Nat.eqb_eq in Ed.
      assert (Ed' : (id_of d =? id) = true) by (rewrite <- Ed; exact Ey).
      now rewrite Ed'.
    + rewrite Ey.
      assert (Ed' : (id_of d =? id) = false).
      { apply Nat.eqb_eq in Ey. apply Nat.eqb_neq in Ed. apply Nat.eqb_neq.
        congruence. }
      now rewrite Ed'.
  - intros H. destruct (id_of y =? id_of d) eqn:Ed; simpl.
    + apply Nat.eqb_eq in Ed.
      assert (Ed' : (id_of d =? id) = false) by (rewrite <- Ed; exact Ey).
      rewrite Ed'. rewrite Ed' in IH. now apply IH.
    + rewrite Ey. now apply IH.
Qed.

Lemma findById_app (id : ObjectId) (c : list A) (x t : A) :
  findById id_of id c = Some t -> findById id_of id (c ++ [x]) = Some t.
Proof.
  unfold findById. induction c as [|y c IH]; simpl; [discriminate|].
  destruct (id_of y =? id); [trivial|exact IH].
Qed.

Lemma findById_updateFirst (p : A -> bool) (f : A -> A) (id : ObjectId)
  (t : A) (c : list A) :
  (forall x, id_of (f x) = id_of x) ->
  findById id_of id c = Some t ->
  exists t', findById id_of id (updateFirst p f c) = Some t' /\ (t' = t \/ t' = f t).
Proof.
  intros Hf. unfold findById. induction c as [|y c IH]; simpl; [discriminate|].
  destruct (id_of y =? id) eqn:Ey.
  - intros [= <-]. destruct (p y); simpl.
    + rewrite Hf, Ey. eauto.
    + rewrite Ey. eauto.
  - intros H. destruct (p y); simpl.
    + rewrite Hf, Ey. eauto.
    + rewrite Ey. now apply IH.
Qed.

Lemma freshId_above (c : list A) (x : A) : In x c -> id_of x < freshId id_of c.
Proof.
  unfold freshId. induction c as [|y c IH]; simpl; [contradiction|].
  intros [->|Hin]; [lia|]. specialize (IH Hin). lia.
Qed.

Lemma findById_app_fresh (c : list A) (x : A) :
  id_of x = freshId id_of c ->
  findById id_of (id_of x) (c ++ [x]) = Some x.
Proof.
  intros Hx. unfold findById.
  assert (Hc : forall y, In y c -> (id_of y =? id_of x) = false).
  { intros y Hin. apply Nat.eqb_neq. apply freshId_above in Hin. lia. }
  clear Hx. induction c as [|y c IH]; simpl.
  - now rewrite Nat.eqb_refl.
  - rewrite (Hc y (or_introl eq_refl)). apply IH.
    intros z Hz. apply Hc. now right.
Qed.

End CollectionFacts.

Section SortFacts.

Context {A : Type}.

Lemma insert_desc_In (key : A -> Time) (x y : A) (l : list A) :
  In y (insert_desc key x l) <-> y = x \/ In y l.
Proof.
  induction l as [|z l IH]; simpl.
  - intuition.
  - destruct (key z <=? key x); simpl; [intuition|].
    rewrite IH. intuition.
Qed.

Lemma sort_desc_In (key : A -> Time) (y : A) (l : list A) :
  In y (sort_desc key l) <-> In y l.
Proof.
  induction l as [|x l IH]; simpl; [tauto|].
  rewrite insert_desc_In, IH. intuition.
Qed.

End SortFacts.

Lemma findOne_None_filter {A : Type} (p : A -> bool) (c : list A) :
  findOne p c = None -> filter p c = [].
Proof.
  unfold findOne. induction c as [|x c IH]; simpl; [reflexivity|].
  destruct (p x); [discriminate|exact IH].
Qed.

Lemma Status_eqb_eq (a b : Status) : Status_eqb a b = true <-> a = b.
Proof. destruct a, b; simpl; split; intros H; congruence. Qed.

Lemma Role_eqb_eq (a b : Role) : Role_eqb a b = true <-> a = b.
Proof. destruct a, b; simpl; split; intros H; congruence. Qed.

Lemma Profession_eqb_eq (a b : Profession) : Profession_eqb a b = true <-> a = b.
Proof.
  unfold Profession_eqb. rewrite Nat.eqb_eq. split; [|now intros ->].
  destruct a, b; simpl; intros H; congruence.
Qed.

Lemma Reqb_true (x y : R) : Reqb x y = true <-> x = y.
Proof. unfold Reqb. destruct (Req_dec_T x y); split; congruence. Qed.

Lemma Rleb_true (x y : R) : Rleb x y = true <-> (x <= y)%R.
Proof. unfold Rleb. destruct (Rle_dec x y); split; intros; congruence. Qed.

Lemma requests_updateRating_worker (targetId : ObjectId) (st : Store) :
  requests (Service.updateRating_worker targetId st) = requests st.
Proof.
  unfold Service.updateRating_worker.
  now destruct (filter _ (reviews st)).
Qed.

Lemma trackings_updateRating_worker (targetId : ObjectId) (st : Store) :
  trackings (Service.updateRating_worker targetId st) = trackings st.
Proof.
  unfold Service.updateRating_worker. now destruct (filter _ (reviews st)).
Qed.

Lemma valid_rating_Some (rating : option Z) (r : Z) :
  Service.valid_rating rating = Some r ->
  rating = Some r /\ truthy_number (Some r) = true.
Proof.
  unfold Service.valid_rating. destruct rating as [v|]; [|discriminate].
  destruct ((1 <=? v)%Z && (v <=? 5)%Z) eqn:E; [|discriminate].
  intros [= <-]. split; [reflexivity|].
  apply andb_true_iff in E. destruct E as [E _]. apply Z.leb_le in E.
  simpl. apply negb_true_iff, Z.eqb_neq. lia.
Qed.

(** Case analysis on the tests of a handler. *)
Ltac break_handler :=
  repeat match goal with
         | |- context [if ?b then _ else _] => destruct b eqn:?
         | |- context [match ?x with _ => _ end] => destruct x eqn:?
         end.

(** ** Accept *)



(** ** The lifecycle state machine *)

(** The start and complete routes guard their edge: from any other status
    they answer 400 and write nothing. *)
Lemma start_guard (now : Time) (user : User) (id : ObjectId) (st : Store)
  (sr : ServiceRequest) :
  findById sr_id id (requests st) = Some sr ->
  sr_status sr <> accepted ->
  res_success (fst (Service.start now user id st)) = false /\
  snd (Service.start now user id st) = st.
Proof.
  intros Hsr Hne. unfold Service.start. rewrite Hsr.
  destruct (negb (authorize role_worker user)); [now split|].
  destruct (findOne _ (workers st)) as [w|]; [|now split].
  destruct (sr_worker sr) as [a|]; [|now split].
  destruct (negb (a =? w_id w)); [now split|].
  destruct (Status_eqb (sr_status sr) accepted) eqn:E; [|now split].
  apply Status_eqb_eq in E. contradiction.
Qed.

Lemma complete_guard (now : Time) (user : User) (id : ObjectId)
  (actualCost : option Z) (st : Store) (sr : ServiceRequest) :
  findById sr_id id (requests st) = Some sr ->
  sr_status sr <> in_progress ->
  res_success (fst (Service.complete now user id actualCost st)) = false /\
  snd (Service.complete now user id actualCost st) = st.
Proof.
  intros Hsr Hne. unfold Service.complete. rewrite Hsr.
  destruct (negb (authorize role_worker user)); [now split|].
  destruct (findOne _ (workers st)) as [w|]; [|now split].
  destruct (sr_worker sr) as [a|]; [|now split].
  destruct (negb (a =? w_id w)); [now split|].
  destruct (Status_eqb (sr_status sr) in_progress) eqn:E; [|now split].
  apply Status_eqb_eq in E. contradiction.
Qed.

Ltac same_request r :=
  exists r; split; [assumption|now left].

Lemma replaced_request_follows_edge (now : Time) (st : Store) (j : ObjectId)
  (r sr d : ServiceRequest) (id : ObjectId) :
  findById sr_id j (requests st) = Some r ->
  findById sr_id id (requests st) = Some sr ->
  sr_id d = sr_id sr ->
  sr_status d = sr_status sr \/ lifecycle_edge (sr_status sr) (sr_status d) = true ->
  exists r',
    findById sr_id j (replaceById sr_id d (requests st)) = Some r' /\
    (sr_status r' = sr_status r \/
     lifecycle_edge (sr_status r) (sr_status r') = true).
Proof.
  intros Hr Hsr Hid Hedge.
  rewrite (findById_replaceById_any sr_id j d r _ Hr).
  destruct (sr_id d =? j) eqn:E.
  - apply Nat.eqb_eq in E.
    destruct (findById_Some _ _ _ _ Hsr) as [Hid0 _].
    assert (sr = r) by congruence. subst sr.
    exists d. split; [reflexivity|exact Hedge].
  - exists r. split; [reflexivity|now left].
Qed.

Lemma guarded_step_follows_edges (now : Time) (op : Op) (st : Store)
  (j : ObjectId) (r : ServiceRequest) :
  guarded op = true ->
  findById sr_id j (requests st) = Some r ->
  exists r',
    findById sr_id j (requests (snd (step now op st))) = Some r' /\
    (sr_status r' = sr_status r \/
     lifecycle_edge (sr_status r) (sr_status r') = true).
Proof.
  intros Hg Hr. destruct op; try discriminate Hg; simpl.
  - exists r. split; [now apply findById_app|now left].
  - unfold Service.accept.
    destruct (negb (authorize role_worker user)); [same_request r|].
    destruct (findById sr_id id (requests st)) as [sr|] eqn:Hsr; [|same_request r].
    destruct (Status_eqb (sr_status sr) pending) eqn:Hst; [|same_request r].
    destruct (findOne _ (workers st)) as [w|]; [|same_request r].
    apply Status_eqb_eq in Hst.
    cbn [negb snd save_worker save_request set_workers set_requests requests].
    apply (replaced_request_follows_edge now st j r sr _ id Hr Hsr);
      [reflexivity|]. right. simpl. now rewrite Hst.
  - unfold Service.start.
    destruct (negb (authorize role_worker user)); [same_request r|].
    destruct (findById sr_id id (requests st)) as [sr|] eqn:Hsr; [|same_request r].
    destruct (findOne _ (workers st)) as [w|]; [|same_request r].
    destruct (sr_worker sr) as [a|]; [|same_request r].
    destruct (negb (a =? w_id w)); [same_request r|].
    destruct (Status_eqb (sr_status sr) accepted) eqn:Hst; [|same_request r].
    apply Status_eqb_eq in Hst.
    cbn [negb snd save_request set_trackings set_requests requests].
    apply (replaced_request_follows_edge now st j r sr _ id Hr Hsr);
      [reflexivity|]. right. simpl. now rewrite Hst.
  - unfold Service.complete.
    destruct (negb (authorize role_worker user)); [same_request r|].
    destruct (findById sr_id id (requests st)) as [sr|] eqn:Hsr; [|same_request r].
    destruct (findOne _ (workers st)) as [w|]; [|same_request r].
    destruct (sr_worker sr) as [a|]; [|same_request r].
    destruct (negb (a =? w_id w)); [same_request r|].
    destruct (Status_eqb (sr_status sr) in_progress) eqn:Hst; [|same_request r].
    apply Status_eqb_eq in Hst.
    cbn [negb snd save_request set_trackings set_requests requests].
    apply (replaced_request_follows_edge now st j r sr _ id Hr Hsr).
    + destruct actualCost as [c|]; [destruct (truthy_number (Some c))|];
        reflexivity.
    + right. rewrite Hst.
      destruct actualCost as [c|]; [destruct (truthy_number (Some c))|];
        reflexivity.
  - unfold Service.rate.
    destruct (findById sr_id id (requests st)) as [sr|] eqn:Hsr; [|same_request r].
    destruct (negb (Status_eqb (sr_status sr) completed)); [same_request r|].
    destruct (truthy_number (sr_customerRating sr)); [same_request r|].
    destruct ((sr_customer sr =? u_id user)
              && String.eqb reviewType "customer_to_worker").
    + destruct (match sr_worker _ with Some w => _ | None => None end);
        [|same_request r].
      destruct (Service.valid_rating rating); [|same_request r].
      cbn [snd save_request set_requests requests].
      rewrite requests_updateRating_worker.
      cbn [set_reviews requests].
      apply (replaced_request_follows_edge now st j r sr _ id Hr Hsr);
        [reflexivity|now left].
    + cbn [snd save_request set_requests requests].
      apply (replaced_request_follows_edge now st j r sr _ id Hr Hsr);
        [reflexivity|now left].
  - unfold TrackingRoute.create. break_handler; simpl; same_request r.
  - unfold TrackingRoute.update_location. break_handler; simpl; same_request r.
  - unfold TrackingRoute.end_tracking. break_handler; simpl; same_request r.
Qed.

(** C1.  The reject route and the tracking-status mirror do not keep to
    the lifecycle edges.  After a whole job the request is completed, a
    terminal state; Alice's reject call is answered with success and
    stores it as cancelled.  On a request that is still pending, the
    arrival report of a tracking session is answered with success and
    stores it as in_progress.  Neither completed -> cancelled nor
    pending -> in_progress is an edge. *)
Theorem reject_and_mirror_ignore_lifecycle_edges :
  map sr_status (requests (snd (run (firstn 4 cancel_after_completion) registered)))
    = [completed] /\
  map res_status (fst (run cancel_after_completion registered))
    = [201; 200; 200; 200; 200] /\
  map sr_status (requests (snd (run cancel_after_completion registered)))
    = [cancelled] /\
  lifecycle_edge completed cancelled = false /\
  map sr_status (requests (snd (run (firstn 2 arrival_before_accept) registered)))
    = [pending] /\
  map res_status (fst (run arrival_before_accept registered))
    = [201; 201; 200] /\
  map sr_status (requests (snd (run arrival_before_accept registered)))
    = [in_progress] /\
  lifecycle_edge pending in_progress = false.
Proof. repeat split; reflexivity. Qed.

(** ** Reject and cancel *)

(** The worker test of the reject route compares the request's worker
    reference, the [_id] of a worker profile, with the caller's user [_id].
    Bob, whose profile is the one assigned, is therefore refused. *)
Lemma reject_by_assigned_worker_is_forbidden :
  map res_status
      (fst (run [(1, OpCreate alice plumbing); (2, OpAccept bob 1);
                 (3, OpReject bob 1 None)] registered))
    = [201; 200; 403] /\
  map sr_worker
      (requests (snd (run [(1, OpCreate alice plumbing); (2, OpAccept bob 1)]
                          registered)))
    = [Some (w_id bob_profile)].
Proof. split; reflexivity. Qed.




(** ** Rate *)

(** C5, as stated, fails: after the job Alice rates Bob and succeeds; Bob's
    rating in the other direction is then answered 400, because the route
    tests customerRating whatever the direction.  No call writes
    workerRating. *)
Lemma rate_directions_are_not_independent :
  map sr_status (requests (snd (run (firstn 4 rated_both_ways) registered)))
    = [completed] /\
  map res_status (fst (run rated_both_ways registered))
    = [201; 200; 200; 200; 200; 400] /\
  map (fun r => (sr_customerRating r, sr_workerRating r))
      (requests (snd (run rated_both_ways registered)))
    = [(Some 5%Z, None)].
Proof. repeat split; reflexivity. Qed.

(** C5, amended.  On a completed request the route implements the
    customer-to-worker direction only, and customerRating is write-once:
    a call on a request that carries a customer rating is answered 400 and
    writes nothing, whatever its direction; the customer's first
    customer-to-worker rating with a value from 1 to 5 succeeds, when the
    assigned worker profile exists, and stores it, after which every
    further call, in either direction, is answered 400; no call changes
    workerRating. *)
Theorem rate_customer_rating_write_once :
  forall (now : Time) (user : User) (id : ObjectId) (rating : option Z)
         (review : option string) (reviewType : string) (st : Store)
         (sr : ServiceRequest),
    findById sr_id id (requests st) = Some sr ->
    sr_status sr = completed ->
    let res := fst (Service.rate now user id rating review reviewType st) in
    let st' := snd (Service.rate now user id rating review reviewType st) in
    (truthy_number (sr_customerRating sr) = true ->
     InvalidState res /\ st' = st) /\
    (forall r w,
        truthy_number (sr_customerRating sr) = false ->
        sr_customer sr = u_id user ->
        reviewType = "customer_to_worker" ->
        Service.valid_rating rating = Some r ->
        sr_worker sr = Some (w_id w) ->
        findById w_id (w_id w) (workers st) = Some w ->
        res_success res = true /\
        (exists sr', findById sr_id id (requests st') = Some sr' /\
                     sr_customerRating sr' = Some r) /\
        forall now2 user2 rating2 review2 reviewType2,
          InvalidState
            (fst (Service.rate now2 user2 id rating2 review2 reviewType2 st')) /\
          snd (Service.rate now2 user2 id rating2 review2 reviewType2 st') = st') /\
    (forall sr', findById sr_id id (requests st') = Some sr' ->
                 sr_workerRating sr' = sr_workerRating sr).
Proof.
  intros now user id rating review reviewType st sr Hsr Hst.
  destruct (findById_Some _ _ _ _ Hsr) as [Hid _]. subst id.
  unfold Service.rate at 1 2 3 4. rewrite Hsr, Hst. simpl.
  destruct (truthy_number (sr_customerRating sr)) eqn:Ht; simpl.
  - split; [intros _; now split|]. split; [intros; discriminate|].
    intros sr' H. rewrite Hsr in H. now inversion H.
  - split; [discriminate|].
    destruct ((sr_customer sr =? u_id user)
              && String.eqb reviewType "customer_to_worker") eqn:Hdir.
    + destruct (match sr_worker sr with
                | Some w => findById w_id w (workers st)
                | None => None
                end) as [w0|] eqn:Hw0; simpl.
      * destruct (Service.valid_rating rating) as [r0|] eqn:Hv; simpl.
        -- set (sr1 := set_sr_updatedAt now
                          (set_sr_customerReview (Some (string_or review ""))
                             (set_sr_customerRating rating sr))).
           assert (Hfind : findById sr_id (sr_id sr)
                             (replaceById sr_id sr1 (requests st)) = Some sr1)
             by apply (findById_replaceById sr_id sr1 sr _ Hsr).
           split.
           ++ intros r w _ _ _ [= <-] _ _.
              destruct (valid_rating_Some _ _ Hv) as [-> Htr].
              split; [reflexivity|]. split.
              ** exists sr1. rewrite requests_updateRating_worker. simpl.
                 split; [exact Hfind|reflexivity].
              ** intros now2 user2 rating2 review2 reviewType2.
                 unfold Service.rate.
                 rewrite requests_updateRating_worker. simpl.
                 rewrite Hfind. subst sr1. simpl. rewrite Hst. simpl.
                 simpl in Htr. rewrite Htr. simpl. split; reflexivity.
           ++ intros sr'. rewrite requests_updateRating_worker. simpl.
              fold sr1. rewrite Hfind. intros [= <-]. reflexivity.
        -- split; [intros; discriminate|].
           intros sr' H. rewrite Hsr in H. now inversion H.
      * split.
        -- intros r w _ _ _ _ Hw Hfw. rewrite Hw, Hfw in Hw0. discriminate.
        -- intros sr' H. rewrite Hsr in H. now inversion H.
    + split.
      * intros r w _ Hc Hty _ _ _. subst reviewType.
        rewrite Hc, Nat.eqb_refl in Hdir. discriminate.
      * assert (Hfind : findById sr_id (sr_id sr)
                          (replaceById sr_id (set_sr_updatedAt now sr)
                             (requests st)) = Some (set_sr_updatedAt now sr))
          by apply (findById_replaceById sr_id (set_sr_updatedAt now sr) sr _ Hsr).
        simpl. intros sr'. rewrite Hfind. intros [= <-]. reflexivity.
Qed.

(** Alice rates the completed job with 5; nobody can rate it afterwards. *)
Lemma rate_customer_rating_write_once_witness :
  res_success
    (fst (Service.rate 5 alice 1 (Some 5%Z) None "customer_to_worker" job_done))
    = true /\
  (exists sr',
      findById sr_id 1
        (requests (snd (Service.rate 5 alice 1 (Some 5%Z) None
                          "customer_to_worker" job_done))) = Some sr' /\
      sr_customerRating sr' = Some 5%Z) /\
  forall now2 user2 rating2 review2 reviewType2,
    InvalidState
      (fst (Service.rate now2 user2 1 rating2 review2 reviewType2
              (snd (Service.rate 5 alice 1 (Some 5%Z) None
                      "customer_to_worker" job_done)))) /\
    snd (Service.rate now2 user2 1 rating2 review2 reviewType2
           (snd (Service.rate 5 alice 1 (Some 5%Z) None
                   "customer_to_worker" job_done)))
    = snd (Service.rate 5 alice 1 (Some 5%Z) None "customer_to_worker" job_done).
Proof.
  exact (proj1 (proj2
           (rate_customer_rating_write_once 5 alice 1 (Some 5%Z) None
              "customer_to_worker" job_done job_done_request
              eq_refl eq_refl))
           5%Z job_done_worker eq_refl eq_refl eq_refl eq_refl eq_refl eq_refl).
Defined.

(** C10, as stated, fails in one detail: Bob, who is not the customer,
    rates the completed job.  The call is answered with success, stores no
    rating and creates no review, but the save it ends with refreshes the
    request's updatedAt, so the stored request is not the one it was. *)
Lemma rate_no_op_refreshes_updatedAt :
  findById sr_id 1 (requests job_done) = Some job_done_request /\
  sr_customer job_done_request <> u_id bob /\
  fst (Service.rate 9 bob 1 (Some 4%Z) None "worker_to_customer" job_done)
    = ok "Rating submitted successfully" /\
  reviews (snd (Service.rate 9 bob 1 (Some 4%Z) None "worker_to_customer" job_done))
    = [] /\
  findById sr_id 1
    (requests (snd (Service.rate 9 bob 1 (Some 4%Z) None "worker_to_customer"
                      job_done)))
    = Some (set_sr_updatedAt 9 job_done_request) /\
  sr_updatedAt job_done_request = 4 /\
  sr_updatedAt (set_sr_updatedAt 9 job_done_request) = 9.
Proof. repeat split; try reflexivity. discriminate. Qed.

(** C10, amended.  On a completed request without a customer rating, a
    rate call whose caller is not the customer or whose direction is not
    'customer_to_worker' is answered with the success envelope
    'Rating submitted successfully'; it creates no review, changes no
    worker and no tracking record, and stores the request as it was except
    for updatedAt, which the save sets to the current time: no rating or
    review field of the request is set. *)
Theorem rate_silent_no_op :
  forall (now : Time) (user : User) (id : ObjectId) (rating : option Z)
         (review : option string) (reviewType : string) (st : Store)
         (sr : ServiceRequest),
    findById sr_id id (requests st) = Some sr ->
    sr_status sr = completed ->
    truthy_number (sr_customerRating sr) = false ->
    sr_customer sr <> u_id user \/ reviewType <> "customer_to_worker" ->
    let res := fst (Service.rate now user id rating review reviewType st) in
    let st' := snd (Service.rate now user id rating review reviewType st) in
    res = ok "Rating submitted successfully" /\
    reviews st' = reviews st /\
    workers st' = workers st /\
    trackings st' = trackings st /\
    requests st' = replaceById sr_id (set_sr_updatedAt now sr) (requests st) /\
    findById sr_id id (requests st') = Some (set_sr_updatedAt now sr) /\
    sr_customerRating (set_sr_updatedAt now sr) = sr_customerRating sr /\
    sr_customerReview (set_sr_updatedAt now sr) = sr_customerReview sr /\
    sr_workerRating (set_sr_updatedAt now sr) = sr_workerRating sr /\
    sr_workerReview (set_sr_updatedAt now sr) = sr_workerReview sr.
Proof.
  intros now user id rating review reviewType st sr Hsr Hst Ht Hdir.
  destruct (findById_Some _ _ _ _ Hsr) as [Hid _]. subst id.
  unfold Service.rate. rewrite Hsr, Hst, Ht. simpl.
  assert (E : (sr_customer sr =? u_id user)
              && String.eqb reviewType "customer_to_worker" = false).
  { apply andb_false_iff. destruct Hdir as [H|H].
    - left. now apply Nat.eqb_neq.
    - right. now apply String.eqb_neq. }
  rewrite E. simpl. repeat split.
  apply (findById_replaceById sr_id (set_sr_updatedAt now sr) sr _ Hsr).
Qed.

(** Bob's rating of the completed job is such a call. *)
Lemma rate_silent_no_op_witness :
  fst (Service.rate 9 bob 1 (Some 4%Z) None "worker_to_customer" job_done)
    = ok "Rating submitted successfully" /\
  reviews (snd (Service.rate 9 bob 1 (Some 4%Z) None "worker_to_customer" job_done))
    = reviews job_done /\
  findById sr_id 1
    (requests (snd (Service.rate 9 bob 1 (Some 4%Z) None "worker_to_customer"
                      job_done)))
    = Some (set_sr_updatedAt 9 job_done_request).
Proof.
  assert (Hdir : sr_customer job_done_request <> u_id bob
                 \/ "worker_to_customer" <> "customer_to_worker")
    by (left; discriminate).
  pose proof (rate_silent_no_op 9 bob 1 (Some 4%Z) None "worker_to_customer"
                job_done job_done_request eq_refl eq_refl eq_refl Hdir) as H.
  cbv zeta in H.
  destruct H as (H1 & H2 & _ & _ & _ & H6 & _).
  split; [exact H1|]. split; [exact H2|exact H6].
Defined.

(** ** Live tracking sessions *)

Lemma live_trackings_app (rid : ObjectId) (st : Store) (t : Tracking) :
  live_trackings rid (set_trackings (trackings st ++ [t]) st)
  = (live_trackings rid st
     ++ if (t_serviceRequest t =? rid) && t_isLive t then [t] else [])%list.
Proof.
  unfold live_trackings. simpl. rewrite filter_app. reflexivity.
Qed.

(** The create-tracking route keeps the sessions of a request to one live
    record: it refuses when one exists. *)
Lemma create_tracking_refuses_second_live (now : Time) (user : User)
  (id : ObjectId) (coordinates : option Coordinates) (address : option string)
  (st : Store) :
  live_trackings id st <> [] ->
  res_success (fst (TrackingRoute.create now user id coordinates address st)) = false /\
  snd (TrackingRoute.create now user id coordinates address st) = st.
Proof.
  intros Hlive. unfold TrackingRoute.create.
  destruct (negb (authorize role_worker user)); [now split|].
  destruct (findById sr_id id (requests st)); [|now split].
  destruct (findOne (fun w => w_user w =? u_id user) (workers st)); [|now split].
  destruct (findOne _ (trackings st)) as [t|] eqn:E; [now split|].
  exfalso. apply Hlive. unfold live_trackings, findOne in *.
  destruct (filter _ (trackings st)) as [|t l] eqn:F; [reflexivity|].
  assert (Hin : In t (t :: l)) by now left.
  rewrite <- F in Hin. apply filter_In in Hin. destruct Hin as [Hin Ht].
  apply (find_none _ _ E) in Hin. congruence.
Qed.

Lemma create_tracking_keeps_one_live (now : Time) (user : User)
  (id : ObjectId) (coordinates : option Coordinates) (address : option string)
  (st : Store) :
  (forall rid, List.length (live_trackings rid st) <= 1) ->
  forall rid,
    List.length
      (live_trackings rid
         (snd (TrackingRoute.create now user id coordinates address st))) <= 1.
Proof.
  intros Hinv rid. unfold TrackingRoute.create.
  destruct (negb (authorize role_worker user)); [apply Hinv|].
  destruct (findById sr_id id (requests st)) as [sr|]; [|apply Hinv].
  destruct (findOne (fun w => w_user w =? u_id user) (workers st)) as [w|];
    [|apply Hinv].
  destruct (findOne _ (trackings st)) as [t|] eqn:E; [apply Hinv|].
  cbn [snd]. rewrite live_trackings_app. cbn [t_serviceRequest t_isLive].
  rewrite length_app. destruct (id =? rid) eqn:Er; simpl.
  - apply Nat.eqb_eq in Er. subst rid.
    apply findOne_None_filter in E. unfold live_trackings. rewrite E. simpl. lia.
  - specialize (Hinv rid). lia.
Qed.

(** C2.  The start route creates its tracking record without looking for
    a live one.  Bob opens a session on the request he accepted, then
    starts the service: both calls succeed and the request has two live
    tracking records. *)
Theorem start_creates_second_live_tracking :
  map res_status (fst (run tracking_then_start registered))
    = [201; 200; 201; 200] /\
  map t_id (live_trackings 1 (snd (run (firstn 3 tracking_then_start) registered)))
    = [1] /\
  map t_id (live_trackings 1 (snd (run tracking_then_start registered)))
    = [1; 2] /\
  reachable (snd (run tracking_then_start registered)).
Proof.
  repeat split; try reflexivity.
  exists [bob_profile], tracking_then_start. reflexivity.
Qed.

(** ** Location history *)

Ltac same_history t :=
  exists t, []; split; [assumption|split; [now rewrite app_nil_r|]];
  simpl; rewrite ?andb_false_r; try reflexivity.

Lemma step_history_append_only (now : Time) (op : Op) (st : Store)
  (id : ObjectId) (t : Tracking) :
  findById t_id id (trackings st) = Some t ->
  exists t' suffix,
    findById t_id id (trackings (snd (step now op st))) = Some t' /\
    t_locationHistory t' = (t_locationHistory t ++ suffix)%list /\
    List.length suffix = location_updates id op (fst (step now op st)).
Proof.
  intros Ht. destruct op; simpl.
  - same_history t.
  - unfold Service.accept. break_handler; simpl; same_history t.
  - unfold Service.reject. break_handler; simpl; same_history t.
  - unfold Service.start. break_handler; simpl; try same_history t.
    exists t, []. split; [now apply findById_app|now rewrite app_nil_r].
  - unfold Service.complete.
    destruct (negb (authorize role_worker user)); [same_history t|].
    destruct (findById sr_id id0 (requests st)); [|same_history t].
    destruct (findOne _ (workers st)); [|same_history t].
    destruct (sr_worker s); [|same_history t].
    destruct (negb (o =? w_id w)); [same_history t|].
    destruct (negb (Status_eqb (sr_status s) in_progress)); [same_history t|].
    cbn [snd set_trackings trackings save_request set_requests].
    match goal with
    | |- context [updateFirst ?p ?f (trackings st)] =>
        destruct (findById_updateFirst t_id p f id t (trackings st)
                    (fun x => eq_refl) Ht) as [t' [Hf [->| ->]]]
    end.
    + exists t, []. split; [exact Hf|now rewrite app_nil_r].
    + eexists; exists []. split; [exact Hf|now rewrite app_nil_r].
  - unfold Service.rate. break_handler; simpl;
      rewrite ?trackings_updateRating_worker; same_history t.
  - unfold TrackingRoute.create. break_handler; simpl; try same_history t.
    exists t, []. split; [now apply findById_app|now rewrite app_nil_r].
  - unfold TrackingRoute.update_location.
    destruct (negb (authorize role_worker user)); [same_history t|].
    destruct (findById t_id id0 (trackings st)) as [t0|] eqn:Ht0; [|same_history t].
    destruct (findOne _ (workers st)); [|same_history t].
    destruct (negb (t_worker t0 =? w_id w)); [same_history t|].
    cbn [fst snd save_tracking save_worker set_trackings set_workers trackings
         res_success ok].
    rewrite (findById_replaceById_any t_id id _ t _ Ht).
    cbn [t_id set_t_updatedAt set_t_locationHistory set_t_currentLocation].
    destruct (findById_Some _ _ _ _ Ht0) as [Hid0 _]. rewrite Hid0.
    rewrite andb_true_r.
    destruct (id0 =? id) eqn:E.
    + apply Nat.eqb_eq in E. assert (t0 = t) by congruence. subst t0.
      eexists; eexists. split; [reflexivity|]. split; reflexivity.
    + exists t, []. split; [reflexivity|]. split; [now rewrite app_nil_r|].
      reflexivity.
  - unfold TrackingRoute.update_status.
    destruct (negb (authorize role_worker user)); [same_history t|].
    destruct (findById t_id id0 (trackings st)) as [t0|] eqn:Ht0; [|same_history t].
    destruct (findOne _ (workers st)); [|same_history t].
    destruct (negb (t_worker t0 =? w_id w)); [same_history t|].
    destruct (TrackingRoute.parse_status status) as [s|]; [|same_history t].
    assert (Hgoal : exists t' suffix,
               findById t_id id
                 (trackings
                    (save_tracking now
                       match s with
                       | t_completed =>
                           set_t_endedAt (Some now)
                             (set_t_isLive false (set_t_status s t0))
                       | _ => set_t_status s t0
                       end st)) = Some t' /\
               t_locationHistory t' = (t_locationHistory t ++ suffix)%list /\
               List.length suffix = 0).
    { cbn [save_tracking set_trackings trackings].
      rewrite (findById_replaceById_any t_id id _ t _ Ht).
      match goal with
      | |- context [t_id ?d =? id] =>
          replace (t_id d) with (t_id t0) by now destruct s
      end.
      destruct (t_id t0 =? id) eqn:E.
      - apply Nat.eqb_eq in E.
        destruct (findById_Some _ _ _ _ Ht0) as [Hid0 _].
        assert (t0 = t) by congruence. subst t0.
        eexists; exists []. split; [reflexivity|]. split; [|reflexivity].
        rewrite app_nil_r. now destruct s.
      - exists t, []. split; [reflexivity|]. split; [now rewrite app_nil_r|].
        reflexivity. }
    destruct s; exact Hgoal.
  - unfold TrackingRoute.end_tracking.
    destruct (negb (authorize role_worker user)); [same_history t|].
    destruct (findById t_id id0 (trackings st)) as [t0|] eqn:Ht0; [|same_history t].
    destruct (findOne _ (workers st)); [|same_history t].
    destruct (negb (t_worker t0 =? w_id w)); [same_history t|].
    cbn [snd save_tracking set_trackings trackings].
    rewrite (findById_replaceById_any t_id id _ t _ Ht).
    cbn [t_id set_t_updatedAt set_t_endedAt set_t_status set_t_isLive].
    destruct (t_id t0 =? id) eqn:E.
    + apply Nat.eqb_eq in E.
      destruct (findById_Some _ _ _ _ Ht0) as [Hid0 _].
      assert (t0 = t) by congruence. subst t0.
      eexists; exists []. split; [reflexivity|now rewrite app_nil_r].
    + exists t, []. split; [reflexivity|now rewrite app_nil_r].
Qed.

(** Along every trace the location history of a tracking record only
    grows, by one entry for each successful location update of the
    record. *)
Lemma run_history_length (trace : list (Time * Op)) (st : Store)
  (id : ObjectId) (t : Tracking) :
  findById t_id id (trackings st) = Some t ->
  exists t' suffix,
    findById t_id id (trackings (snd (run trace st))) = Some t' /\
    t_locationHistory t' = (t_locationHistory t ++ suffix)%list /\
    List.length suffix = count_location_updates id trace st.
Proof.
  revert st t. induction trace as [|[now op] trace IH]; intros st t Ht.
  - exists t, []. simpl. split; [exact Ht|]. split; [now rewrite app_nil_r|reflexivity].
  - destruct (step_history_append_only now op st id t Ht)
      as (t1 & s1 & Hf1 & Hh1 & Hl1).
    destruct (IH _ _ Hf1) as (t2 & s2 & Hf2 & Hh2 & Hl2).
    exists t2, (s1 ++ s2)%list. simpl.
    destruct (step now op st) as [res st1] eqn:Es. simpl in *.
    destruct (run trace st1) as [rs st2] eqn:Er. simpl in *.
    split; [exact Hf2|]. split.
    + rewrite Hh2, Hh1. now rewrite app_assoc.
    + rewrite length_app. lia.
Qed.

(** Whatever the store, the record that a successful start appends has an
    empty location history. *)
Lemma start_appends_empty_history (now : Time) (user : User) (id : ObjectId)
  (st : Store) :
  res_success (fst (Service.start now user id st)) = true ->
  exists t,
    trackings (snd (Service.start now user id st)) = (trackings st ++ [t])%list /\
    t_locationHistory t = [] /\ t_isLive t = true.
Proof.
  unfold Service.start.
  destruct (negb (authorize role_worker user)); [discriminate|].
  destruct (findById sr_id id (requests st)) as [sr|]; [|discriminate].
  destruct (findOne _ (workers st)) as [w|]; [|discriminate].
  destruct (sr_worker sr) as [a|]; [|discriminate].
  destruct (negb (a =? w_id w)); [discriminate|].
  destruct (negb (Status_eqb (sr_status sr) accepted)); [discriminate|].
  intros _. eexists. simpl. repeat split.
Qed.

(** A tracking record opened by the start route holds, after any trace,
    as many history entries as location updates of it succeeded. *)
Lemma started_tracking_history_length (now : Time) (user : User)
  (id : ObjectId) (st : Store) (trace : list (Time * Op)) :
  res_success (fst (Service.start now user id st)) = true ->
  exists t t',
    trackings (snd (Service.start now user id st)) = (trackings st ++ [t])%list /\
    findById t_id (t_id t)
      (trackings (snd (run trace (snd (Service.start now user id st))))) = Some t' /\
    List.length (t_locationHistory t')
    = count_location_updates (t_id t) trace (snd (Service.start now user id st)).
Proof.
  intros Hok.
  assert (H : exists t,
             trackings (snd (Service.start now user id st))
             = (trackings st ++ [t])%list /\
             t_locationHistory t = [] /\ t_id t = freshId t_id (trackings st)).
  { revert Hok. unfold Service.start.
    destruct (negb (authorize role_worker user)); [discriminate|].
    destruct (findById sr_id id (requests st)) as [sr|]; [|discriminate].
    destruct (findOne _ (workers st)) as [w|]; [|discriminate].
    destruct (sr_worker sr) as [a|]; [|discriminate].
    destruct (negb (a =? w_id w)); [discriminate|].
    destruct (negb (Status_eqb (sr_status sr) accepted)); [discriminate|].
    intros _. eexists. simpl. repeat split. }
  destruct H as (t & Htr & Hh & Hid).
  assert (Hf : findById t_id (t_id t)
                 (trackings (snd (Service.start now user id st))) = Some t).
  { rewrite Htr. now apply findById_app_fresh. }
  destruct (run_history_length trace _ _ _ Hf) as (t' & suffix & Hf' & Hh' & Hl).
  exists t, t'. split; [exact Htr|]. split; [exact Hf'|].
  rewrite Hh', Hh. simpl. exact Hl.
Qed.

(** A tracking record opened by the create-tracking route holds one entry
    more: its seed. *)
Lemma created_tracking_history_length (now : Time) (user : User)
  (id : ObjectId) (coordinates : option Coordinates) (address : option string)
  (st : Store) (trace : list (Time * Op)) :
  res_success (fst (TrackingRoute.create now user id coordinates address st)) = true ->
  exists t t',
    trackings (snd (TrackingRoute.create now user id coordinates address st))
    = (trackings st ++ [t])%list /\
    findById t_id (t_id t)
      (trackings (snd (run trace
         (snd (TrackingRoute.create now user id coordinates address st))))) = Some t' /\
    List.length (t_locationHistory t')
    = 1 + count_location_updates (t_id t) trace
            (snd (TrackingRoute.create now user id coordinates address st)).
Proof.
  intros Hok.
  assert (H : exists t,
             trackings (snd (TrackingRoute.create now user id coordinates address st))
             = (trackings st ++ [t])%list /\
             List.length (t_locationHistory t) = 1 /\
             t_id t = freshId t_id (trackings st)).
  { revert Hok. unfold TrackingRoute.create.
    destruct (negb (authorize role_worker user)); [discriminate|].
    destruct (findById sr_id id (requests st)) as [sr|]; [|discriminate].
    destruct (findOne _ (workers st)) as [w|]; [|discriminate].
    destruct (findOne _ (trackings st)); [discriminate|].
    intros _. eexists. simpl. repeat split. }
  destruct H as (t & Htr & Hh & Hid).
  assert (Hf : findById t_id (t_id t)
                 (trackings (snd (TrackingRoute.create now user id coordinates
                                    address st))) = Some t).
  { rewrite Htr. now apply findById_app_fresh. }
  destruct (run_history_length trace _ _ _ Hf) as (t' & suffix & Hf' & Hh' & Hl).
  exists t, t'. split; [exact Htr|]. split; [exact Hf'|].
  rewrite Hh', length_app, Hh, Hl. reflexivity.
Qed.

(** C6.  A tracking record created by the start route has no seed entry:
    its location history is empty after the start and holds exactly as
    many entries as location updates succeeded (two after two), not one
    more.  The record created by the create-tracking route starts with
    its seed entry and holds three entries after the same two updates. *)
Theorem started_tracking_history_has_no_seed :
  map res_status (fst (run start_then_move registered))
    = [201; 200; 200; 200; 200] /\
  map (fun t => List.length (t_locationHistory t))
      (trackings (snd (run (firstn 3 start_then_move) registered))) = [0] /\
  map (fun t => List.length (t_locationHistory t))
      (trackings (snd (run start_then_move registered))) = [2] /\
  map res_status (fst (run track_then_move registered))
    = [201; 200; 201; 200; 200] /\
  map (fun t => List.length (t_locationHistory t))
      (trackings (snd (run (firstn 3 track_then_move) registered))) = [1] /\
  map (fun t => List.length (t_locationHistory t))
      (trackings (snd (run track_then_move registered))) = [3].
Proof. repeat split; reflexivity. Qed.

(** ** Proximity listings *)

Lemma calculateDistance_equator_180 :
  Helpers.calculateDistance 0 0 0 180 = (6371 * PI)%R.
Proof.
  destruct (calculateDistance_zero_symmetric_radius_aux 0 0 0 180) as [H _].
  rewrite H. apply calculateDistance_antipodal.
Qed.

Lemma available_requests_In (user : User) (st : Store) (worker : Worker)
  (r : ServiceRequest) :
  authorize role_worker user = true ->
  findOne (fun w => w_user w =? u_id user) (workers st) = Some worker ->
  In r (snd (WorkerRoute.available_requests user st)) <->
  In r (requests st) /\
  sr_serviceType r = w_profession worker /\
  sr_status r = pending /\
  (sr_location r = origin \/
   (Helpers.calculateDistance
      (lat (wl_coordinates (w_location worker)))
      (lng (wl_coordinates (w_location worker)))
      (lat (sr_location r)) (lng (sr_location r))
    <= w_serviceArea worker)%R).
Proof.
  intros Hauth Hw. unfold WorkerRoute.available_requests.
  rewrite Hauth, Hw. simpl.
  rewrite filter_In, sort_desc_In, filter_In, andb_true_iff.
  rewrite Profession_eqb_eq, Status_eqb_eq.
  unfold WorkerRoute.in_service_area.
  destruct (Reqb (lng (sr_location r)) 0 && Reqb (lat (sr_location r)) 0) eqn:E.
  - apply andb_true_iff in E. destruct E as [E1 E2].
    apply Reqb_true in E1, E2.
    assert (sr_location r = origin).
    { unfold origin, lng, lat in *. destruct (sr_location r); simpl in *.
      congruence. }
    tauto.
  - rewrite Rleb_true.
    assert (sr_location r <> origin).
    { intros Heq. rewrite Heq in E. unfold origin, lng, lat in E. simpl in E.
      assert (T : Reqb 0 0 = true) by now apply Reqb_true.
      rewrite T in E. discriminate. }
    tauto.
Qed.

Section NearFacts.

Variable geoDistance : Coordinates -> Coordinates -> R.

Lemma nearby_requests_In (user : User) (query : Service.NearbyQuery)
  (st : Store) (worker : Worker) (latitude longitude : R) (r : ServiceRequest) :
  authorize role_worker user = true ->
  findOne (fun w => w_user w =? u_id user) (workers st) = Some worker ->
  Service.q_latitude query = Some latitude ->
  Service.q_longitude query = Some longitude ->
  In r (snd (Service.nearby_requests geoDistance user query st)) <->
  In r (requests st) /\
  sr_serviceType r = w_profession worker /\
  sr_status r = pending /\
  (geoDistance (longitude, latitude) (sr_location r)
   <= match Service.q_radius query with Some x => x | None => 10 end * 1000)%R.
Proof.
  intros Hauth Hw Hlat Hlon. unfold Service.nearby_requests.
  rewrite Hauth, Hlat, Hlon, Hw. simpl.
  rewrite sort_desc_In, filter_In, !andb_true_iff.
  rewrite Profession_eqb_eq, Status_eqb_eq.
  unfold Service.near. rewrite Rleb_true. tauto.
Qed.

Lemma nearby_workers_In (query : Service.NearbyQuery)
  (profession : option Profession) (st : Store) (latitude longitude : R)
  (w : Worker) :
  Service.q_latitude query = Some latitude ->
  Service.q_longitude query = Some longitude ->
  In w (snd (WorkerRoute.nearby geoDistance query profession st)) <->
  In w (workers st) /\
  w_isVerified w = true /\
  w_isAvailable w = true /\
  (geoDistance (longitude, latitude) (wl_coordinates (w_location w))
   <= match Service.q_radius query with Some x => x | None => 10 end * 1000)%R /\
  match profession with Some p => w_profession w = p | None => True end.
Proof.
  intros Hlat Hlon. unfold WorkerRoute.nearby. rewrite Hlat, Hlon. simpl.
  rewrite filter_In, !andb_true_iff. unfold Service.near. rewrite Rleb_true.
  destruct profession as [p|].
  - rewrite Profession_eqb_eq. tauto.
  - intuition.
Qed.

End NearFacts.

Lemma near_origin_from_antipode :
  Service.near haversine_metres (180, 0)%R (10 * 1000)%R origin = false.
Proof.
  unfold Service.near, haversine_metres, origin, lat, lng. simpl fst. simpl snd.
  destruct (Rleb _ _) eqn:E; [|reflexivity].
  apply Rleb_true in E. rewrite calculateDistance_antipodal in E.
  pose proof PI2_1. lra.
Qed.

Lemma near_antipode_from_origin :
  Service.near haversine_metres (0, 0)%R (30000 * 1000)%R (180, 0)%R = true.
Proof.
  unfold Service.near, haversine_metres, lat, lng. simpl fst. simpl snd.
  apply Rleb_true. rewrite calculateDistance_equator_180.
  pose proof PI_4. lra.
Qed.

(** C7, as stated, fails: Alice's pending plumbing request is stored at
    (0,0).  Bob, a plumber, lists the nearby requests from the point at
    latitude 0 and longitude 180 with the default radius; the store
    measures by the Haversine distance.  The listing succeeds and returns
    no request: the nearby listing has no exception for (0,0). *)
Lemma nearby_requests_omits_unset_location :
  map (fun r => (sr_location r, sr_serviceType r, sr_status r)) (requests asked)
    = [(origin, w_profession bob_profile, pending)] /\
  Service.nearby_requests haversine_metres bob
    (Service.mkNearbyQuery (Some 0%R) (Some 180%R) None) asked
    = (ok "", []).
Proof.
  split; [reflexivity|].
  cbn -[Service.near]. rewrite near_origin_from_antipode. reflexivity.
Qed.

(** C7, amended.  In the available-requests listing of a worker, a pending
    request of the worker's profession whose stored location is exactly
    (0,0) is included whatever the worker's position and service area, and
    any other such request is included if and only if its Haversine
    distance from the worker's stored position is at most the worker's
    service area.  The nearby listings of requests and of workers hand the
    test to the store: a candidate, at (0,0) or not, is included if and
    only if the store measures at most radius * 1000 metres from the query
    point. *)
Theorem proximity_listings_membership :
  forall (geoDistance : Coordinates -> Coordinates -> R) (user : User)
         (st : Store) (worker : Worker) (r : ServiceRequest),
    authorize role_worker user = true ->
    findOne (fun w => w_user w =? u_id user) (workers st) = Some worker ->
    In r (requests st) ->
    sr_serviceType r = w_profession worker ->
    sr_status r = pending ->
    (sr_location r = origin ->
     In r (snd (WorkerRoute.available_requests user st))) /\
    (sr_location r <> origin ->
     (In r (snd (WorkerRoute.available_requests user st)) <->
      (Helpers.calculateDistance
         (lat (wl_coordinates (w_location worker)))
         (lng (wl_coordinates (w_location worker)))
         (lat (sr_location r)) (lng (sr_location r))
       <= w_serviceArea worker)%R)) /\
    (forall query latitude longitude,
        Service.q_latitude query = Some latitude ->
        Service.q_longitude query = Some longitude ->
        (In r (snd (Service.nearby_requests geoDistance user query st)) <->
         (geoDistance (longitude, latitude) (sr_location r)
          <= match Service.q_radius query with Some x => x | None => 10 end
             * 1000)%R)) /\
    (forall query profession latitude longitude w,
        Service.q_latitude query = Some latitude ->
        Service.q_longitude query = Some longitude ->
        In w (workers st) -> w_isVerified w = true -> w_isAvailable w = true ->
        match profession with Some p => w_profession w = p | None => True end ->
        (In w (snd (WorkerRoute.nearby geoDistance query profession st)) <->
         (geoDistance (longitude, latitude) (wl_coordinates (w_location w))
          <= match Service.q_radius query with Some x => x | None => 10 end
             * 1000)%R)).
Proof.
  intros geoDistance user st worker r Hauth Hw Hin Hty Hst.
  pose proof (available_requests_In user st worker r Hauth Hw) as Hav.
  split; [|split; [|split]].
  - intros Ho. apply Hav. tauto.
  - intros Hno. rewrite Hav. tauto.
  - intros query latitude longitude Hlat Hlon.
    rewrite (nearby_requests_In geoDistance user query st worker latitude
               longitude r Hauth Hw Hlat Hlon). tauto.
  - intros query profession latitude longitude w Hlat Hlon Hinw Hv Ha Hp.
    rewrite (nearby_workers_In geoDistance query profession st latitude
               longitude w Hlat Hlon). tauto.
Qed.

(** Alice's request without a position is available to Bob. *)
Lemma proximity_listings_membership_witness :
  In asked_request (snd (WorkerRoute.available_requests bob asked)).
Proof.
  exact (proj1
           (proximity_listings_membership haversine_metres bob asked
              bob_profile asked_request eq_refl eq_refl
              (or_introl eq_refl) eq_refl eq_refl)
           eq_refl).
Defined.

(** C8, as stated, fails: Bob's service area is 10 km.  He lists the
    nearby requests from (0,0) with a radius of 30000 km, and Alice's
    request on the other side of the equator, [6371 * PI] km away, is
    returned: the listing is bounded by the radius of the query, not by
    the worker's service area. *)
Lemma nearby_requests_beyond_service_area :
  Service.nearby_requests haversine_metres bob
    (Service.mkNearbyQuery (Some 0%R) (Some 0%R) (Some 30000%R)) asked_far
    = (ok "", [asked_far_request]) /\
  w_serviceArea bob_profile = 10%R /\
  sr_location asked_far_request = (180, 0)%R /\
  (180 <> 0)%R /\
  Helpers.calculateDistance 0 0 (lat (sr_location asked_far_request))
    (lng (sr_location asked_far_request)) = (6371 * PI)%R /\
  (w_serviceArea bob_profile < 6371 * PI)%R.
Proof.
  split; [|split; [reflexivity|split; [reflexivity|split; [lra|split]]]].
  - cbn -[Service.near]. rewrite near_antipode_from_origin. reflexivity.
  - apply calculateDistance_equator_180.
  - simpl. pose proof PI2_1. lra.
Qed.

(** C8, amended.  Every request returned by the nearby-requests listing of
    a worker has the worker's profession as service type, is pending, and
    lies within the radius of the query (10 km when the query gives none)
    of the query point, as the store measures; the worker's service area
    is not consulted.  Every request returned by the available-requests
    listing has the worker's profession as service type, is pending, and
    is either stored at (0,0) or within the worker's service area, in
    Haversine kilometres, of the worker's stored position. *)
Theorem nearby_requests_within_query_radius :
  forall (geoDistance : Coordinates -> Coordinates -> R) (user : User)
         (query : Service.NearbyQuery) (st : Store) (r : ServiceRequest),
    (In r (snd (Service.nearby_requests geoDistance user query st)) ->
     exists worker latitude longitude,
       findOne (fun w => w_user w =? u_id user) (workers st) = Some worker /\
       Service.q_latitude query = Some latitude /\
       Service.q_longitude query = Some longitude /\
       sr_serviceType r = w_profession worker /\
       sr_status r = pending /\
       (geoDistance (longitude, latitude) (sr_location r)
        <= match Service.q_radius query with Some x => x | None => 10 end
           * 1000)%R) /\
    (In r (snd (WorkerRoute.available_requests user st)) ->
     exists worker,
       findOne (fun w => w_user w =? u_id user) (workers st) = Some worker /\
       sr_serviceType r = w_profession worker /\
       sr_status r = pending /\
       (sr_location r = origin \/
        (Helpers.calculateDistance
           (lat (wl_coordinates (w_location worker)))
           (lng (wl_coordinates (w_location worker)))
           (lat (sr_location r)) (lng (sr_location r))
         <= w_serviceArea worker)%R)).
Proof.
  intros geoDistance user query st r. split.
  - intros Hin.
    destruct (authorize role_worker user) eqn:Hauth;
      [|unfold Service.nearby_requests in Hin; rewrite Hauth in Hin;
        simpl in Hin; contradiction].
    destruct (Service.q_latitude query) as [latitude|] eqn:Hlat;
      [|unfold Service.nearby_requests in Hin; rewrite Hauth, Hlat in Hin;
        simpl in Hin; contradiction].
    destruct (Service.q_longitude query) as [longitude|] eqn:Hlon;
      [|unfold Service.nearby_requests in Hin; rewrite Hauth, Hlat, Hlon in Hin;
        simpl in Hin; contradiction].
    destruct (findOne (fun w => w_user w =? u_id user) (workers st))
      as [worker|] eqn:Hw;
      [|unfold Service.nearby_requests in Hin;
        rewrite Hauth, Hlat, Hlon, Hw in Hin; simpl in Hin; contradiction].
    apply (nearby_requests_In geoDistance user query st worker latitude
             longitude r Hauth Hw Hlat Hlon) in Hin.
    exists worker, latitude, longitude. tauto.
  - intros Hin.
    destruct (authorize role_worker user) eqn:Hauth;
      [|unfold WorkerRoute.available_requests in Hin; rewrite Hauth in Hin;
        simpl in Hin; contradiction].
    destruct (findOne (fun w => w_user w =? u_id user) (workers st))
      as [worker|] eqn:Hw;
      [|unfold WorkerRoute.available_requests in Hin;
        rewrite Hauth, Hw in Hin; simpl in Hin; contradiction].
    apply (available_requests_In user st worker r Hauth Hw) in Hin.
    exists worker. tauto.
Qed.

(** Alice's far request is returned to Bob's query of radius 30000 km, and
    the bound that holds for it is the one of the query. *)
Lemma nearby_requests_within_query_radius_witness :
  exists worker latitude longitude,
    findOne (fun w => w_user w =? u_id bob) (workers asked_far) = Some worker /\
    Service.q_latitude (Service.mkNearbyQuery (Some 0%R) (Some 0%R) (Some 30000%R))
      = Some latitude /\
    Service.q_longitude (Service.mkNearbyQuery (Some 0%R) (Some 0%R) (Some 30000%R))
      = Some longitude /\
    sr_serviceType asked_far_request = w_profession worker /\
    sr_status asked_far_request = pending /\
    (haversine_metres (longitude, latitude) (sr_location asked_far_request)
     <= 30000 * 1000)%R.
Proof.
  apply (proj1 (nearby_requests_within_query_radius haversine_metres bob
                  (Service.mkNearbyQuery (Some 0%R) (Some 0%R) (Some 30000%R))
                  asked_far asked_far_request)).
  cbn -[Service.near]. rewrite near_antipode_from_origin. now left.
Defined.

(** * Further properties of the handlers *)

(** ** How a call changes a stored service request *)

Lemma replaced_request (st : Store) (j id : ObjectId) (r sr d : ServiceRequest) :
  findById sr_id j (requests st) = Some r ->
  findById sr_id id (requests st) = Some sr ->
  sr_id d = sr_id sr ->
  exists r',
    findById sr_id j (replaceById sr_id d (requests st)) = Some r' /\
    (r' = r \/ (sr = r /\ r' = d)).
Proof.
  intros Hr Hsr Hid.
  rewrite (findById_replaceById_any sr_id j d r _ Hr).
  destruct (sr_id d =? j) eqn:E.
  - apply Nat.eqb_eq in E.
    destruct (findById_Some _ _ _ _ Hsr) as [Hid0 _].
    assert (sr = r) by congruence. subst sr.
    exists d. split; [reflexivity|now right].
  - exists r. split; [reflexivity|now left].
Qed.

Ltac unchanged_request r :=
  exists r; split; [assumption|apply rc_same].

Ltac changed_request Hr Hsr :=
  match goal with
  | |- exists r', findById sr_id ?j (replaceById sr_id ?d (requests ?st)) = Some r' /\ _ =>
      destruct (replaced_request st j _ _ _ d Hr Hsr eq_refl)
        as (r1 & Hr1 & [E1|[E1 E2]]);
      exists r1; (split; [exact Hr1|]);
      [rewrite E1; apply rc_same|rewrite E2; rewrite E1 in *]
  end.

(** One call, seen from one stored request. *)
Lemma request_change_of_step :
  forall (now : Time) (op : Op) (st : Store) (j : ObjectId) (r : ServiceRequest),
    findById sr_id j (requests st) = Some r ->
    exists r',
      findById sr_id j (requests (snd (step now op st))) = Some r' /\
      request_change now r r'.
Proof.
  intros now op st j r Hr. destruct op; simpl.
  - exists r. split; [now apply findById_app|apply rc_same].
  - unfold Service.accept.
    destruct (negb (authorize role_worker user)); [unchanged_request r|].
    destruct (findById sr_id id (requests st)) as [sr|] eqn:Hsr;
      [|unchanged_request r].
    destruct (Status_eqb (sr_status sr) pending) eqn:Hst; [|unchanged_request r].
    destruct (findOne _ (workers st)) as [w|]; [|unchanged_request r].
    apply Status_eqb_eq in Hst.
    cbn [negb snd save_worker save_request set_workers set_requests requests].
    changed_request Hr Hsr. now apply rc_accept.
  - unfold Service.reject.
    destruct (findById sr_id id (requests st)) as [sr|] eqn:Hsr;
      [|unchanged_request r].
    destruct (match sr_worker sr with Some w => w =? u_id user | None => false end).
    + cbn [negb andb snd save_request set_requests requests].
      changed_request Hr Hsr. apply rc_reject_worker.
    + destruct (sr_customer sr =? u_id user).
      * cbn [negb andb snd save_request set_requests requests].
        changed_request Hr Hsr. apply rc_reject_customer.
      * destruct (Role_eqb (u_role user) role_admin);
          cbn [negb andb snd save_request set_requests requests];
          [|unchanged_request r].
        changed_request Hr Hsr. apply rc_reject_admin.
  - unfold Service.start.
    destruct (negb (authorize role_worker user)); [unchanged_request r|].
    destruct (findById sr_id id (requests st)) as [sr|] eqn:Hsr;
      [|unchanged_request r].
    destruct (findOne _ (workers st)) as [w|]; [|unchanged_request r].
    destruct (sr_worker sr) as [a|]; [|unchanged_request r].
    destruct (negb (a =? w_id w)); [unchanged_request r|].
    destruct (Status_eqb (sr_status sr) accepted) eqn:Hst; [|unchanged_request r].
    apply Status_eqb_eq in Hst.
    cbn [negb snd save_request set_trackings set_requests requests].
    changed_request Hr Hsr. now apply rc_start.
  - unfold Service.complete.
    destruct (negb (authorize role_worker user)); [unchanged_request r|].
    destruct (findById sr_id id (requests st)) as [sr|] eqn:Hsr;
      [|unchanged_request r].
    destruct (findOne _ (workers st)) as [w|]; [|unchanged_request r].
    destruct (sr_worker sr) as [a|]; [|unchanged_request r].
    destruct (negb (a =? w_id w)); [unchanged_request r|].
    destruct (Status_eqb (sr_status sr) in_progress) eqn:Hst;
      [|unchanged_request r].
    apply Status_eqb_eq in Hst.
    cbn [negb snd save_request set_trackings set_requests requests].
    destruct actualCost as [c|].
    + destruct (truthy_number (Some c)) eqn:Hc.
      * changed_request Hr Hsr. apply rc_complete_cost; [exact Hst|].
        simpl in Hc. apply negb_true_iff in Hc. now apply Z.eqb_neq.
      * changed_request Hr Hsr. now apply rc_complete.
    + changed_request Hr Hsr. now apply rc_complete.
  - unfold Service.rate.
    destruct (findById sr_id id (requests st)) as [sr|] eqn:Hsr;
      [|unchanged_request r].
    destruct (Status_eqb (sr_status sr) completed) eqn:Hst;
      [|unchanged_request r].
    apply Status_eqb_eq in Hst. cbn [negb].
    destruct (truthy_number (sr_customerRating sr)) eqn:Ht; [unchanged_request r|].
    destruct ((sr_customer sr =? u_id user)
              && String.eqb reviewType "customer_to_worker").
    + destruct (match sr_worker _ with Some w => _ | None => None end);
        [|unchanged_request r].
      destruct (Service.valid_rating rating) as [v|] eqn:Hv;
        [|unchanged_request r].
      cbn [snd save_request set_requests requests].
      rewrite requests_updateRating_worker. cbn [set_reviews requests].
      changed_request Hr Hsr.
      assert (Hrat : rating = Some v /\ (1 <= v <= 5)%Z).
      { unfold Service.valid_rating in Hv. destruct rating as [x|]; [|discriminate].
        destruct ((1 <=? x)%Z && (x <=? 5)%Z) eqn:Hx; [|discriminate].
        injection Hv as <-. apply andb_true_iff in Hx. destruct Hx as [H1 H2].
        apply Z.leb_le in H1, H2. now split. }
      destruct Hrat as [-> Hb]. now apply rc_rate.
    + cbn [snd save_request set_requests requests].
      changed_request Hr Hsr. now apply rc_rate_nothing.
  - unfold TrackingRoute.create. break_handler; simpl; unchanged_request r.
  - unfold TrackingRoute.update_location. break_handler; simpl; unchanged_request r.
  - unfold TrackingRoute.update_status.
    destruct (negb (authorize role_worker user)); [unchanged_request r|].
    destruct (findById t_id id (trackings st)) as [t0|]; [|unchanged_request r].
    destruct (findOne _ (workers st)) as [w|]; [|unchanged_request r].
    destruct (negb (t_worker t0 =? w_id w)); [unchanged_request r|].
    destruct (TrackingRoute.parse_status status) as [s|]; [|unchanged_request r].
    destruct s; cbn [snd save_tracking set_trackings set_requests requests];
      try unchanged_request r.
    match goal with
    | |- context [updateFirst ?p ?f (requests st)] =>
        destruct (findById_updateFirst sr_id p f j r (requests st)
                    (fun x => eq_refl) Hr) as [r' [Hf [->| ->]]]
    end.
    + exists r. split; [exact Hf|apply rc_same].
    + eexists. split; [exact Hf|apply rc_arrived].
  - unfold TrackingRoute.end_tracking. break_handler; simpl; unchanged_request r.
Qed.

(** Every call leaves each stored service request in place and changes it
    in one of the ways of [request_change]. *)
Theorem step_request_change :
  forall (now : Time) (op : Op) (st : Store) (j : ObjectId) (r : ServiceRequest),
    findById sr_id j (requests st) = Some r ->
    exists r',
      findById sr_id j (requests (snd (step now op st))) = Some r' /\
      request_change now r r'.
Proof.
  exact request_change_of_step.
Qed.

Lemma step_request_change_witness :
  exists r',
    findById sr_id 1 (requests (snd (step 2 (OpAccept bob 1) asked))) = Some r' /\
    request_change 2 asked_request r'.
Proof.
  apply (step_request_change 2 (OpAccept bob 1) asked 1 asked_request).
  reflexivity.
Defined.

(** A relation between the earlier and the later state of a request that
    holds across each change holds across every trace. *)
Lemma run_request_relation (Q : ServiceRequest -> ServiceRequest -> Prop) :
  (forall r, Q r r) ->
  (forall a b c, Q a b -> Q b c -> Q a c) ->
  (forall now a b, request_change now a b -> Q a b) ->
  forall (trace : list (Time * Op)) (st : Store) (j : ObjectId) (r : ServiceRequest),
    findById sr_id j (requests st) = Some r ->
    exists r', findById sr_id j (requests (snd (run trace st))) = Some r' /\ Q r r'.
Proof.
  intros Hrefl Htrans Hstep trace.
  induction trace as [|[now op] trace IH]; intros st j r Hr.
  - exists r. split; [exact Hr|apply Hrefl].
  - destruct (request_change_of_step now op st j r Hr) as (r1 & Hr1 & Hc).
    destruct (IH _ _ _ Hr1) as (r2 & Hr2 & Hq).
    exists r2. simpl.
    destruct (step now op st) as [res st1]. simpl in *.
    destruct (run trace st1) as [rs st2]. simpl in *.
    split; [exact Hr2|]. exact (Htrans _ _ _ (Hstep _ _ _ Hc) Hq).
Qed.





(** ** How a call changes a stored tracking record *)

Lemma string_or_idem (s : option string) (d : string) :
  string_or s (string_or s d) = string_or s d.
Proof.
  unfold string_or. destruct s as [v|]; [|reflexivity].
  now destruct (String.eqb v "") eqn:E.
Qed.

Lemma coordinates_or_idem (c : option Coordinates) (d : Coordinates) :
  coordinates_or c (coordinates_or c d) = coordinates_or c d.
Proof. now destruct c. Qed.

Lemma replaced_tracking (st : Store) (j id : ObjectId) (t t0 d : Tracking) :
  findById t_id j (trackings st) = Some t ->
  findById t_id id (trackings st) = Some t0 ->
  t_id d = t_id t0 ->
  exists t',
    findById t_id j (replaceById t_id d (trackings st)) = Some t' /\
    (t' = t \/ (t0 = t /\ t' = d)).
Proof.
  intros Ht Ht0 Hid.
  rewrite (findById_replaceById_any t_id j d t _ Ht).
  destruct (t_id d =? j) eqn:E.
  - apply Nat.eqb_eq in E.
    destruct (findById_Some _ _ _ _ Ht0) as [Hid0 _].
    assert (t0 = t) by congruence. subst t0.
    exists d. split; [reflexivity|now right].
  - exists t. split; [reflexivity|now left].
Qed.

Ltac unchanged_tracking t :=
  exists t; split; [assumption|apply tc_same].

Ltac changed_tracking Ht Ht0 :=
  match goal with
  | |- exists t', findById t_id ?j (replaceById t_id ?d (trackings ?st)) = Some t' /\ _ =>
      destruct (replaced_tracking st j _ _ _ d Ht Ht0 eq_refl)
        as (t1 & Ht1 & [E1|[E1 E2]]);
      exists t1; (split; [exact Ht1|]);
      [rewrite E1; apply tc_same|rewrite E2; rewrite E1 in *]
  end.

(** One call, seen from one stored tracking record. *)
Lemma tracking_change_of_step :
  forall (now : Time) (op : Op) (st : Store) (j : ObjectId) (t : Tracking),
    findById t_id j (trackings st) = Some t ->
    exists t',
      findById t_id j (trackings (snd (step now op st))) = Some t' /\
      tracking_change now t t'.
Proof.
  intros now op st j t Ht. destruct op; simpl.
  - unchanged_tracking t.
  - unfold Service.accept. break_handler; simpl; unchanged_tracking t.
  - unfold Service.reject. break_handler; simpl; unchanged_tracking t.
  - unfold Service.start. break_handler; simpl; try unchanged_tracking t.
    exists t. split; [now apply findById_app|apply tc_same].
  - unfold Service.complete.
    destruct (negb (authorize role_worker user)); [unchanged_tracking t|].
    destruct (findById sr_id id (requests st)); [|unchanged_tracking t].
    destruct (findOne _ (workers st)); [|unchanged_tracking t].
    destruct (sr_worker s); [|unchanged_tracking t].
    destruct (negb (o =? w_id w)); [unchanged_tracking t|].
    destruct (negb (Status_eqb (sr_status s) in_progress)); [unchanged_tracking t|].
    cbn [snd set_trackings trackings save_request set_requests].
    match goal with
    | |- context [updateFirst ?p ?f (trackings st)] =>
        destruct (findById_updateFirst t_id p f j t (trackings st)
                    (fun x => eq_refl) Ht) as [t' [Hf [->| ->]]]
    end.
    + exists t. split; [exact Hf|apply tc_same].
    + eexists. split; [exact Hf|apply tc_service_completed].
  - unfold Service.rate. break_handler; simpl;
      rewrite ?trackings_updateRating_worker; unchanged_tracking t.
  - unfold TrackingRoute.create. break_handler; simpl; try unchanged_tracking t.
    exists t. split; [now apply findById_app|apply tc_same].
  - unfold TrackingRoute.update_location.
    destruct (negb (authorize role_worker user)); [unchanged_tracking t|].
    destruct (findById t_id id (trackings st)) as [t0|] eqn:Ht0;
      [|unchanged_tracking t].
    destruct (findOne _ (workers st)); [|unchanged_tracking t].
    destruct (negb (t_worker t0 =? w_id w)); [unchanged_tracking t|].
    cbn [snd save_tracking save_worker set_trackings set_workers trackings].
    changed_tracking Ht Ht0.
    cbn [t_currentLocation set_t_currentLocation cl_coordinates cl_address
         t_locationHistory].
    rewrite string_or_idem, coordinates_or_idem. apply tc_location.
  - unfold TrackingRoute.update_status.
    destruct (negb (authorize role_worker user)); [unchanged_tracking t|].
    destruct (findById t_id id (trackings st)) as [t0|] eqn:Ht0;
      [|unchanged_tracking t].
    destruct (findOne _ (workers st)); [|unchanged_tracking t].
    destruct (negb (t_worker t0 =? w_id w)); [unchanged_tracking t|].
    destruct (TrackingRoute.parse_status status) as [s|]; [|unchanged_tracking t].
    destruct s; cbn [snd save_tracking set_trackings set_requests trackings];
      changed_tracking Ht Ht0;
      first [apply tc_ended | apply tc_status; discriminate].
  - unfold TrackingRoute.end_tracking.
    destruct (negb (authorize role_worker user)); [unchanged_tracking t|].
    destruct (findById t_id id (trackings st)) as [t0|] eqn:Ht0;
      [|unchanged_tracking t].
    destruct (findOne _ (workers st)); [|unchanged_tracking t].
    destruct (negb (t_worker t0 =? w_id w)); [unchanged_tracking t|].
    cbn [snd save_tracking set_trackings trackings].
    changed_tracking Ht Ht0. apply tc_ended.
Qed.

(** Every call leaves each stored tracking record in place and changes it
    in one of the ways of [tracking_change]. *)
Theorem step_tracking_change :
  forall (now : Time) (op : Op) (st : Store) (j : ObjectId) (t : Tracking),
    findById t_id j (trackings st) = Some t ->
    exists t',
      findById t_id j (trackings (snd (step now op st))) = Some t' /\
      tracking_change now t t'.
Proof.
  exact tracking_change_of_step.
Qed.

Lemma step_tracking_change_witness :
  exists t',
    findById t_id 1
      (trackings
         (snd (step 4 (OpUpdateLocation bob 1 (Some (77.6, 12.98)%R) None)
                    (snd (run [(1, OpCreate alice plumbing); (2, OpAccept bob 1);
                               (3, OpStart bob 1)] registered))))) = Some t' /\
    tracking_change 4
      (mkTracking 1 1 10 1 (mkCurrentLocation origin "" 3) origin en_route true
                  [] 3 None 3) t'.
Proof.
  apply (step_tracking_change 4
           (OpUpdateLocation bob 1 (Some (77.6, 12.98)%R) None)
           (snd (run [(1, OpCreate alice plumbing); (2, OpAccept bob 1);
                      (3, OpStart bob 1)] registered))
           1
           (mkTracking 1 1 10 1 (mkCurrentLocation origin "" 3) origin en_route
                       true [] 3 None 3)).
  reflexivity.
Defined.

Lemma run_tracking_relation (Q : Tracking -> Tracking -> Prop) :
  (forall t, Q t t) ->
  (forall a b c, Q a b -> Q b c -> Q a c) ->
  (forall now a b, tracking_change now a b -> Q a b) ->
  forall (trace : list (Time * Op)) (st : Store) (j : ObjectId) (t : Tracking),
    findById t_id j (trackings st) = Some t ->
    exists t', findById t_id j (trackings (snd (run trace st))) = Some t' /\ Q t t'.
Proof.
  intros Hrefl Htrans Hstep trace.
  induction trace as [|[now op] trace IH]; intros st j t Ht.
  - exists t. split; [exact Ht|apply Hrefl].
  - destruct (tracking_change_of_step now op st j t Ht) as (t1 & Ht1 & Hc).
    destruct (IH _ _ _ Ht1) as (t2 & Ht2 & Hq).
    exists t2. simpl.
    destruct (step now op st) as [res st1]. simpl in *.
    destruct (run trace st1) as [rs st2]. simpl in *.
    split; [exact Ht2|]. exact (Htrans _ _ _ (Hstep _ _ _ Hc) Hq).
Qed.

(** No trace of calls removes a tracking record or changes the service
    request, the worker, the customer, the destination or the start time
    it was opened with; and a session that has ended is never live
    again. *)
Theorem tracking_session_is_kept :
  forall (trace : list (Time * Op)) (st : Store) (j : ObjectId) (t : Tracking),
    findById t_id j (trackings st) = Some t ->
    exists t',
      findById t_id j (trackings (snd (run trace st))) = Some t' /\
      t_serviceRequest t' = t_serviceRequest t /\
      t_worker t' = t_worker t /\
      t_customer t' = t_customer t /\
      t_destination t' = t_destination t /\
      t_startedAt t' = t_startedAt t /\
      (t_isLive t = false -> t_isLive t' = false).
Proof.
  intros trace st j t Ht.
  apply (run_tracking_relation
           (fun a b =>
              t_serviceRequest b = t_serviceRequest a /\
              t_worker b = t_worker a /\
              t_customer b = t_customer a /\
              t_destination b = t_destination a /\
              t_startedAt b = t_startedAt a /\
              (t_isLive a = false -> t_isLive b = false))).
  - intros a. repeat split. trivial.
  - intros a b c (H1 & H2 & H3 & H4 & H5 & H6) (G1 & G2 & G3 & G4 & G5 & G6).
    repeat split; try congruence. intros Ha. apply G6, H6, Ha.
  - intros now a b Hc. destruct Hc; simpl; repeat split; trivial.
  - exact Ht.
Qed.

Lemma tracking_session_is_kept_witness :
  exists t',
    findById t_id 1
      (trackings
         (snd (run [(5, OpUpdateStatus bob 1 "working");
                    (6, OpUpdateLocation bob 1 (Some (77.6, 12.98)%R) None)]
                   (snd (run [(1, OpCreate alice plumbing); (2, OpAccept bob 1);
                              (3, OpStart bob 1); (4, OpEndTracking bob 1)]
                             registered))))) = Some t' /\
    t_serviceRequest t' = 1 /\
    t_worker t' = 10 /\
    t_customer t' = 1 /\
    t_destination t' = origin /\
    t_startedAt t' = 3 /\
    (false = false -> t_isLive t' = false).
Proof.
  apply (tracking_session_is_kept
           [(5, OpUpdateStatus bob 1 "working");
            (6, OpUpdateLocation bob 1 (Some (77.6, 12.98)%R) None)]
           (snd (run [(1, OpCreate alice plumbing); (2, OpAccept bob 1);
                      (3, OpStart bob 1); (4, OpEndTracking bob 1)] registered))
           1
           (mkTracking 1 1 10 1 (mkCurrentLocation origin "" 3) origin
                       t_completed false [] 3 (Some 4) 4)).
  reflexivity.
Defined.

(** ** How a call changes a stored worker profile *)

Section UniqueIds.

Context {A : Type} (id_of : A -> ObjectId).

Lemma unique_by_id (c : list A) (a b : A) :
  NoDup (map id_of c) -> In a c -> In b c -> id_of a = id_of b -> a = b.
Proof.
  induction c as [|x c IH]; simpl; [contradiction|].
  intros Hnd Ha Hb Hid. inversion Hnd as [|? ? Hnotin Hnd']; subst.
  destruct Ha as [->|Ha], Hb as [->|Hb]; trivial.
  - exfalso. apply Hnotin. rewrite Hid. now apply in_map.
  - exfalso. apply Hnotin. rewrite <- Hid. now apply in_map.
  - now apply IH.
Qed.

Lemma map_id_replaceById (d : A) (c : list A) :
  map id_of (replaceById id_of d c) = map id_of c.
Proof.
  unfold replaceById. rewrite map_map. apply map_ext_in.
  intros x _. destruct (id_of x =? id_of d) eqn:E; [|reflexivity].
  apply Nat.eqb_eq in E. now symmetry.
Qed.

Lemma map_id_updateFirst (p : A -> bool) (f : A -> A) (c : list A) :
  (forall x, id_of (f x) = id_of x) ->
  map id_of (updateFirst p f c) = map id_of c.
Proof.
  intros Hf. induction c as [|x c IH]; simpl; [reflexivity|].
  destruct (p x); simpl; [now rewrite Hf|now rewrite IH].
Qed.

End UniqueIds.

Lemma workers_updateRating_worker (targetId : ObjectId) (st : Store) :
  workers (Service.updateRating_worker targetId st) = workers st \/
  exists average count,
    workers (Service.updateRating_worker targetId st)
    = updateFirst (fun w => w_id w =? targetId)
        (fun w => set_w_ratingCount count (set_w_ratingAverage average w))
        (workers st).
Proof.
  unfold Service.updateRating_worker.
  destruct (filter _ (reviews st)); [now left|].
  right. eexists. eexists. reflexivity.
Qed.

(** No call adds or removes a worker profile. *)
Lemma step_worker_ids (now : Time) (op : Op) (st : Store) :
  map w_id (workers (snd (step now op st))) = map w_id (workers st).
Proof.
  destruct op; simpl; trivial.
  - unfold Service.accept. break_handler; simpl; trivial.
    apply map_id_replaceById.
  - unfold Service.reject. break_handler; simpl; trivial.
  - unfold Service.start. break_handler; simpl; trivial.
  - unfold Service.complete. break_handler; simpl; trivial.
  - unfold Service.rate. break_handler; simpl; trivial.
    match goal with
    | |- context [Service.updateRating_worker ?i ?s] =>
        destruct (workers_updateRating_worker i s) as [E|(a & n & E)];
        rewrite E
    end; simpl; trivial.
    now apply map_id_updateFirst.
  - unfold TrackingRoute.create. break_handler; simpl; trivial.
  - unfold TrackingRoute.update_location. break_handler; simpl; trivial.
    apply map_id_replaceById.
  - unfold TrackingRoute.update_status. break_handler; simpl; trivial.
  - unfold TrackingRoute.end_tracking. break_handler; simpl; trivial.
Qed.

Ltac unchanged_worker w :=
  exists w; split; [assumption|apply wc_same].

Lemma replaced_worker (st : Store) (j : ObjectId) (p : Worker -> bool)
  (w wk d : Worker) :
  NoDup (map w_id (workers st)) ->
  findById w_id j (workers st) = Some w ->
  findOne p (workers st) = Some wk ->
  w_id d = w_id wk ->
  exists w',
    findById w_id j (replaceById w_id d (workers st)) = Some w' /\
    (w' = w \/ (wk = w /\ w' = d)).
Proof.
  intros Hnd Hw Hwk Hid.
  rewrite (findById_replaceById_any w_id j d w _ Hw).
  destruct (w_id d =? j) eqn:E.
  - apply Nat.eqb_eq in E.
    destruct (findById_Some _ _ _ _ Hw) as [Hj Hin].
    destruct (findOne_In _ _ _ Hwk) as [Hin' _].
    assert (wk = w) by (apply (unique_by_id w_id (workers st)); congruence).
    exists d. split; [reflexivity|now right].
  - exists w. split; [reflexivity|now left].
Qed.

(** In a store whose worker profiles have distinct ids, every call leaves
    each profile in place and changes it in one of the ways of
    [worker_change]. *)
Theorem step_worker_change :
  forall (now : Time) (op : Op) (st : Store) (j : ObjectId) (w : Worker),
    NoDup (map w_id (workers st)) ->
    findById w_id j (workers st) = Some w ->
    exists w',
      findById w_id j (workers (snd (step now op st))) = Some w' /\
      worker_change now w w'.
Proof.
  intros now op st j w Hnd Hw. destruct op; simpl.
  - unchanged_worker w.
  - unfold Service.accept.
    destruct (negb (authorize role_worker user)); [unchanged_worker w|].
    destruct (findById sr_id id (requests st)); [|unchanged_worker w].
    destruct (negb (Status_eqb (sr_status s) pending)); [unchanged_worker w|].
    destruct (findOne _ (workers st)) as [wk|] eqn:Hwk; [|unchanged_worker w].
    cbn [snd save_worker save_request set_workers set_requests workers].
    match goal with
    | |- context [replaceById w_id ?d (workers st)] =>
        destruct (replaced_worker st j _ w wk d Hnd Hw Hwk eq_refl)
          as (w1 & Hw1 & [E1|[E1 E2]])
    end; exists w1; (split; [exact Hw1|]).
    + rewrite E1. apply wc_same.
    + rewrite E2, E1. apply wc_accepted.
  - unfold Service.reject. break_handler; simpl; unchanged_worker w.
  - unfold Service.start. break_handler; simpl; unchanged_worker w.
  - unfold Service.complete. break_handler; simpl; unchanged_worker w.
  - unfold Service.rate. break_handler; simpl; try unchanged_worker w.
    match goal with
    | |- context [Service.updateRating_worker ?i ?s] =>
        destruct (workers_updateRating_worker i s) as [E|(a & n & E)];
        rewrite E
    end; simpl.
    + unchanged_worker w.
    + match goal with
      | |- context [updateFirst ?p ?f (workers st)] =>
          destruct (findById_updateFirst w_id p f j w (workers st)
                      (fun x => eq_refl) Hw) as [w' [Hf [->| ->]]]
      end.
      * exists w. split; [exact Hf|apply wc_same].
      * eexists. split; [exact Hf|apply wc_rated].
  - unfold TrackingRoute.create. break_handler; simpl; unchanged_worker w.
  - unfold TrackingRoute.update_location.
    destruct (negb (authorize role_worker user)); [unchanged_worker w|].
    destruct (findById t_id id (trackings st)); [|unchanged_worker w].
    destruct (findOne _ (workers st)) as [wk|] eqn:Hwk; [|unchanged_worker w].
    destruct (negb (t_worker t =? w_id wk)); [unchanged_worker w|].
    cbn [snd save_tracking save_worker set_trackings set_workers workers].
    match goal with
    | |- context [replaceById w_id ?d (workers st)] =>
        destruct (replaced_worker st j _ w wk d Hnd Hw Hwk eq_refl)
          as (w1 & Hw1 & [E1|[E1 E2]])
    end; exists w1; (split; [exact Hw1|]).
    + rewrite E1. apply wc_same.
    + rewrite E2, E1. apply wc_located.
  - unfold TrackingRoute.update_status. break_handler; simpl; unchanged_worker w.
  - unfold TrackingRoute.end_tracking. break_handler; simpl; unchanged_worker w.
Qed.

Lemma run_worker_ids (trace : list (Time * Op)) (st : Store) :
  map w_id (workers (snd (run trace st))) = map w_id (workers st).
Proof.
  revert st. induction trace as [|[now op] trace IH]; intros st; [reflexivity|].
  simpl. pose proof (step_worker_ids now op st) as Hs.
  destruct (step now op st) as [res st1]. simpl in *.
  specialize (IH st1). destruct (run trace st1) as [rs st2]. simpl in *.
  congruence.
Qed.



(** ** The ids of a collection stay distinct *)

Section FreshIds.

Context {A : Type} (id_of : A -> ObjectId).

Lemma NoDup_app_freshId (c : list A) :
  NoDup (map id_of c) -> NoDup (map id_of c ++ [freshId id_of c]).
Proof.
  intros Hnd. apply NoDup_app; [exact Hnd|repeat constructor; intros []|].
  intros x Hin [<-|[]]. apply in_map_iff in Hin.
  destruct Hin as (y & Hy & Hin). apply (freshId_above id_of) in Hin. lia.
Qed.

End FreshIds.

Lemma reviews_updateRating_worker (targetId : ObjectId) (st : Store) :
  reviews (Service.updateRating_worker targetId st) = reviews st.
Proof.
  unfold Service.updateRating_worker. now destruct (filter _ (reviews st)).
Qed.

(** A call keeps the ids of the requests and appends at most the fresh id
    of a created request. *)
Lemma step_request_ids (now : Time) (op : Op) (st : Store) :
  map sr_id (requests (snd (step now op st))) = map sr_id (requests st) \/
  map sr_id (requests (snd (step now op st)))
  = (map sr_id (requests st) ++ [freshId sr_id (requests st)])%list.
Proof.
  destruct op; simpl.
  - right. now rewrite map_app.
  - left. unfold Service.accept. break_handler; simpl; trivial.
    apply map_id_replaceById.
  - left. unfold Service.reject. break_handler; simpl; trivial;
      apply map_id_replaceById.
  - left. unfold Service.start. break_handler; simpl; trivial.
    apply map_id_replaceById.
  - left. unfold Service.complete. break_handler; simpl; trivial;
      apply map_id_replaceById.
  - left. unfold Service.rate. break_handler; simpl; trivial;
      rewrite ?requests_updateRating_worker; simpl; apply map_id_replaceById.
  - left. unfold TrackingRoute.create. break_handler; simpl; trivial.
  - left. unfold TrackingRoute.update_location. break_handler; simpl; trivial.
  - left. unfold TrackingRoute.update_status. break_handler; simpl; trivial.
    now apply map_id_updateFirst.
  - left. unfold TrackingRoute.end_tracking. break_handler; simpl; trivial.
Qed.

Lemma step_tracking_ids (now : Time) (op : Op) (st : Store) :
  map t_id (trackings (snd (step now op st))) = map t_id (trackings st) \/
  map t_id (trackings (snd (step now op st)))
  = (map t_id (trackings st) ++ [freshId t_id (trackings st)])%list.
Proof.
  destruct op; simpl.
  - now left.
  - left. unfold Service.accept. break_handler; simpl; trivial.
  - left. unfold Service.reject. break_handler; simpl; trivial.
  - unfold Service.start. break_handler; simpl; try (now left).
    right. now rewrite map_app.
  - left. unfold Service.complete. break_handler; simpl; trivial;
      now apply map_id_updateFirst.
  - left. unfold Service.rate. break_handler; simpl; trivial;
      now rewrite ?trackings_updateRating_worker.
  - unfold TrackingRoute.create. break_handler; simpl; try (now left).
    right. now rewrite map_app.
  - left. unfold TrackingRoute.update_location. break_handler; simpl; trivial.
    apply map_id_replaceById.
  - left. unfold TrackingRoute.update_status. break_handler; simpl; trivial;
      apply map_id_replaceById.
  - left. unfold TrackingRoute.end_tracking. break_handler; simpl; trivial.
    apply map_id_replaceById.
Qed.

(** A call never removes or rewrites a review: it leaves the reviews as
    they are or appends one, under a fresh id, with a rating from 1 to 5. *)
Lemma step_reviews (now : Time) (op : Op) (st : Store) :
  reviews (snd (step now op st)) = reviews st \/
  exists rv,
    reviews (snd (step now op st)) = (reviews st ++ [rv])%list /\
    rv_id rv = freshId rv_id (reviews st) /\
    (1 <= rv_rating rv <= 5)%Z /\
    rv_isActive rv = true.
Proof.
  destruct op; simpl; try (now left).
  - left. unfold Service.accept. break_handler; simpl; trivial.
  - left. unfold Service.reject. break_handler; simpl; trivial.
  - left. unfold Service.start. break_handler; simpl; trivial.
  - left. unfold Service.complete. break_handler; simpl; trivial.
  - unfold Service.rate.
    destruct (findById sr_id id (requests st)) as [sr|]; [|now left].
    destruct (negb (Status_eqb (sr_status sr) completed)); [now left|].
    destruct (truthy_number (sr_customerRating sr)); [now left|].
    destruct ((sr_customer sr =? u_id user)
              && String.eqb reviewType "customer_to_worker"); [|now left].
    destruct (match sr_worker _ with Some w => _ | None => None end);
      [|now left].
    destruct (Service.valid_rating rating) as [v|] eqn:Hv; [|now left].
    right. eexists. cbn [snd save_request set_requests reviews].
    rewrite reviews_updateRating_worker. cbn [set_reviews reviews].
    split; [reflexivity|]. cbn [rv_id rv_rating rv_isActive].
    repeat split; trivial.
    + unfold Service.valid_rating in Hv. destruct rating as [x|]; [|discriminate].
      destruct ((1 <=? x)%Z && (x <=? 5)%Z) eqn:Hx; [|discriminate].
      injection Hv as <-. apply andb_true_iff in Hx. destruct Hx as [H1 _].
      now apply Z.leb_le.
    + unfold Service.valid_rating in Hv. destruct rating as [x|]; [|discriminate].
      destruct ((1 <=? x)%Z && (x <=? 5)%Z) eqn:Hx; [|discriminate].
      injection Hv as <-. apply andb_true_iff in Hx. destruct Hx as [_ H2].
      now apply Z.leb_le.
  - left. unfold TrackingRoute.create. break_handler; simpl; trivial.
  - left. unfold TrackingRoute.update_location. break_handler; simpl; trivial.
  - left. unfold TrackingRoute.update_status. break_handler; simpl; trivial.
  - left. unfold TrackingRoute.end_tracking. break_handler; simpl; trivial.
Qed.

(** The handlers keep the ids of every collection distinct: a document is
    created under an id that none carries, and a save or an update keeps
    the id. *)
Theorem run_keeps_ids_distinct :
  forall (trace : list (Time * Op)) (st : Store),
    distinct_ids st -> distinct_ids (snd (run trace st)).
Proof.
  induction trace as [|[now op] trace IH]; intros st Hd; [exact Hd|].
  simpl.
  assert (H1 : distinct_ids (snd (step now op st))).
  { destruct Hd as (Hr & Hw & Ht & Hv). repeat split.
    - destruct (step_request_ids now op st) as [E|E]; rewrite E;
        [exact Hr|now apply NoDup_app_freshId].
    - now rewrite step_worker_ids.
    - destruct (step_tracking_ids now op st) as [E|E]; rewrite E;
        [exact Ht|now apply NoDup_app_freshId].
    - destruct (step_reviews now op st) as [E|(rv & E & Hid & _)]; rewrite E;
        [exact Hv|].
      rewrite map_app. simpl. rewrite Hid. now apply NoDup_app_freshId. }
  destruct (step now op st) as [res st1]. simpl in *.
  specialize (IH st1 H1). destruct (run trace st1) as [rs st2]. exact IH.
Qed.

(** The store of the rated job has distinct ids. *)
Lemma run_keeps_ids_distinct_witness :
  distinct_ids (snd (run rated_both_ways registered)).
Proof.
  apply (run_keeps_ids_distinct rated_both_ways registered).
  repeat split; simpl; repeat constructor. intros [].
Defined.

(** ** Ratings *)

Lemma sum_of_ratings_bounds (l : list Z) :
  (forall x, In x l -> (1 <= x <= 5)%Z) ->
  (Z.of_nat (List.length l) <= fold_right Z.add 0%Z l
   <= 5 * Z.of_nat (List.length l))%Z.
Proof.
  induction l as [|x l IH]; intros H; [simpl; lia|].
  assert (Hx : (1 <= x <= 5)%Z) by (apply H; now left).
  assert (Hl : forall y, In y l -> (1 <= y <= 5)%Z)
    by (intros y Hy; apply H; now right).
  specialize (IH Hl). cbn [fold_right List.length]. lia.
Qed.

Lemma rounded_mean_bounds (sum : Z) (count : nat) :
  0 < count ->
  (Z.of_nat count <= sum <= 5 * Z.of_nat count)%Z ->
  (1 <= IZR ((20 * sum + Z.of_nat count) / (2 * Z.of_nat count)) / 10 <= 5)%R.
Proof.
  intros Hc Hs.
  assert (Hlo : (10 <= (20 * sum + Z.of_nat count) / (2 * Z.of_nat count))%Z)
    by (apply Z.div_le_lower_bound; lia).
  assert (Hhi : ((20 * sum + Z.of_nat count) / (2 * Z.of_nat count) < 51)%Z)
    by (apply Z.div_lt_upper_bound; lia).
  assert (Hhi' : ((20 * sum + Z.of_nat count) / (2 * Z.of_nat count) <= 50)%Z)
    by lia.
  apply IZR_le in Hlo, Hhi'. lra.
Qed.

Lemma In_updateFirst {A : Type} (p : A -> bool) (f : A -> A) (c : list A) (x : A) :
  In x (updateFirst p f c) ->
  In x c \/ exists y, In y c /\ p y = true /\ x = f y.
Proof.
  induction c as [|y c IH]; simpl; [contradiction|].
  destruct (p y) eqn:E; simpl.
  - intros [<-|Hin]; [right; exists y; auto|auto].
  - intros [<-|Hin]; [auto|].
    destruct (IH Hin) as [H|(z & Hz & Hp & ->)]; [auto|].
    right. exists z. auto.
Qed.

(** What the recomputation of a worker rating writes. *)
Lemma updateRating_worker_writes :
  forall (targetId : ObjectId) (st : Store) (w' : Worker),
    (forall rv, In rv (reviews st) -> (1 <= rv_rating rv <= 5)%Z) ->
    In w' (workers (Service.updateRating_worker targetId st)) ->
    In w' (workers st) \/
    (w_id w' = targetId /\
     w_ratingCount w'
     = List.length
         (filter (fun r => match rv_worker r with
                           | Some w => (w =? targetId) && rv_isActive r
                           | None => false
                           end) (reviews st)) /\
     0 < w_ratingCount w' /\
     (1 <= w_ratingAverage w' <= 5)%R).
Proof.
  intros targetId st w' Hrange. unfold Service.updateRating_worker.
  set (result := filter _ (reviews st)).
  assert (Hres : forall rv, In rv result -> (1 <= rv_rating rv <= 5)%Z).
  { intros rv Hin. apply Hrange. unfold result in Hin.
    apply filter_In in Hin. tauto. }
  destruct result as [|rv0 rest] eqn:E; [now left|].
  cbn [workers set_workers]. intros Hin.
  apply In_updateFirst in Hin. destruct Hin as [Hin|(y & Hy & Hp & ->)]; [now left|].
  right. cbn [w_id w_ratingCount w_ratingAverage set_w_ratingCount
              set_w_ratingAverage].
  split; [now apply Nat.eqb_eq|]. split; [reflexivity|].
  split; [simpl; lia|].
  apply rounded_mean_bounds; [simpl; lia|].
  rewrite <- (length_map rv_rating (rv0 :: rest)).
  apply sum_of_ratings_bounds.
  intros x Hx. apply in_map_iff in Hx. destruct Hx as (rv & <- & Hrv).
  now apply Hres.
Qed.

(** [Review.updateRating]: when every review carries a rating from 1 to
    5, a profile that the recomputation rewrites is the target's, its
    count is the number of the target's active reviews, at least one, and
    its average lies between 1 and 5; every other profile is left as it
    was.  Without an active review nothing is rewritten. *)
Theorem updateRating_worker_bounds :
  forall (targetId : ObjectId) (st : Store) (w' : Worker),
    (forall rv, In rv (reviews st) -> (1 <= rv_rating rv <= 5)%Z) ->
    In w' (workers (Service.updateRating_worker targetId st)) ->
    In w' (workers st) \/
    (w_id w' = targetId /\
     w_ratingCount w'
     = List.length
         (filter (fun r => match rv_worker r with
                           | Some w => (w =? targetId) && rv_isActive r
                           | None => false
                           end) (reviews st)) /\
     0 < w_ratingCount w' /\
     (1 <= w_ratingAverage w' <= 5)%R).
Proof.
  exact updateRating_worker_writes.
Qed.

(** Bob's profile, recomputed over the one review that Alice's rating of
    5 makes. *)
Lemma updateRating_worker_bounds_witness :
  In (set_w_ratingCount 1 (set_w_ratingAverage (IZR 50 / 10)%R job_done_worker))
     (workers
        (set_reviews
           [mkReview 1 1 1 2 (Some 10) 5 "" "customer_to_worker" true] job_done)) \/
  (w_id (set_w_ratingCount 1
           (set_w_ratingAverage (IZR 50 / 10)%R job_done_worker)) = 10 /\
   w_ratingCount (set_w_ratingCount 1
                    (set_w_ratingAverage (IZR 50 / 10)%R job_done_worker))
   = List.length
       (filter (fun r => match rv_worker r with
                         | Some w => (w =? 10) && rv_isActive r
                         | None => false
                         end)
          (reviews
             (set_reviews
                [mkReview 1 1 1 2 (Some 10) 5 "" "customer_to_worker" true]
                job_done))) /\
   0 < w_ratingCount (set_w_ratingCount 1
                        (set_w_ratingAverage (IZR 50 / 10)%R job_done_worker)) /\
   (1 <= w_ratingAverage
           (set_w_ratingCount 1
              (set_w_ratingAverage (IZR 50 / 10)%R job_done_worker)) <= 5)%R).
Proof.
  apply (updateRating_worker_bounds 10
           (set_reviews
              [mkReview 1 1 1 2 (Some 10) 5 "" "customer_to_worker" true]
              job_done)).
  - intros rv [<-|[]]. simpl. lia.
  - now left.
Defined.

Lemma In_replaceById {A : Type} (id_of : A -> ObjectId) (d x : A) (c : list A) :
  In x (replaceById id_of d c) -> x = d \/ In x c.
Proof.
  unfold replaceById. intros Hin. apply in_map_iff in Hin.
  destruct Hin as (y & Hy & Hin). destruct (id_of y =? id_of d); subst; auto.
Qed.

Lemma step_workers (now : Time) (op : Op) (st : Store) :
  workers (snd (step now op st)) = workers st \/
  (exists d wk,
      In wk (workers st) /\ w_ratingAverage d = w_ratingAverage wk /\
      workers (snd (step now op st)) = replaceById w_id d (workers st)) \/
  (exists targetId rv,
      (1 <= rv_rating rv <= 5)%Z /\
      workers (snd (step now op st))
      = workers (Service.updateRating_worker targetId
                   (set_reviews (reviews st ++ [rv]) st))).
Proof.
  destruct op; simpl; try (now left).
  - unfold Service.accept.
    destruct (negb (authorize role_worker user)); [now left|].
    destruct (findById sr_id id (requests st)); [|now left].
    destruct (negb (Status_eqb (sr_status s) pending)); [now left|].
    destruct (findOne _ (workers st)) as [wk|] eqn:Hwk; [|now left].
    right. left. eexists. exists wk.
    split; [apply (findOne_In _ _ _ Hwk)|]. split; [|reflexivity]. reflexivity.
  - left. unfold Service.reject. break_handler; simpl; trivial.
  - left. unfold Service.start. break_handler; simpl; trivial.
  - left. unfold Service.complete. break_handler; simpl; trivial.
  - unfold Service.rate.
    destruct (findById sr_id id (requests st)) as [sr|]; [|now left].
    destruct (negb (Status_eqb (sr_status sr) completed)); [now left|].
    destruct (truthy_number (sr_customerRating sr)); [now left|].
    destruct ((sr_customer sr =? u_id user)
              && String.eqb reviewType "customer_to_worker"); [|now left].
    destruct (match sr_worker _ with Some w => _ | None => None end) as [w|];
      [|now left].
    destruct (Service.valid_rating rating) as [v|] eqn:Hv; [|now left].
    right. right. exists (w_id w). eexists.
    cbn [snd save_request set_requests workers]. split; [|reflexivity].
    cbn [rv_rating].
    unfold Service.valid_rating in Hv. destruct rating as [x|]; [|discriminate].
    destruct ((1 <=? x)%Z && (x <=? 5)%Z) eqn:Hx; [|discriminate].
    injection Hv as <-. apply andb_true_iff in Hx. destruct Hx as [H1 H2].
    apply Z.leb_le in H1, H2. lia.
  - left. unfold TrackingRoute.create. break_handler; simpl; trivial.
  - unfold TrackingRoute.update_location.
    destruct (negb (authorize role_worker user)); [now left|].
    destruct (findById t_id id (trackings st)); [|now left].
    destruct (findOne _ (workers st)) as [wk|] eqn:Hwk; [|now left].
    destruct (negb (t_worker t =? w_id wk)); [now left|].
    right. left. eexists. exists wk.
    split; [apply (findOne_In _ _ _ Hwk)|]. split; [|reflexivity]. reflexivity.
  - left. unfold TrackingRoute.update_status. break_handler; simpl; trivial.
  - left. unfold TrackingRoute.end_tracking. break_handler; simpl; trivial.
Qed.

(** Along every trace of calls the ratings stay in range: the reviews keep
    ratings from 1 to 5 and every worker's average stays 0 or between 1
    and 5. *)
Theorem run_keeps_ratings_in_range :
  forall (trace : list (Time * Op)) (st : Store),
    ratings_in_range st -> ratings_in_range (snd (run trace st)).
Proof.
  induction trace as [|[now op] trace IH]; intros st Hr; [exact Hr|].
  simpl.
  assert (H1 : ratings_in_range (snd (step now op st))).
  { destruct Hr as [Hrv Hw]. split.
    - intros rv Hin.
      destruct (step_reviews now op st) as [E|(rv' & E & _ & Hb & _)];
        rewrite E in Hin; [now apply Hrv|].
      apply in_app_or in Hin. destruct Hin as [Hin|[<-|[]]]; [now apply Hrv|exact Hb].
    - intros w Hin.
      destruct (step_workers now op st)
        as [E|[(d & wk & Hwk & Ha & E)|(targetId & rv & Hb & E)]];
        rewrite E in Hin.
      + now apply Hw.
      + apply In_replaceById in Hin. destruct Hin as [->|Hin]; [|now apply Hw].
        rewrite Ha. now apply Hw.
      + apply updateRating_worker_writes in Hin.
        * destruct Hin as [Hin|(_ & _ & _ & Hb')]; [now apply Hw|now right].
        * cbn [reviews set_reviews]. intros rv0 Hin0.
          apply in_app_or in Hin0.
          destruct Hin0 as [Hin0|[<-|[]]]; [now apply Hrv|exact Hb]. }
  destruct (step now op st) as [res st1]. simpl in *.
  specialize (IH st1 H1). destruct (run trace st1) as [rs st2]. exact IH.
Qed.

(** The store of the rated job. *)
Lemma run_keeps_ratings_in_range_witness :
  ratings_in_range (snd (run rated_both_ways registered)).
Proof.
  apply (run_keeps_ratings_in_range rated_both_ways registered).
  split.
  - intros rv [].
  - intros w [<-|[]]. now left.
Defined.

(** ** Ending a session *)

(** Reporting the status 'completed' and calling the end route are the
    same write: from any store both leave the same store, and both are
    answered with the same HTTP status. *)
Theorem completed_status_is_end :
  forall (now : Time) (user : User) (id : ObjectId) (st : Store),
    snd (TrackingRoute.update_status now user id "completed" st)
    = snd (TrackingRoute.end_tracking now user id st) /\
    res_status (fst (TrackingRoute.update_status now user id "completed" st))
    = res_status (fst (TrackingRoute.end_tracking now user id st)).
Proof.
  intros now user id st.
  unfold TrackingRoute.update_status, TrackingRoute.end_tracking.
  destruct (negb (authorize role_worker user)); [now split|].
  destruct (findById t_id id (trackings st)) as [t|]; [|now split].
  destruct (findOne _ (workers st)) as [w|]; [|now split].
  destruct (negb (t_worker t =? w_id w)); [now split|].
  change (TrackingRoute.parse_status "completed") with (Some t_completed).
  split; reflexivity.
Qed.

Lemma findOne_updateFirst {A : Type} (p : A -> bool) (f : A -> A) (c : list A) :
  (forall x, p (f x) = p x) ->
  findOne p (updateFirst p f c) = option_map f (findOne p c).
Proof.
  intros Hf. unfold findOne. induction c as [|x c IH]; simpl; [reflexivity|].
  destruct (p x) eqn:E; simpl.
  - now rewrite Hf, E.
  - now rewrite E.
Qed.

Lemma filter_updateFirst_length {A : Type} (p q : A -> bool) (f : A -> A)
  (c : list A) :
  (forall x, q (f x) = false) ->
  List.length (filter q (updateFirst p f c)) <= List.length (filter q c) /\
  List.length (filter q c) <= S (List.length (filter q (updateFirst p f c))).
Proof.
  intros Hf. induction c as [|x c IH]; simpl; [lia|].
  destruct (p x); simpl.
  - rewrite Hf. destruct (q x); simpl; lia.
  - destruct (q x); simpl; lia.
Qed.

(** A successful complete ends the first tracking record of the request
    (not live, status completed, endedAt the current time) and no other:
    the number of live sessions of any request falls by at most one, so
    of two live sessions of the completed request one stays live. *)
Theorem complete_ends_one_session :
  forall (now : Time) (user : User) (id : ObjectId) (actualCost : option Z)
         (st : Store),
    res_success (fst (Service.complete now user id actualCost st)) = true ->
    let st' := snd (Service.complete now user id actualCost st) in
    findOne (fun t => t_serviceRequest t =? id) (trackings st')
    = option_map
        (fun t => set_t_endedAt (Some now)
                    (set_t_status t_completed (set_t_isLive false t)))
        (findOne (fun t => t_serviceRequest t =? id) (trackings st)) /\
    forall rid,
      List.length (live_trackings rid st') <= List.length (live_trackings rid st) /\
      List.length (live_trackings rid st) <= S (List.length (live_trackings rid st')).
Proof.
  intros now user id actualCost st. unfold Service.complete.
  destruct (negb (authorize role_worker user)); [discriminate|].
  destruct (findById sr_id id (requests st)) as [sr|] eqn:Hsr; [|discriminate].
  destruct (findOne _ (workers st)) as [w|]; [|discriminate].
  destruct (sr_worker sr) as [a|]; [|discriminate].
  destruct (negb (a =? w_id w)); [discriminate|].
  destruct (negb (Status_eqb (sr_status sr) in_progress)); [discriminate|].
  intros _. cbn zeta. cbn [snd set_trackings trackings save_request set_requests].
  destruct (findById_Some _ _ _ _ Hsr) as [Hid _].
  assert (Eid : sr_id
                  match actualCost with
                  | Some c =>
                      if truthy_number actualCost
                      then set_sr_estimatedCost c
                             (set_sr_completedAt (Some now)
                                (set_sr_status completed sr))
                      else set_sr_completedAt (Some now)
                             (set_sr_status completed sr)
                  | None => set_sr_completedAt (Some now)
                              (set_sr_status completed sr)
                  end = id).
  { destruct actualCost as [c|]; [destruct (truthy_number (Some c))|]; exact Hid. }
  rewrite Eid. split.
  - apply findOne_updateFirst. reflexivity.
  - intros rid. unfold live_trackings. cbn [trackings].
    apply filter_updateFirst_length. intros x. cbn [t_isLive set_t_endedAt
      set_t_status set_t_isLive t_serviceRequest]. apply andb_false_r.
Qed.

(** After both sessions of the request were opened, Bob completes it: the
    first session is ended and one live session is left. *)
Lemma complete_ends_one_session_witness :
  List.length
    (live_trackings 1
       (snd (Service.complete 5 bob 1 None
               (snd (run tracking_then_start registered))))) <= 2 /\
  2 <= S (List.length
            (live_trackings 1
               (snd (Service.complete 5 bob 1 None
                       (snd (run tracking_then_start registered)))))).
Proof.
  exact (proj2 (complete_ends_one_session 5 bob 1 None
                  (snd (run tracking_then_start registered)) eq_refl) 1).
Defined.

(** ** Location updates *)

Lemma findOne_replaceById {A : Type} (id_of : A -> ObjectId) (p : A -> bool)
  (d x : A) (c : list A) :
  findOne p c = Some x -> id_of d = id_of x -> p d = true ->
  findOne p (replaceById id_of d c) = Some d.
Proof.
  unfold findOne, replaceById. intros Hx Hid Hp.
  induction c as [|y c IH]; simpl in *; [discriminate|].
  destruct (p y) eqn:Ey.
  - injection Hx as ->. rewrite Hid, Nat.eqb_refl. now rewrite Hp.
  - destruct (id_of y =? id_of d); [now rewrite Hp|].
    rewrite Ey. now apply IH.
Qed.

(** A successful location update that carries coordinates writes them to
    two documents: afterwards the session's current position, the last
    entry of its history and the position of the caller's worker profile
    all hold these coordinates, and the first two the time of the call. *)
Theorem update_location_mirrors_position :
  forall (now : Time) (user : User) (id : ObjectId) (c : Coordinates)
         (address : option string) (st : Store),
    res_success
      (fst (TrackingRoute.update_location now user id (Some c) address st)) = true ->
    let st' := snd (TrackingRoute.update_location now user id (Some c) address st) in
    exists t' w',
      findById t_id id (trackings st') = Some t' /\
      findOne (fun w => w_user w =? u_id user) (workers st') = Some w' /\
      cl_coordinates (t_currentLocation t') = c /\
      cl_timestamp (t_currentLocation t') = now /\
      last (map h_coordinates (t_locationHistory t')) origin = c /\
      last (map h_timestamp (t_locationHistory t')) 0 = now /\
      wl_coordinates (w_location w') = c /\
      t_worker t' = w_id w'.
Proof.
  intros now user id c address st. unfold TrackingRoute.update_location.
  destruct (negb (authorize role_worker user)); [discriminate|].
  destruct (findById t_id id (trackings st)) as [t|] eqn:Ht; [|discriminate].
  destruct (findOne _ (workers st)) as [w|] eqn:Hw; [|discriminate].
  destruct (t_worker t =? w_id w) eqn:Htw; [|discriminate].
  intros _. cbn zeta.
  cbn [negb snd save_tracking save_worker set_trackings set_workers trackings
       workers].
  destruct (findById_Some _ _ _ _ Ht) as [Hid _]. subst id.
  eexists. eexists. split; [|split].
  - match goal with
    | |- findById t_id _ (replaceById t_id ?d _) = _ =>
        apply (findById_replaceById t_id d t _ Ht)
    end.
  - match goal with
    | |- findOne ?p (replaceById w_id ?d _) = _ =>
        apply (findOne_replaceById w_id p d w _ Hw eq_refl)
    end.
    destruct (findOne_In _ _ _ Hw) as [_ Hp]. exact Hp.
  - cbn [t_currentLocation t_locationHistory t_worker cl_coordinates
         cl_timestamp wl_coordinates w_location w_id coordinates_or
         set_t_updatedAt set_t_locationHistory set_t_currentLocation
         set_w_updatedAt set_w_location].
    rewrite !map_app. cbn [map]. rewrite !last_last. apply Nat.eqb_eq in Htw.
    repeat split; trivial.
Qed.

(** Bob's first position report in [start_then_move]. *)
Lemma update_location_mirrors_position_witness :
  exists t' w',
    findById t_id 1
      (trackings
         (snd (TrackingRoute.update_location 4 bob 1 (Some (77.6, 12.98)%R) None
                 (snd (run (firstn 3 start_then_move) registered))))) = Some t' /\
    findOne (fun w => w_user w =? u_id bob)
      (workers
         (snd (TrackingRoute.update_location 4 bob 1 (Some (77.6, 12.98)%R) None
                 (snd (run (firstn 3 start_then_move) registered))))) = Some w' /\
    cl_coordinates (t_currentLocation t') = (77.6, 12.98)%R /\
    cl_timestamp (t_currentLocation t') = 4 /\
    last (map h_coordinates (t_locationHistory t')) origin = (77.6, 12.98)%R /\
    last (map h_timestamp (t_locationHistory t')) 0 = 4 /\
    wl_coordinates (w_location w') = (77.6, 12.98)%R /\
    t_worker t' = w_id w'.
Proof.
  exact (update_location_mirrors_position 4 bob 1 (77.6, 12.98)%R None
           (snd (run (firstn 3 start_then_move) registered)) eq_refl).
Defined.

(** ** The order of the listings *)

Lemma insert_desc_descending {A : Type} (key : A -> Time) (x : A) (l : list A) :
  descending key l -> descending key (insert_desc key x l).
Proof.
  induction l as [|y l IH]; simpl; [intros _; split; [intros ? []|exact I]|].
  intros [Hy Hl]. destruct (key y <=? key x) eqn:E; simpl.
  - apply Nat.leb_le in E. split; [|now split].
    intros z [<-|Hz]; [exact E|]. specialize (Hy z Hz). lia.
  - apply Nat.leb_gt in E. split; [|now apply IH].
    intros z Hz. apply insert_desc_In in Hz. destruct Hz as [->|Hz]; [lia|].
    now apply Hy.
Qed.

Lemma sort_desc_descending {A : Type} (key : A -> Time) (l : list A) :
  descending key (sort_desc key l).
Proof.
  induction l as [|x l IH]; simpl; [exact I|].
  now apply insert_desc_descending.
Qed.

Lemma filter_descending {A : Type} (key : A -> Time) (p : A -> bool) (l : list A) :
  descending key l -> descending key (filter p l).
Proof.
  induction l as [|x l IH]; simpl; [trivial|].
  intros [Hx Hl]. destruct (p x); simpl; [|now apply IH].
  split; [|now apply IH]. intros y Hy. apply filter_In in Hy. now apply Hx.
Qed.

(** Both listings of pending requests for a worker, the nearby one and the
    available one, return the requests newest first. *)
Theorem request_listings_newest_first :
  forall (geoDistance : Coordinates -> Coordinates -> R) (user : User)
         (query : Service.NearbyQuery) (st : Store),
    descending sr_createdAt
      (snd (Service.nearby_requests geoDistance user query st)) /\
    descending sr_createdAt (snd (WorkerRoute.available_requests user st)).
Proof.
  intros geoDistance user query st. split.
  - unfold Service.nearby_requests.
    break_handler; cbn [snd descending]; trivial; apply sort_desc_descending.
  - unfold WorkerRoute.available_requests.
    break_handler; cbn [snd descending]; trivial;
      apply filter_descending, sort_desc_descending.
Qed.

(** ** When a call succeeds *)

(** Start succeeds exactly when the caller has the worker role and a
    worker profile, the request exists, its worker reference is that
    profile and its status is accepted; complete succeeds exactly when the
    same holds with the status in_progress. *)
Theorem start_and_complete_succeed_iff :
  forall (now : Time) (user : User) (id : ObjectId) (actualCost : option Z)
         (st : Store),
    (res_success (fst (Service.start now user id st)) = true <->
     exists sr w,
       u_role user = role_worker /\
       findById sr_id id (requests st) = Some sr /\
       findOne (fun w => w_user w =? u_id user) (workers st) = Some w /\
       sr_worker sr = Some (w_id w) /\
       sr_status sr = accepted) /\
    (res_success (fst (Service.complete now user id actualCost st)) = true <->
     exists sr w,
       u_role user = role_worker /\
       findById sr_id id (requests st) = Some sr /\
       findOne (fun w => w_user w =? u_id user) (workers st) = Some w /\
       sr_worker sr = Some (w_id w) /\
       sr_status sr = in_progress).
Proof.
  intros now user id actualCost st.
  unfold Service.start, Service.complete, authorize.
  destruct (Role_eqb (u_role user) role_worker) eqn:Hrole; cbn [negb].
  2:{ split; (split; [discriminate|]); intros (sr & w & Hr & _);
        rewrite Hr in Hrole; discriminate. }
  apply Role_eqb_eq in Hrole.
  destruct (findById sr_id id (requests st)) as [sr|].
  2:{ split; (split; [discriminate|]); intros (sr & w & _ & H & _);
        discriminate. }
  destruct (findOne _ (workers st)) as [w|].
  2:{ split; (split; [discriminate|]); intros (sr' & w & _ & _ & H & _);
        discriminate. }
  destruct (sr_worker sr) as [a|] eqn:Ha.
  2:{ split; (split; [discriminate|]);
        intros (sr' & w' & _ & [= <-] & _ & H & _); congruence. }
  destruct (a =? w_id w) eqn:Eq; cbn [negb].
  2:{ apply Nat.eqb_neq in Eq.
      split; (split; [discriminate|]);
        intros (sr' & w' & _ & [= <-] & [= <-] & H & _); congruence. }
  apply Nat.eqb_eq in Eq. subst a. split.
  - destruct (Status_eqb (sr_status sr) accepted) eqn:Es; cbn [negb].
    + apply Status_eqb_eq in Es. split; [|reflexivity].
      intros _. exists sr, w. now repeat split.
    + split; [discriminate|].
      intros (sr' & w' & _ & [= <-] & _ & _ & H).
      apply Status_eqb_eq in H. congruence.
  - destruct (Status_eqb (sr_status sr) in_progress) eqn:Es; cbn [negb].
    + apply Status_eqb_eq in Es. split; [|reflexivity].
      intros _. exists sr, w. now repeat split.
    + split; [discriminate|].
      intros (sr' & w' & _ & [= <-] & _ & _ & H).
      apply Status_eqb_eq in H. congruence.
Qed.


(** ** Paged listings *)

Lemma firstn_add {A : Type} (n m : nat) (l : list A) :
  firstn (n + m) l = (firstn n l ++ firstn m (skipn n l))%list.
Proof.
  revert l. induction n as [|n IH]; intros l; [reflexivity|].
  destruct l as [|x l]; simpl.
  - now destruct m.
  - now rewrite IH.
Qed.

Lemma windows_concat {A : Type} (limit : nat) (l : list A) (n : nat) :
  List.concat (map (fun p => firstn limit (skipn ((p - 1) * limit) l)) (seq 1 n))
  = firstn (n * limit) l.
Proof.
  induction n as [|n IH]; [reflexivity|].
  rewrite seq_S, map_app, concat_app, IH. simpl.
  rewrite app_nil_r, Nat.sub_0_r.
  replace (limit + n * limit) with (n * limit + limit) by lia.
  now rewrite firstn_add.
Qed.

Lemma pages_reach_the_end (count limit : nat) :
  0 < limit -> count <= (count + limit - 1) / limit * limit.
Proof.
  intros Hl.
  pose proof (Nat.div_mod_eq (count + limit - 1) limit) as Hd.
  pose proof (Nat.mod_upper_bound (count + limit - 1) limit) as Hm.
  nia.
Qed.

Lemma paged_items {A : Type} (page limit : nat) (sorted : list A) :
  0 < page -> 0 < limit ->
  page_items (paged (Some page) (Some limit) sorted)
  = firstn limit (skipn ((page - 1) * limit) sorted).
Proof.
  intros Hp Hl. unfold page_items, paged, window. simpl.
  destruct page; [lia|]. destruct limit; [lia|]. reflexivity.
Qed.

(** With a positive limit, the pages 1 to totalPages of a paged listing,
    one after the other, are the whole sorted list of matches: nothing is
    left out and nothing repeated. *)
Lemma paged_pages_cover {A : Type} (limit : nat) (sorted : list A) (n : nat) :
  total_pages (List.length sorted) limit = Some n ->
  List.concat (map (fun p => page_items (paged (Some p) (Some limit) sorted))
              (seq 1 n)) = sorted.
Proof.
  unfold total_pages. destruct (limit =? 0) eqn:E; [discriminate|].
  apply Nat.eqb_neq in E. intros [= <-].
  rewrite <- (firstn_all2 sorted (n := (List.length sorted + limit - 1) / limit * limit))
    at 2 by (apply pages_reach_the_end; lia).
  rewrite <- windows_concat. f_equal. apply map_ext_in.
  intros p Hp. apply in_seq in Hp. apply paged_items; lia.
Qed.

Lemma paged_items_incl {A : Type} (page limit : option nat) (sorted : list A)
  (x : A) :
  In x (page_items (paged page limit sorted)) -> In x sorted.
Proof.
  unfold page_items, paged, window.
  destruct ((page_or page =? 0) && negb (limit_or limit =? 0)); simpl;
    [contradiction|].
  set (k := (page_or page - 1) * limit_or limit).
  assert (Hk : forall y, In y (skipn k sorted) -> In y sorted).
  { intros y Hy. rewrite <- (firstn_skipn k sorted). apply in_or_app. now right. }
  destruct (limit_or limit =? 0); intros Hin; apply Hk; [exact Hin|].
  rewrite <- (firstn_skipn (limit_or limit) (skipn k sorted)).
  apply in_or_app. now left.
Qed.







(** ** Reading a tracking session *)

(** The tracking of a request is shown exactly to the callers of
    [may_view_tracking], the assigned worker being recognised through the
    worker profile; what is shown is the first session stored for the
    request, live or not; and no answer without success carries a
    session. *)
Theorem for_service_shows_to_parties_only :
  forall (user : User) (id : ObjectId) (st : Store),
    (forall t,
        snd (TrackingRead.for_service user id st) = Some t <->
        exists sr,
          findById sr_id id (requests st) = Some sr /\
          may_view_tracking user sr st /\
          findOne (fun t => t_serviceRequest t =? id) (trackings st) = Some t) /\
    (res_success (fst (TrackingRead.for_service user id st)) = true <->
     snd (TrackingRead.for_service user id st) <> None).
Proof.
  intros user id st. unfold TrackingRead.for_service, may_view_tracking.
  destruct (findById sr_id id (requests st)) as [sr|].
  2:{ split; [|split; [discriminate|intros H; now contradiction H]].
      intros t. split; [discriminate|]. intros (sr & H & _). discriminate. }
  destruct (sr_customer sr =? u_id user) eqn:Hc; cbn [negb andb].
  - apply Nat.eqb_eq in Hc.
    destruct (findOne (fun t => t_serviceRequest t =? id) (trackings st)) as [t0|].
    + split; [|split; [discriminate|reflexivity]].
      intros t. split.
      * intros [= <-]. exists sr. auto.
      * intros (sr' & _ & _ & [= <-]). reflexivity.
    + split; [|split; [discriminate|intros H; now contradiction H]].
      intros t. split; [discriminate|]. intros (sr' & _ & _ & H). discriminate.
  - apply Nat.eqb_neq in Hc.
    set (isWorker := match findOne _ (workers st), sr_worker sr with
                     | Some worker, Some assigned => assigned =? w_id worker
                     | _, _ => false
                     end).
    assert (HW : isWorker = true <->
                 exists worker,
                   findOne (fun w => w_user w =? u_id user) (workers st)
                   = Some worker /\ sr_worker sr = Some (w_id worker)).
    { unfold isWorker.
      destruct (findOne (fun w => w_user w =? u_id user) (workers st)) as [w|].
      - destruct (sr_worker sr) as [a|].
        + rewrite Nat.eqb_eq. split.
          * intros ->. exists w. auto.
          * intros (w' & [= <-] & [= ->]). reflexivity.
        + split; [discriminate|]. intros (w' & _ & H). discriminate.
      - split; [discriminate|]. intros (w' & H & _). discriminate. }
    destruct isWorker; cbn [negb andb].
    + destruct (findOne (fun t => t_serviceRequest t =? id) (trackings st))
        as [t0|].
      * split; [|split; [discriminate|reflexivity]].
        intros t. split.
        -- intros [= <-]. exists sr. split; [reflexivity|]. split; [|reflexivity].
           right. left. now apply HW.
        -- intros (sr' & _ & _ & [= <-]). reflexivity.
      * split; [|split; [discriminate|intros H; now contradiction H]].
        intros t. split; [discriminate|]. intros (sr' & _ & _ & H). discriminate.
    + destruct (Role_eqb (u_role user) role_admin) eqn:Hr; cbn [negb].
      * apply Role_eqb_eq in Hr.
        destruct (findOne (fun t => t_serviceRequest t =? id) (trackings st))
          as [t0|].
        -- split; [|split; [discriminate|reflexivity]].
           intros t. split.
           ++ intros [= <-]. exists sr. auto.
           ++ intros (sr' & _ & _ & [= <-]). reflexivity.
        -- split; [|split; [discriminate|intros H; now contradiction H]].
           intros t. split; [discriminate|].
           intros (sr' & _ & _ & H). discriminate.
      * split; [|split; [discriminate|intros H; now contradiction H]].
        intros t. split; [discriminate|].
        intros (sr' & [= <-] & [H|[H|H]] & _).
        -- contradiction.
        -- apply HW in H. discriminate.
        -- rewrite H in Hr. discriminate.
Qed.

(** ** Reviews *)

Lemma create_review_fails_if_reviewed (now : Time) (user : User)
  (id : ObjectId) (rating : option Z) (review : option string)
  (reviewType : string) (st : Store) :
  findOne (fun r => (rv_serviceRequest r =? id) && (rv_reviewer r =? u_id user))
          (reviews st) <> None ->
  res_success (fst (ReviewRoute.create now user id rating review reviewType st))
  = false /\
  snd (ReviewRoute.create now user id rating review reviewType st) = st.
Proof.
  intros Hex. unfold ReviewRoute.create.
  destruct (findById sr_id id (requests st)) as [sr|]; [|now split].
  destruct (negb (Status_eqb (sr_status sr) completed)); [now split|].
  destruct (String.eqb reviewType "customer_to_worker").
  - destruct (sr_worker sr) as [a|]; [|now split].
    destruct (findById w_id a (workers st)) as [w|]; [|now split].
    destruct (findOne _ (reviews st)); [now split|]. now contradiction Hex.
  - destruct (String.eqb reviewType "customer_to_shop"); now split.
Qed.

Lemma findOne_app_last {A : Type} (p : A -> bool) (c : list A) (x : A) :
  p x = true -> findOne p (c ++ [x]) <> None.
Proof.
  intros Hp. unfold findOne. induction c as [|y c IH]; simpl.
  - rewrite Hp. discriminate.
  - destruct (p y); [discriminate|exact IH].
Qed.

(** A user reviews a request at most once, by either route, and a rated
    request is not rated again.  After a successful review through
    routes/review, no further review of the request by the same user
    succeeds and no rate call by anyone succeeds; after a successful rate
    call that stored a review, no review of the request by the same user
    succeeds.  Each refused call leaves the store as it was. *)
Theorem review_and_rate_only_once :
  forall (now : Time) (user : User) (id : ObjectId) (rating : option Z)
         (review : option string) (reviewType : string) (st : Store),
    (res_success (fst (ReviewRoute.create now user id rating review reviewType st))
     = true ->
     forall now2 rating2 review2 reviewType2 user3,
       let st' := snd (ReviewRoute.create now user id rating review reviewType st) in
       res_success
         (fst (ReviewRoute.create now2 user id rating2 review2 reviewType2 st'))
       = false /\
       snd (ReviewRoute.create now2 user id rating2 review2 reviewType2 st') = st' /\
       InvalidState
         (fst (Service.rate now2 user3 id rating2 review2 reviewType2 st')) /\
       snd (Service.rate now2 user3 id rating2 review2 reviewType2 st') = st') /\
    (res_success (fst (Service.rate now user id rating review reviewType st)) = true ->
     reviews (snd (Service.rate now user id rating review reviewType st))
     <> reviews st ->
     forall now2 rating2 review2 reviewType2,
       let st' := snd (Service.rate now user id rating review reviewType st) in
       res_success
         (fst (ReviewRoute.create now2 user id rating2 review2 reviewType2 st'))
       = false /\
       snd (ReviewRoute.create now2 user id rating2 review2 reviewType2 st') = st').
Proof.
  intros now user id rating review reviewType st. split.
  - unfold ReviewRoute.create at 1 2.
    destruct (findById sr_id id (requests st)) as [sr|] eqn:Hsr; [|discriminate].
    destruct (Status_eqb (sr_status sr) completed) eqn:Hst; [|discriminate].
    cbn [negb].
    destruct (String.eqb reviewType "customer_to_worker");
      [|destruct (String.eqb reviewType "customer_to_shop"); discriminate].
    destruct (sr_worker sr) as [a|]; [|discriminate].
    destruct (findById w_id a (workers st)) as [w|]; [|discriminate].
    destruct (findOne _ (reviews st)); [discriminate|].
    destruct (Service.valid_rating rating) as [v|] eqn:Hv; [|discriminate].
    intros _ now2 rating2 review2 reviewType2 user3. cbn zeta. cbn [snd].
    destruct (valid_rating_Some _ _ Hv) as [-> Htr].
    destruct (findById_Some _ _ _ _ Hsr) as [Hid _]. subst id.
    set (sr1 := set_sr_updatedAt now
                  (set_sr_customerReview (Some (string_or review ""))
                     (set_sr_customerRating (Some v) sr))).
    assert (Hfind : findById sr_id (sr_id sr)
                      (replaceById sr_id sr1 (requests st)) = Some sr1)
      by apply (findById_replaceById sr_id sr1 sr _ Hsr).
    split; [|split; [|split]].
    + apply create_review_fails_if_reviewed.
      cbn [save_request set_requests reviews].
      rewrite reviews_updateRating_worker. cbn [set_reviews reviews].
      apply findOne_app_last. cbn [rv_serviceRequest rv_reviewer].
      now rewrite !Nat.eqb_refl.
    + apply create_review_fails_if_reviewed.
      cbn [save_request set_requests reviews].
      rewrite reviews_updateRating_worker. cbn [set_reviews reviews].
      apply findOne_app_last. cbn [rv_serviceRequest rv_reviewer].
      now rewrite !Nat.eqb_refl.
    + unfold Service.rate. cbn [save_request set_requests requests].
      rewrite requests_updateRating_worker. cbn [set_reviews requests].
      fold sr1. rewrite Hfind. subst sr1. cbn. apply Status_eqb_eq in Hst.
      rewrite Hst. cbn. simpl in Htr. rewrite Htr. reflexivity.
    + unfold Service.rate. cbn [save_request set_requests requests].
      rewrite requests_updateRating_worker. cbn [set_reviews requests].
      fold sr1. rewrite Hfind. subst sr1. cbn. apply Status_eqb_eq in Hst.
      rewrite Hst. cbn. simpl in Htr. rewrite Htr. reflexivity.
  - unfold Service.rate at 1 2 3.
    destruct (findById sr_id id (requests st)) as [sr|] eqn:Hsr; [|discriminate].
    destruct (findById_Some _ _ _ _ Hsr) as [Hid _]. subst id.
    destruct (negb (Status_eqb (sr_status sr) completed)); [discriminate|].
    destruct (truthy_number (sr_customerRating sr)); [discriminate|].
    destruct ((sr_customer sr =? u_id user)
              && String.eqb reviewType "customer_to_worker").
    2:{ intros _ H. now contradiction H. }
    destruct (match sr_worker _ with Some w => _ | None => None end) as [w|];
      [|discriminate].
    destruct (Service.valid_rating rating) as [v|]; [|discriminate].
    intros _ _ now2 rating2 review2 reviewType2. cbn zeta. cbn [snd].
    apply create_review_fails_if_reviewed.
    cbn [save_request set_requests reviews].
    rewrite reviews_updateRating_worker. cbn [set_reviews reviews].
    apply findOne_app_last. cbn [rv_serviceRequest rv_reviewer].
    now rewrite !Nat.eqb_refl.
Qed.

(** Alice reviews the completed job through routes/review. *)
Lemma review_and_rate_only_once_witness :
  res_success
    (fst (ReviewRoute.create 5 alice 1 (Some 5%Z) None "customer_to_worker"
            job_done)) = true /\
  forall now2 rating2 review2 reviewType2 user3,
    res_success
      (fst (ReviewRoute.create now2 alice 1 rating2 review2 reviewType2
              (snd (ReviewRoute.create 5 alice 1 (Some 5%Z) None
                      "customer_to_worker" job_done)))) = false /\
    snd (ReviewRoute.create now2 alice 1 rating2 review2 reviewType2
           (snd (ReviewRoute.create 5 alice 1 (Some 5%Z) None
                   "customer_to_worker" job_done)))
    = snd (ReviewRoute.create 5 alice 1 (Some 5%Z) None "customer_to_worker"
             job_done) /\
    InvalidState
      (fst (Service.rate now2 user3 1 rating2 review2 reviewType2
              (snd (ReviewRoute.create 5 alice 1 (Some 5%Z) None
                      "customer_to_worker" job_done)))) /\
    snd (Service.rate now2 user3 1 rating2 review2 reviewType2
           (snd (ReviewRoute.create 5 alice 1 (Some 5%Z) None
                   "customer_to_worker" job_done)))
    = snd (ReviewRoute.create 5 alice 1 (Some 5%Z) None "customer_to_worker"
             job_done).
Proof.
  split; [reflexivity|].
  exact (proj1 (review_and_rate_only_once 5 alice 1 (Some 5%Z) None
                  "customer_to_worker" job_done) eq_refl).
Defined.

Lemma requests_after_rating (w : option ObjectId) (st : Store) :
  requests match w with
           | Some i => Service.updateRating_worker i st
           | None => st
           end = requests st.
Proof. destruct w; [apply requests_updateRating_worker|reflexivity]. Qed.

Lemma reviews_after_rating (w : option ObjectId) (st : Store) :
  reviews match w with
          | Some i => Service.updateRating_worker i st
          | None => st
          end = reviews st.
Proof. destruct w; [apply reviews_updateRating_worker|reflexivity]. Qed.

(** Deleting a review is soft and touches no request.  The review stays
    in the collection, inactive and otherwise as it was; the request keeps
    the customer rating it got from the review; and when the worker has no
    active review left, the profile keeps the average and the count it
    had, since the recomputation writes only when it finds a review. *)
Theorem delete_review_is_soft :
  forall (now : Time) (user : User) (id : ObjectId) (st : Store) (rv : Review),
    authorize role_admin user = true ->
    findById rv_id id (reviews st) = Some rv ->
    let st' := snd (ReviewRoute.delete now user id st) in
    res_success (fst (ReviewRoute.delete now user id st)) = true /\
    map rv_id (reviews st') = map rv_id (reviews st) /\
    findById rv_id id (reviews st') = Some (set_rv_isActive false rv) /\
    requests st' = requests st /\
    (filter (fun r => match rv_worker r with
                      | Some w => match rv_worker rv with
                                  | Some target => (w =? target) && rv_isActive r
                                  | None => false
                                  end
                      | None => false
                      end) (reviews st') = [] ->
     workers st' = workers st).
Proof.
  intros now user id st rv Hauth Hrv. unfold ReviewRoute.delete.
  rewrite Hauth, Hrv. cbn zeta. cbn [negb fst snd res_success ok].
  destruct (findById_Some _ _ _ _ Hrv) as [Hid _]. subst id.
  split; [reflexivity|]. rewrite reviews_after_rating, requests_after_rating.
  cbn [set_reviews reviews requests rv_worker set_rv_isActive].
  split; [apply map_id_replaceById|].
  split; [apply (findById_replaceById rv_id (set_rv_isActive false rv) rv _ Hrv)|].
  split; [reflexivity|].
  destruct (rv_worker rv) as [target|]; [|reflexivity].
  intros Hnone. unfold Service.updateRating_worker.
  cbn [reviews set_reviews]. now rewrite Hnone.
Qed.

(** Carol deletes the only review of Bob: the review stays, inactive, and
    Bob's profile keeps its average and count. *)
Lemma delete_review_is_soft_witness :
  res_success
    (fst (ReviewRoute.delete 7 carol 1
            (snd (run rated_both_ways registered)))) = true /\
  map rv_isActive
    (reviews (snd (ReviewRoute.delete 7 carol 1
                     (snd (run rated_both_ways registered))))) = [false] /\
  workers (snd (ReviewRoute.delete 7 carol 1
                  (snd (run rated_both_ways registered))))
  = workers (snd (run rated_both_ways registered)).
Proof.
  pose proof (delete_review_is_soft 7 carol 1
                (snd (run rated_both_ways registered))
                (mkReview 1 1 1 2 (Some 10) 5 "" "customer_to_worker" true)
                eq_refl eq_refl) as H.
  cbv zeta in H. destruct H as (H1 & _ & _ & _ & H5).
  split; [exact H1|]. split; [reflexivity|]. apply H5. reflexivity.
Defined.

(** Updating a review never touches the service request, so the customer
    rating stored on the request keeps the value of the first review.  A
    rating outside 1 to 5 is refused by the save with the store unchanged;
    a rating inside is stored on the review. *)
Theorem update_review_keeps_request :
  forall (now : Time) (user : User) (id : ObjectId) (rating : option Z)
         (review : option string) (st : Store),
    let st' := snd (ReviewRoute.update now user id rating review st) in
    requests st' = requests st /\
    map rv_id (reviews st') = map rv_id (reviews st) /\
    (forall r, rating = Some r -> r <> 0%Z -> ~ (1 <= r <= 5)%Z ->
               res_success (fst (ReviewRoute.update now user id rating review st))
               = false /\ st' = st) /\
    (forall r, rating = Some r -> (1 <= r <= 5)%Z ->
               res_success (fst (ReviewRoute.update now user id rating review st))
               = true ->
               exists rv', findById rv_id id (reviews st') = Some rv' /\
                           rv_rating rv' = r).
Proof.
  intros now user id rating review st. cbn zeta. unfold ReviewRoute.update.
  destruct (findById rv_id id (reviews st)) as [rv|] eqn:Hrv.
  2:{ repeat split; trivial; intros; discriminate. }
  destruct (findById_Some _ _ _ _ Hrv) as [Hid _]. subst id.
  destruct (negb (rv_reviewer rv =? u_id user)
            && negb (Role_eqb (u_role user) role_admin)).
  { repeat split; trivial; intros; discriminate. }
  set (rv1 := match rating with
              | Some r => if truthy_number rating then set_rv_rating r rv else rv
              | None => rv
              end).
  set (rv2 := match review with
              | Some text => set_rv_review text rv1
              | None => rv1
              end).
  assert (Hid2 : rv_id rv2 = rv_id rv).
  { unfold rv2, rv1. destruct review, rating as [r|];
      try destruct (truthy_number (Some r)); reflexivity. }
  assert (Hrat : forall r, rating = Some r -> r <> 0%Z -> rv_rating rv2 = r).
  { intros r -> Hr. unfold rv2, rv1.
    assert (Ht : truthy_number (Some r) = true)
      by (simpl; apply negb_true_iff; now apply Z.eqb_neq).
    rewrite Ht. now destruct review. }
  destruct (truthy_number rating
            && negb ((1 <=? rv_rating rv2)%Z && (rv_rating rv2 <=? 5)%Z)) eqn:Hbad.
  - repeat split; trivial. intros r Hr Hb. discriminate.
  - cbn [snd fst]. rewrite requests_after_rating, reviews_after_rating.
    cbn [set_reviews requests reviews].
    split; [reflexivity|]. split; [apply map_id_replaceById|]. split.
    + intros r Hr Hnz Hout. exfalso.
      apply andb_false_iff in Hbad. destruct Hbad as [Hb|Hb].
      * rewrite Hr in Hb. simpl in Hb. apply negb_false_iff, Z.eqb_eq in Hb.
        contradiction.
      * apply negb_false_iff, andb_true_iff in Hb. destruct Hb as [H1 H2].
        apply Z.leb_le in H1, H2. rewrite (Hrat r Hr Hnz) in H1, H2. lia.
    + intros r Hr Hb _. exists rv2. split.
      * rewrite <- Hid2.
        apply (findById_replaceById rv_id rv2 rv). now rewrite Hid2.
      * apply Hrat; [exact Hr|lia].
Qed.

Lemma rated_workers_in_range (w : option ObjectId) (st : Store) :
  ratings_in_range st ->
  forall x,
    In x (workers match w with
                  | Some i => Service.updateRating_worker i st
                  | None => st
                  end) ->
    w_ratingAverage x = 0%R \/ (1 <= w_ratingAverage x <= 5)%R.
Proof.
  intros [Hrv Hw] x Hin. destruct w as [i|]; [|now apply Hw].
  apply updateRating_worker_writes in Hin; [|exact Hrv].
  destruct Hin as [Hin|(_ & _ & _ & Hb)]; [now apply Hw|now right].
Qed.

(** The three handlers of routes/review keep the ratings in range: after a
    review is created, updated or deleted every review still carries a
    rating from 1 to 5 and every worker's average is 0 or between 1 and
    5. *)
Theorem review_routes_keep_ratings_in_range :
  forall (now : Time) (user : User) (id : ObjectId) (rating : option Z)
         (review : option string) (reviewType : string) (st : Store),
    ratings_in_range st ->
    ratings_in_range
      (snd (ReviewRoute.create now user id rating review reviewType st)) /\
    ratings_in_range (snd (ReviewRoute.update now user id rating review st)) /\
    ratings_in_range (snd (ReviewRoute.delete now user id st)).
Proof.
  intros now user id rating review reviewType st Hr. split; [|split].
  - unfold ReviewRoute.create.
    destruct (findById sr_id id (requests st)) as [sr|]; [|exact Hr].
    destruct (negb (Status_eqb (sr_status sr) completed)); [exact Hr|].
    destruct (String.eqb reviewType "customer_to_worker");
      [|destruct (String.eqb reviewType "customer_to_shop"); exact Hr].
    destruct (sr_worker sr) as [a|]; [|exact Hr].
    destruct (findById w_id a (workers st)) as [w|]; [|exact Hr].
    destruct (findOne _ (reviews st)); [exact Hr|].
    destruct (Service.valid_rating rating) as [v|] eqn:Hv; [|exact Hr].
    cbn [snd].
    set (st1 := set_reviews _ st).
    assert (H1 : ratings_in_range st1).
    { destruct Hr as [Hrv Hw]. split; [|exact Hw].
      intros rv Hin. unfold st1 in Hin. cbn [reviews set_reviews] in Hin.
      apply in_app_or in Hin. destruct Hin as [Hin|[<-|[]]]; [now apply Hrv|].
      cbn [rv_rating]. unfold Service.valid_rating in Hv.
      destruct rating as [x|]; [|discriminate].
      destruct ((1 <=? x)%Z && (x <=? 5)%Z) eqn:Hx; [|discriminate].
      injection Hv as <-. apply andb_true_iff in Hx. destruct Hx as [Ha Hb].
      apply Z.leb_le in Ha, Hb. lia. }
    split.
    + cbn [save_request set_requests reviews].
      rewrite reviews_updateRating_worker. apply H1.
    + cbn [save_request set_requests workers].
      apply (rated_workers_in_range (Some (w_id w)) st1 H1).
  - unfold ReviewRoute.update.
    destruct (findById rv_id id (reviews st)) as [rv|] eqn:Hrv; [|exact Hr].
    destruct (negb (rv_reviewer rv =? u_id user)
              && negb (Role_eqb (u_role user) role_admin)); [exact Hr|].
    set (rv1 := match rating with
                | Some r => if truthy_number rating then set_rv_rating r rv else rv
                | None => rv
                end).
    set (rv2 := match review with
                | Some text => set_rv_review text rv1
                | None => rv1
                end).
    destruct (truthy_number rating
              && negb ((1 <=? rv_rating rv2)%Z && (rv_rating rv2 <=? 5)%Z))
      eqn:Hbad; [exact Hr|].
    cbn [snd]. set (st1 := set_reviews _ st).
    assert (Hcases : truthy_number rating = true \/ rv_rating rv2 = rv_rating rv).
    { unfold rv2, rv1. destruct rating as [r|]; [|right; now destruct review].
      destruct (truthy_number (Some r)); [now left|right; now destruct review]. }
    assert (Hrv2 : (1 <= rv_rating rv2 <= 5)%Z).
    { destruct Hcases as [Ht|E].
      - rewrite Ht in Hbad. cbn [andb] in Hbad.
        apply negb_false_iff, andb_true_iff in Hbad.
        destruct Hbad as [Ha Hb]. apply Z.leb_le in Ha, Hb. lia.
      - rewrite E. apply (proj1 Hr). apply (findById_Some _ _ _ _ Hrv). }
    assert (H1 : ratings_in_range st1).
    { destruct Hr as [Hrev Hw]. split; [|exact Hw].
      intros x Hin. unfold st1 in Hin. cbn [reviews set_reviews] in Hin.
      apply In_replaceById in Hin. destruct Hin as [->|Hin];
        [exact Hrv2|now apply Hrev]. }
    split.
    + rewrite reviews_after_rating. apply H1.
    + apply (rated_workers_in_range _ st1 H1).
  - unfold ReviewRoute.delete.
    destruct (negb (authorize role_admin user)); [exact Hr|].
    destruct (findById rv_id id (reviews st)) as [rv|] eqn:Hrv; [|exact Hr].
    cbn [snd]. set (st1 := set_reviews _ st).
    assert (H1 : ratings_in_range st1).
    { destruct Hr as [Hrev Hw]. split; [|exact Hw].
      intros x Hin. unfold st1 in Hin. cbn [reviews set_reviews] in Hin.
      apply In_replaceById in Hin. destruct Hin as [->|Hin]; [|now apply Hrev].
      cbn [rv_rating set_rv_isActive]. apply Hrev.
      apply (findById_Some _ _ _ _ Hrv). }
    split.
    + rewrite reviews_after_rating. apply H1.
    + apply (rated_workers_in_range _ st1 H1).
Qed.

(** The store of the completed job, before any review. *)
Lemma review_routes_keep_ratings_in_range_witness :
  ratings_in_range
    (snd (ReviewRoute.create 5 alice 1 (Some 5%Z) None "customer_to_worker"
            job_done)) /\
  ratings_in_range (snd (ReviewRoute.update 5 alice 1 (Some 5%Z) None job_done)) /\
  ratings_in_range (snd (ReviewRoute.delete 5 alice 1 job_done)).
Proof.
  apply (review_routes_keep_ratings_in_range 5 alice 1 (Some 5%Z) None
           "customer_to_worker" job_done).
  split.
  - intros rv [].
  - intros w [<-|[]]. now left.
Defined.

(** ** One-time passwords *)

(** The number that [generateOTP] prints has six digits: whatever
    [Math.random()] returns in its range, from 0 to below 1, the result
    lies from 100000 to 999999. *)
Theorem generateOTP_six_digits :
  forall random : R,
    (0 <= random < 1)%R ->
    (100000 <= Otp.generateOTP random <= 999999)%Z.
Proof.
  intros random [H0 H1]. unfold Otp.generateOTP.
  pose proof (Zfloor_bound (100000 + random * 900000)) as [Hlo Hhi].
  split.
  - apply Zfloor_lub. simpl. nra.
  - assert (H : (Zfloor (100000 + random * 900000) < 1000000)%Z).
    { apply lt_IZR. eapply Rle_lt_trans; [exact Hlo|]. simpl. nra. }
    lia.
Qed.

(** A draw of one half gives 550000. *)
Lemma generateOTP_six_digits_witness :
  (100000 <= Otp.generateOTP (1 / 2) <= 999999)%Z.
Proof.
  apply (generateOTP_six_digits (1 / 2)%R). lra.
Defined.

(** ** Creating a request *)


(** ** Witnesses of the invariants of the handlers *)

(** Bob's accept of Alice's pending request takes an edge of the
    lifecycle. *)
Lemma guarded_step_follows_edges_witness :
  exists r',
    findById sr_id 1 (requests (snd (step 2 (OpAccept bob 1) asked))) = Some r' /\
    (sr_status r' = sr_status asked_request \/
     lifecycle_edge (sr_status asked_request) (sr_status r') = true).
Proof.
  exact (guarded_step_follows_edges 2 (OpAccept bob 1) asked 1 asked_request
           eq_refl eq_refl).
Defined.

(** Opening a session on Alice's request leaves it with one live
    session. *)
Lemma create_tracking_keeps_one_live_witness :
  List.length
    (live_trackings 1 (snd (TrackingRoute.create 2 bob 1 None None asked))) <= 1.
Proof.
  apply (create_tracking_keeps_one_live 2 bob 1 None None asked).
  intros rid. apply Nat.le_0_l.
Defined.

(** Along every trace of calls the location history of a tracking record is
    append-only: what was recorded stays, in order, and the record gains
    exactly one entry for each successful location update addressed to it. *)
Theorem location_history_is_append_only :
  forall (trace : list (Time * Op)) (st : Store) (id : ObjectId) (t : Tracking),
    findById t_id id (trackings st) = Some t ->
    exists t' suffix,
      findById t_id id (trackings (snd (run trace st))) = Some t' /\
      t_locationHistory t' = (t_locationHistory t ++ suffix)%list /\
      List.length suffix = count_location_updates id trace st.
Proof.
  exact run_history_length.
Qed.

(** The session of [track_then_move] after Bob's two position reports. *)
Lemma location_history_is_append_only_witness :
  exists t' suffix,
    findById t_id 1
      (trackings (snd (run (skipn 3 track_then_move)
                           (snd (run (firstn 3 track_then_move) registered)))))
    = Some t' /\
    t_locationHistory t'
    = ([mkHistoryEntry origin "" 3] ++ suffix)%list /\
    List.length suffix
    = count_location_updates 1 (skipn 3 track_then_move)
        (snd (run (firstn 3 track_then_move) registered)).
Proof.
  exact (location_history_is_append_only (skipn 3 track_then_move)
           (snd (run (firstn 3 track_then_move) registered)) 1
           (mkTracking 1 1 10 1 (mkCurrentLocation origin "" 3) origin en_route
              true [mkHistoryEntry origin "" 3] 3 None 3)
           eq_refl).
Defined.
